(** * The task-management backend (src/applications/webapp/backend/src/app.js)

    A shallow embedding of the Express application: the Joi request schemas,
    the Mongoose models with their casting rules and validators, the
    [authenticateToken] middleware and the seven API handlers, written as
    state-passing computations over the two collections of the document
    store.

    Conventions of the embedding:
    - a JavaScript string is a [string]; one character stands for one UTF-16
      code unit below 256;
    - a date is its number of milliseconds ([Z]); an ObjectId is an [N];
    - every call of the store is recorded in a log, so that "the store was
      not touched" is a statement about the final state;
    - an exception thrown inside a handler's [try] block is the outcome
      [None] of the computation, which the handler's [catch] turns into the
      500 answer;
    - the third-party functions whose results the code only passes on
      (bcrypt, jsonwebtoken, Joi's e-mail and ISO-date recognisers, the
      ObjectId parser) are the fields of [Libs]; every theorem holds for
      every such library;
    - the middleware mounted on every route (helmet, the rate limiter,
      CORS, the body parsers, the request logger) and the messages written
      to the logger are left out: a request is one that reached its route
      with its body parsed. *)

From Stdlib Require Import ZArith NArith List String Ascii Bool Lia Arith.
From Stdlib Require Import Permutation Sorted DecimalString.
Import ListNotations.

Set Warnings "-register-all".

Local Open Scope string_scope.
Local Open Scope Z_scope.

(** ** JavaScript strings *)

Module JsString.

Definition code (c : ascii) : N := N_of_ascii c.

Definition in_range (lo hi : N) (c : ascii) : bool :=
  (N.leb lo (code c) && N.leb (code c) hi)%bool.

Definition is_digit (c : ascii) : bool := in_range 48 57 c.
Definition is_upper (c : ascii) : bool := in_range 65 90 c.
Definition is_lower (c : ascii) : bool := in_range 97 122 c.

(** The class [[a-zA-Z0-9]]. *)
Definition is_alnum (c : ascii) : bool :=
  (is_digit c || is_upper c || is_lower c)%bool.

(** The class [[a-zA-Z0-9_]]. *)
Definition is_word (c : ascii) : bool :=
  (is_alnum c || Ascii.eqb c "_")%bool.

(** The class [\s] (and what [String.prototype.trim] strips) below 256. *)
Definition is_space (c : ascii) : bool :=
  (in_range 9 13 c || N.eqb (code c) 32 || N.eqb (code c) 160)%bool.

(** [toLowerCase] on one code unit below 256: A-Z, and the Latin-1 capitals
    192..222 without the multiplication sign 215. *)
Definition lower_char (c : ascii) : ascii :=
  if (is_upper c || (in_range 192 222 c && negb (N.eqb (code c) 215)))%bool
  then ascii_of_N (code c + 32)
  else c.

Fixpoint toLowerCase (s : string) : string :=
  match s with
  | EmptyString => EmptyString
  | String c r => String (lower_char c) (toLowerCase r)
  end.

Fixpoint all_chars (p : ascii -> bool) (s : string) : bool :=
  match s with
  | EmptyString => true
  | String c r => (p c && all_chars p r)%bool
  end.

Fixpoint trimStart (s : string) : string :=
  match s with
  | EmptyString => EmptyString
  | String c r => if is_space c then trimStart r else s
  end.

(** [trimEnd]: a character is dropped when it is a space and everything
    after it was dropped. *)
Fixpoint trimEnd (s : string) : string :=
  match s with
  | EmptyString => EmptyString
  | String c r =>
      match trimEnd r with
      | EmptyString => if is_space c then EmptyString else String c EmptyString
      | r' => String c r'
      end
  end.

Definition trim (s : string) : string := trimEnd (trimStart s).

(** [s.split(sep)] for a one-character separator: never the empty list. *)
Fixpoint split (sep : ascii) (s : string) : list string :=
  match s with
  | EmptyString => [EmptyString]
  | String c r =>
      if Ascii.eqb c sep then EmptyString :: split sep r
      else match split sep r with
           | [] => [String c EmptyString]
           | w :: ws => String c w :: ws
           end
  end.

Definition is_empty (s : string) : bool :=
  match s with EmptyString => true | _ => false end.

Definition len (s : string) : nat := String.length s.

(** [/^[a-zA-Z0-9]+$/] *)
Definition re_alphanum (s : string) : bool :=
  (negb (is_empty s) && all_chars is_alnum s)%bool.

(** [/^[a-zA-Z0-9_]+$/], the [match] of [userSchema.username]. *)
Definition re_username (s : string) : bool :=
  (negb (is_empty s) && all_chars is_word s)%bool.

Definition is_atom_char (c : ascii) : bool :=
  (negb (is_space c) && negb (Ascii.eqb c "@"))%bool.

(** [[^\s@]+\.[^\s@]+] anchored at both ends: only atom characters, and a
    dot with at least one character before it and one after it. *)
Fixpoint re_domain_from (seen : bool) (s : string) : bool :=
  match s with
  | EmptyString => false
  | String c r =>
      (is_atom_char c &&
       ((seen && Ascii.eqb c "." && negb (is_empty r) && all_chars is_atom_char r)
        || re_domain_from true r))%bool
  end.

(** [/^[^\s@]+@[^\s@]+\.[^\s@]+$/], the [match] of [userSchema.email]. *)
Fixpoint re_email_from (seen : bool) (s : string) : bool :=
  match s with
  | EmptyString => false
  | String c r =>
      if Ascii.eqb c "@" then (seen && re_domain_from false r)%bool
      else (is_atom_char c && re_email_from true r)%bool
  end.

Definition re_email (s : string) : bool := re_email_from false s.

End JsString.

(** ** JavaScript numbers, as far as pagination needs them *)

Module JsNum.

(** The numbers a handler can compute from integers: an integer, NaN, or an
    infinity ([JInf true] is the negative one). *)
Inductive jsnum : Type :=
| JInt (z : Z)
| JNaN
| JInf (negative : bool).

(** [Math.ceil(total / limit)] for integers: the quotient rounded up, and
    the IEEE results of a division by zero. *)
Definition ceil_div (total limit : Z) : jsnum :=
  if limit =? 0 then
    (if total =? 0 then JNaN else JInf (total <? 0))
  else JInt (- ((- total) / limit)).

End JsNum.

(** ** Values shared by the schemas, the models and the handlers *)

Inductive Role : Type := role_user | role_admin.

Inductive Status : Type := pending | in_progress | completed.

Inductive Priority : Type := low | medium | high.

Definition status_name (s : Status) : string :=
  match s with
  | pending => "pending"
  | in_progress => "in-progress"
  | completed => "completed"
  end.

Definition priority_name (p : Priority) : string :=
  match p with
  | low => "low"
  | medium => "medium"
  | high => "high"
  end.

(** A parsed JSON value ([express.json()] leaves one in [req.body]). A
    number is represented by an integer: no schema of the application
    accepts a number, so only its being a number matters. *)
Inductive json : Type :=
| JNull
| JBool (b : bool)
| JNumber (z : Z)
| JString (s : string)
| JArray (items : list json)
| JObject (fields : list (string * json)).

(** What [jwt.sign] is given and [jwt.verify] gives back: the identity the
    token asserts. [jwt_userId] is the ObjectId as the token carries it, a
    string. *)
Record Identity : Type := {
  jwt_userId : string;
  jwt_username : string;
  jwt_role : Role
}.

(** The third-party functions of the application.
    - [joi_email]: the recogniser behind [Joi.string().email()];
    - [joi_iso_date]: [Joi.date().iso()], the timestamp of a value in ISO
      8601 format;
    - [bcrypt_hash pw salt]: [bcrypt.hash(pw, 12)] with the salt it drew;
    - [bcrypt_compare pw hash]: [bcrypt.compare];
    - [jwt_sign ident now]: [jwt.sign(ident, secret, {expiresIn: '7d'})];
    - [jwt_verify token now]: [jwt.verify(token, secret, cb)], [None] when
      the callback is given an error (bad signature, malformed or expired
      token);
    - [cast_ObjectId]: Mongoose's cast of a string to an ObjectId, [None]
      when it throws a CastError;
    - [show_ObjectId]: the string an ObjectId is serialised to. *)
Record Libs : Type := {
  joi_email : string -> bool;
  joi_iso_date : json -> option Z;
  bcrypt_hash : string -> N -> string;
  bcrypt_compare : string -> string -> bool;
  jwt_sign : Identity -> Z -> string;
  jwt_verify : string -> Z -> option Identity;
  cast_ObjectId : string -> option N;
  show_ObjectId : N -> string
}.

(** ** Joi: the request schemas (lines 191-210) *)

Module Joi.

Import JsString.

(** The error types of Joi that the three schemas can produce. *)
Inductive error_type : Type :=
| any_required
| any_only
| string_base
| string_empty
| string_alphanum
| string_email
| string_min (n : nat)
| string_max (n : nat)
| date_format
| array_base
| object_base
| object_unknown.

(** [error.details[0]]: the key (and item) at fault and the error type; the
    message sent to the client is made of these. *)
Record details : Type := {
  key : string;
  item : option nat;
  why : error_type
}.

Inductive validation (A : Type) : Type :=
| Valid (value : A)
| Invalid (error : details).

Arguments Valid {A} value.
Arguments Invalid {A} error.

Definition and_then {A B : Type} (v : validation A) (k : A -> validation B)
  : validation B :=
  match v with
  | Valid a => k a
  | Invalid e => Invalid e
  end.

Notation "x <- v ;; k" := (and_then v (fun x => k))
  (at level 61, v at next level, right associativity).

(** The rules chained on a [Joi.string()]; they are checked in the order
    they were chained and the first failure is reported (abortEarly). *)
Inductive rule : Type :=
| alphanum
| email
| min (n : nat)
| max (n : nat).

Definition broken (L : Libs) (r : rule) (s : string) : option error_type :=
  match r with
  | alphanum => if re_alphanum s then None else Some string_alphanum
  | email => if joi_email L s then None else Some string_email
  | min n => if Nat.leb n (len s) then None else Some (string_min n)
  | max n => if Nat.leb (len s) n then None else Some (string_max n)
  end.

Fixpoint first_broken (L : Libs) (rs : list rule) (s : string) : option error_type :=
  match rs with
  | [] => None
  | r :: rs' =>
      match broken L r s with
      | Some c => Some c
      | None => first_broken L rs' s
      end
  end.

Definition mem (s : string) (l : list string) : bool :=
  existsb (String.eqb s) l.

(** [Joi.string()] with its chained rules and the values added by
    [.allow(...)]: an allowed value passes at once; otherwise the value must
    be a string, not the empty one, and break no rule. *)
Definition string_ (L : Libs) (allow : list string) (rs : list rule) (v : json)
  : error_type + string :=
  match v with
  | JString s =>
      if mem s allow then inr s
      else if is_empty s then inl string_empty
      else match first_broken L rs s with
           | Some c => inl c
           | None => inr s
           end
  | _ => inl string_base
  end.

(** [Joi.string().valid(...)]: only the listed values pass. *)
Definition valid {A : Type} (table : list (string * A)) (v : json) : error_type + A :=
  match v with
  | JString s =>
      match find (fun e => String.eqb s (fst e)) table with
      | Some e => inr (snd e)
      | None => inl any_only
      end
  | _ => inl any_only
  end.

(** [Joi.date().iso()] *)
Definition date_iso (L : Libs) (v : json) : error_type + Z :=
  match joi_iso_date L v with
  | Some t => inr t
  | None => inl date_format
  end.

(** The items of [Joi.array().items(schema)], from index [i] on. *)
Fixpoint items {A : Type} (k : string) (schema : json -> error_type + A)
  (i : nat) (l : list json) : validation (list A) :=
  match l with
  | [] => Valid []
  | v :: l' =>
      match schema v with
      | inl c => Invalid {| key := k; item := Some i; why := c |}
      | inr a => r <- items k schema (S i) l' ;; Valid (a :: r)
      end
  end.

Fixpoint lookup (k : string) (o : list (string * json)) : option json :=
  match o with
  | [] => None
  | (k', v) :: o' => if String.eqb k k' then Some v else lookup k o'
  end.

(** A key whose schema ends in [.required()]. *)
Definition required {A : Type} (k : string) (schema : json -> error_type + A)
  (o : list (string * json)) : validation A :=
  match lookup k o with
  | None => Invalid {| key := k; item := None; why := any_required |}
  | Some v =>
      match schema v with
      | inl c => Invalid {| key := k; item := None; why := c |}
      | inr a => Valid a
      end
  end.

(** A key that may be absent. *)
Definition optional {A : Type} (k : string) (schema : json -> error_type + A)
  (o : list (string * json)) : validation (option A) :=
  match lookup k o with
  | None => Valid None
  | Some v =>
      match schema v with
      | inl c => Invalid {| key := k; item := None; why := c |}
      | inr a => Valid (Some a)
      end
  end.

(** The [tags] key: an optional array whose items are checked in turn. *)
Definition optional_array {A : Type} (k : string) (schema : json -> error_type + A)
  (o : list (string * json)) : validation (option (list A)) :=
  match lookup k o with
  | None => Valid None
  | Some (JArray l) => r <- items k schema 0%nat l ;; Valid (Some r)
  | Some _ => Invalid {| key := k; item := None; why := array_base |}
  end.

(** [Joi.object({...})] on the value: it must be an object (an array is
    not). *)
Definition object (v : json) : validation (list (string * json)) :=
  match v with
  | JObject o => Valid o
  | _ => Invalid {| key := ""; item := None; why := object_base |}
  end.

(** After the keys of the schema were checked, the first key of the object
    that the schema does not name is refused. *)
Definition no_unknown (known : list string) (o : list (string * json))
  : validation unit :=
  match find (fun e => negb (mem (fst e) known)) o with
  | Some e => Invalid {| key := fst e; item := None; why := object_unknown |}
  | None => Valid tt
  end.

End Joi.

Import Joi.

Record RegisterValue : Type := {
  reg_username : string;
  reg_email : string;
  reg_password : string
}.

Record LoginValue : Type := {
  login_email : string;
  login_password : string
}.

(** The validated task-write payload: the keys the body did not have are
    absent from [value] too. *)
Record TaskValue : Type := {
  v_title : string;
  v_description : option string;
  v_status : option Status;
  v_priority : option Priority;
  v_dueDate : option Z;
  v_tags : option (list string)
}.

(** [registerSchema] (lines 192-196) *)
Definition registerSchema (L : Libs) (body : json) : validation RegisterValue :=
  o <- Joi.object body ;;
  u <- required "username" (string_ L [] [alphanum; min 3; max 30]) o ;;
  e <- required "email" (string_ L [] [email]) o ;;
  p <- required "password" (string_ L [] [min 6; max 128]) o ;;
  _ <- no_unknown ["username"; "email"; "password"] o ;;
  Valid {| reg_username := u; reg_email := e; reg_password := p |}.

(** [loginSchema] (lines 198-201) *)
Definition loginSchema (L : Libs) (body : json) : validation LoginValue :=
  o <- Joi.object body ;;
  e <- required "email" (string_ L [] [email]) o ;;
  p <- required "password" (string_ L [] []) o ;;
  _ <- no_unknown ["email"; "password"] o ;;
  Valid {| login_email := e; login_password := p |}.

(** [taskSchema_validation] (lines 203-210) *)
Definition taskSchema_validation (L : Libs) (body : json) : validation TaskValue :=
  o <- Joi.object body ;;
  t <- required "title" (string_ L [] [max 100]) o ;;
  d <- optional "description" (string_ L [""] [max 500]) o ;;
  s <- optional "status"
         (valid [("pending", pending); ("in-progress", in_progress);
                 ("completed", completed)]) o ;;
  p <- optional "priority"
         (valid [("low", low); ("medium", medium); ("high", high)]) o ;;
  due <- optional "dueDate" (date_iso L) o ;;
  tg <- optional_array "tags" (string_ L [] [max 20]) o ;;
  _ <- no_unknown ["title"; "description"; "status"; "priority"; "dueDate"; "tags"] o ;;
  Valid {| v_title := t; v_description := d; v_status := s; v_priority := p;
           v_dueDate := due; v_tags := tg |}.

(** ** The document store: the two Mongoose models (lines 78-189) *)

Import JsString JsNum.

(** A document of the [users] collection. [password] holds the bcrypt hash
    once the document is saved. *)
Record User : Type := {
  user_id : N;
  username : string;
  email : string;
  password : string;
  role : Role;
  isActive : bool;
  lastLogin : option Z;
  user_createdAt : Z
}.

(** A document of the [tasks] collection. *)
Record Task : Type := {
  task_id : N;
  title : string;
  description : option string;
  status : Status;
  priority : Priority;
  dueDate : option Z;
  tags : list string;
  userId : N;
  createdAt : Z;
  updatedAt : Z
}.

(** The calls of the Mongoose API a handler can make. [c_Task_find] records
    the window it was given. *)
Inductive StoreCall : Type :=
| c_User_findOne
| c_User_findById
| c_User_save
| c_Task_find (limit skip : Z)
| c_Task_countDocuments
| c_Task_save
| c_Task_findOneAndUpdate
| c_Task_findOneAndDelete.

(** The store: the collections in their natural (insertion) order and the
    calls made so far, the latest first. *)
Record Store : Type := {
  users : list User;
  tasks : list Task;
  calls : list StoreCall
}.

(** A computation on the store that may throw: [None] is the exception. *)
Definition Db (A : Type) : Type := Store -> option A * Store.

Definition ret {A : Type} (a : A) : Db A := fun st => (Some a, st).

Definition throw {A : Type} : Db A := fun st => (None, st).

Definition bind {A B : Type} (m : Db A) (k : A -> Db B) : Db B :=
  fun st =>
    match m st with
    | (Some a, st') => k a st'
    | (None, st') => (None, st')
    end.

Notation "'await' x <- m ;; k" := (bind m (fun x => k))
  (at level 61, x name, m at next level, right associativity).

Definition called (c : StoreCall) : Db unit :=
  fun st => (Some tt, {| users := users st; tasks := tasks st; calls := c :: calls st |}).

Definition read {A : Type} (f : Store -> A) : Db A := fun st => (Some (f st), st).

Definition write_users (us : list User) : Db unit :=
  fun st => (Some tt, {| users := us; tasks := tasks st; calls := calls st |}).

Definition write_tasks (ts : list Task) : Db unit :=
  fun st => (Some tt, {| users := users st; tasks := ts; calls := calls st |}).

(** Cast a string to an ObjectId, throwing the CastError. *)
Definition ObjectId (L : Libs) (s : string) : Db N :=
  match cast_ObjectId L s with
  | Some n => ret n
  | None => throw
  end.

(** The first element a predicate holds of is replaced. *)
Fixpoint update_first {A : Type} (p : A -> bool) (f : A -> A) (l : list A) : list A :=
  match l with
  | [] => []
  | x :: l' => if p x then f x :: l' else x :: update_first p f l'
  end.

(** The first element a predicate holds of is removed. *)
Fixpoint remove_first {A : Type} (p : A -> bool) (l : list A) : list A :=
  match l with
  | [] => []
  | x :: l' => if p x then l' else x :: remove_first p l'
  end.

(** *** The setters and validators of [userSchema] (lines 79-118) *)

(** [trim: true, lowercase: true] on [email]; [trim: true] on [username].
    Setters run when a document is built and when a query is cast. *)
Definition set_email (s : string) : string := toLowerCase (trim s).

Definition set_username (s : string) : string := trim s.

(** The validators of a user document: [required], [minlength],
    [maxlength] and [match] of each path. *)
Definition userSchema_valid (u : User) : bool :=
  (negb (is_empty (username u))
   && Nat.leb 3 (len (username u)) && Nat.leb (len (username u)) 30
   && re_username (username u)
   && negb (is_empty (email u)) && re_email (email u)
   && negb (is_empty (password u)) && Nat.leb 6 (len (password u)))%bool.

(** [new User({ username, email, password })]: the setters are applied and
    the defaults filled in. *)
Definition new_User (id : N) (now : Z) (value : RegisterValue) : User :=
  {| user_id := id;
     username := set_username (reg_username value);
     email := set_email (reg_email value);
     password := reg_password value;
     role := role_user;
     isActive := true;
     lastLogin := None;
     user_createdAt := now |}.

(** The unique indexes on [username] and [email]. *)
Definition duplicate_key (u : User) (us : list User) : bool :=
  existsb (fun x => (String.eqb (username x) (username u)
                     || String.eqb (email x) (email u))%bool) us.

(** [user.save()] of a new document: validation, then the [pre('save')]
    hook that replaces the password by its hash (lines 121-129), then the
    insertion, which the unique indexes can refuse. The saved document is
    returned. *)
Definition User_save_new (L : Libs) (salt : N) (u : User) : Db User :=
  await _ <- called c_User_save ;;
  if negb (userSchema_valid u) then throw
  else
    let saved :=
      {| user_id := user_id u; username := username u; email := email u;
         password := bcrypt_hash L (password u) salt;
         role := role u; isActive := isActive u; lastLogin := lastLogin u;
         user_createdAt := user_createdAt u |} in
    await us <- read users ;;
    if duplicate_key saved us then throw
    else await _ <- write_users (us ++ [saved]) ;; ret saved.

Definition with_lastLogin (t : Z) (u : User) : User :=
  {| user_id := user_id u; username := username u; email := email u;
     password := password u; role := role u; isActive := isActive u;
     lastLogin := Some t; user_createdAt := user_createdAt u |}.

(** [user.lastLogin = new Date(); user.save()] on a document that was
    found: the document is validated again, the [pre('save')] hook leaves
    the password alone (it is not modified), and the one modified path is
    written to the document with that [_id]. *)
Definition User_save_lastLogin (u : User) (t : Z) : Db User :=
  await _ <- called c_User_save ;;
  if negb (userSchema_valid (with_lastLogin t u)) then throw
  else
    await us <- read users ;;
    await _ <- write_users
                 (update_first (fun x => N.eqb (user_id x) (user_id u)) (with_lastLogin t) us) ;;
    ret (with_lastLogin t u).

(** [User.findOne({ $or: [{ email }, { username }] })] *)
Definition User_findOne_email_or_username (e un : string) : Db (option User) :=
  await _ <- called c_User_findOne ;;
  read (fun st =>
          find (fun u => (String.eqb (email u) (set_email e)
                          || String.eqb (username u) (set_username un))%bool)
               (users st)).

(** [User.findOne({ email, isActive: true })] *)
Definition User_findOne_active (e : string) : Db (option User) :=
  await _ <- called c_User_findOne ;;
  read (fun st =>
          find (fun u => (String.eqb (email u) (set_email e) && isActive u)%bool)
               (users st)).

(** [User.findById(id)] *)
Definition User_findById (L : Libs) (id : string) : Db (option User) :=
  await _ <- called c_User_findById ;;
  await n <- ObjectId L id ;;
  read (fun st => find (fun u => N.eqb (user_id u) n) (users st)).

(** *** The setters and validators of [taskSchema] (lines 139-187) *)

(** The validators of a task document: [required] and [maxlength] of
    [title], [maxlength] of [description] and of each tag. ([status] and
    [priority] are values of their enumerations by their type.) *)
Definition taskSchema_valid (t : Task) : bool :=
  (negb (is_empty (title t)) && Nat.leb (len (title t)) 100
   && match description t with
      | Some d => Nat.leb (len d) 500
      | None => true
      end
   && forallb (fun g => Nat.leb (len g) 20) (tags t))%bool.

Definition or_default {A : Type} (d : A) (o : option A) : A :=
  match o with
  | Some a => a
  | None => d
  end.

(** [new Task({ ...value, userId })]: [trim] on the strings, the defaults
    of [status], [priority] and [tags], and the two [Date.now] defaults,
    [now] for [createdAt] and [now' ] for [updatedAt]. *)
Definition new_Task (id : N) (now now' : Z) (owner : N) (value : TaskValue) : Task :=
  {| task_id := id;
     title := trim (v_title value);
     description := option_map trim (v_description value);
     status := or_default pending (v_status value);
     priority := or_default medium (v_priority value);
     dueDate := v_dueDate value;
     tags := map trim (or_default [] (v_tags value));
     userId := owner;
     createdAt := now;
     updatedAt := now' |}.

(** The update document [{ ...value, updatedAt: new Date() }] applied to a
    task: a path is set when the document has it, and is cast as on
    creation. *)
Definition set_paths (value : TaskValue) (now : Z) (t : Task) : Task :=
  {| task_id := task_id t;
     title := trim (v_title value);
     description :=
       match v_description value with
       | Some d => Some (trim d)
       | None => description t
       end;
     status := or_default (status t) (v_status value);
     priority := or_default (priority t) (v_priority value);
     dueDate :=
       match v_dueDate value with
       | Some d => Some d
       | None => dueDate t
       end;
     tags :=
       match v_tags value with
       | Some l => map trim l
       | None => tags t
       end;
     userId := userId t;
     createdAt := createdAt t;
     updatedAt := now |}.

(** [runValidators: true]: the validators of the paths the update sets,
    run on the cast update before the store is asked. *)
Definition update_valid (value : TaskValue) : bool :=
  (negb (is_empty (trim (v_title value)))
   && Nat.leb (len (trim (v_title value))) 100
   && match v_description value with
      | Some d => Nat.leb (len (trim d)) 500
      | None => true
      end
   && match v_tags value with
      | Some l => forallb (fun g => Nat.leb (len (trim g)) 20) l
      | None => true
      end)%bool.

(** The filter of [GET /api/tasks]: [{ userId, status?, priority? }]. *)
Record Filter : Type := {
  f_userId : string;
  f_status : option string;
  f_priority : option string
}.

Definition matches (owner : N) (f : Filter) (t : Task) : bool :=
  (N.eqb (userId t) owner
   && match f_status f with
      | Some s => String.eqb (status_name (status t)) s
      | None => true
      end
   && match f_priority f with
      | Some p => String.eqb (priority_name (priority t)) p
      | None => true
      end)%bool.

(** [.sort({ createdAt: -1 })]: latest first, documents of equal date in
    their natural order. *)
Fixpoint insert_desc (x : Task) (l : list Task) : list Task :=
  match l with
  | [] => [x]
  | y :: l' => if createdAt y <=? createdAt x then x :: l else y :: insert_desc x l'
  end.

Definition sort_createdAt_desc (l : list Task) : list Task :=
  fold_right insert_desc [] l.

(** [.limit(l).skip(s)] on a cursor: [s] documents are passed over, then at
    most [|l|] are returned, all of them when [l] is 0. *)
Definition window (limit skip : Z) (l : list Task) : list Task :=
  let rest := skipn (Z.to_nat skip) l in
  if limit =? 0 then rest else firstn (Z.to_nat (Z.abs limit)) rest.

(** [Task.find(filter).sort({ createdAt: -1 }).limit(l).skip(s)]. The
    store refuses a negative [skip]. *)
Definition Task_find (L : Libs) (f : Filter) (limit skip : Z) : Db (list Task) :=
  await _ <- called (c_Task_find limit skip) ;;
  await owner <- ObjectId L (f_userId f) ;;
  if skip <? 0 then throw
  else read (fun st => window limit skip
                         (sort_createdAt_desc (filter (matches owner f) (tasks st)))).

(** [Task.countDocuments(filter)] *)
Definition Task_countDocuments (L : Libs) (f : Filter) : Db nat :=
  await _ <- called c_Task_countDocuments ;;
  await owner <- ObjectId L (f_userId f) ;;
  read (fun st => List.length (filter (matches owner f) (tasks st))).

(** [taskSchema.pre('save')] (lines 184-187): [this.updatedAt = new Date()],
    with the clock as the hook reads it. *)
Definition taskSchema_pre_save (now : Z) (t : Task) : Task :=
  {| task_id := task_id t; title := title t; description := description t;
     status := status t; priority := priority t; dueDate := dueDate t;
     tags := tags t; userId := userId t; createdAt := createdAt t;
     updatedAt := now |}.

(** [task.save()] of [new Task({ ...value, userId })]: the owner is cast and
    the document, built with the clock readings [now] and [now' ] of its two
    defaults, is validated; then the [pre('save')] hook sets [updatedAt]
    to its own reading [saved] of the clock, and the document is inserted
    and returned. *)
Definition Task_save_new (L : Libs) (id : N) (now now' saved : Z) (owner : string)
  (value : TaskValue) : Db Task :=
  await _ <- called c_Task_save ;;
  await o <- ObjectId L owner ;;
  let t := new_Task id now now' o value in
  if negb (taskSchema_valid t) then throw
  else
    let t := taskSchema_pre_save saved t in
    await ts <- read tasks ;;
    await _ <- write_tasks (ts ++ [t]) ;;
    ret t.

Definition owned_with_id (id owner : N) (t : Task) : bool :=
  (N.eqb (task_id t) id && N.eqb (userId t) owner)%bool.

(** [Task.findOneAndUpdate({ _id: id, userId }, { ...value, updatedAt },
    { new: true, runValidators: true })]: the updated document, or [null]
    when the filter matches none. *)
Definition Task_findOneAndUpdate (L : Libs) (id owner : string)
  (value : TaskValue) (now : Z) : Db (option Task) :=
  await _ <- called c_Task_findOneAndUpdate ;;
  await i <- ObjectId L id ;;
  await o <- ObjectId L owner ;;
  if negb (update_valid value) then throw
  else
    await ts <- read tasks ;;
    match find (owned_with_id i o) ts with
    | None => ret None
    | Some t =>
        await _ <- write_tasks (update_first (owned_with_id i o) (set_paths value now) ts) ;;
        ret (Some (set_paths value now t))
    end.

(** [Task.findOneAndDelete({ _id: id, userId })]: the deleted document, or
    [null]. *)
Definition Task_findOneAndDelete (L : Libs) (id owner : string) : Db (option Task) :=
  await _ <- called c_Task_findOneAndDelete ;;
  await i <- ObjectId L id ;;
  await o <- ObjectId L owner ;;
  await ts <- read tasks ;;
  match find (owned_with_id i o) ts with
  | None => ret None
  | Some t =>
      await _ <- write_tasks (remove_first (owned_with_id i o) ts) ;;
      ret (Some t)
  end.

(** ** Requests and responses *)

(** The query string of [GET /api/tasks]. [page] and [limit] hold the
    number JavaScript's arithmetic makes of the parameter ([limit * 1],
    [page - 1]) when the parameter is a decimal integer literal; [None] is
    an absent parameter. Parameters that are not integer literals are not
    represented. *)
Record Query : Type := {
  page : option Z;
  limit : option Z;
  q_status : option string;
  q_priority : option string
}.

Record Request : Type := {
  authorization : option string;
  params_id : string;
  query : Query;
  req_body : json
}.

(** What a request reads from its environment: the clock [now], the
    ObjectId the driver generates for a new document, the salt bcrypt
    draws. The creation of a task reads the clock three times: [now] is
    there the reading of the [Date.now] default of [createdAt] (line 176),
    [now_updatedAt] the one of the [Date.now] default of [updatedAt]
    (line 180), and [now_pre_save] the one of [new Date()] in
    [taskSchema.pre('save')] (line 185). Nothing relates the three. *)
Record Context : Type := {
  now : Z;
  fresh_id : N;
  salt : N;
  now_updatedAt : Z;
  now_pre_save : Z
}.

(** [{ id, username, email, role, lastLogin? }] *)
Record PublicUser : Type := {
  pub_id : N;
  pub_username : string;
  pub_email : string;
  pub_role : Role;
  pub_lastLogin : option Z
}.

(** A user document after [.select('-password')]. *)
Record Profile : Type := {
  profile_id : N;
  profile_username : string;
  profile_email : string;
  profile_role : Role;
  profile_isActive : bool;
  profile_lastLogin : option Z;
  profile_createdAt : Z
}.

(** The JSON bodies the application sends. *)
Inductive Body : Type :=
| error (msg : string)
| validation_error (d : Joi.details)
| message (msg : string)
| session (msg : string) (token : string) (user : PublicUser)
| task_json (t : Task)
| tasks_page (ts : list Task) (totalPages : jsnum) (currentPage : Z) (total : nat)
| profile_json (p : Profile).

Record Response : Type := {
  res_status : Z;
  res_json : Body
}.

Definition respond (s : Z) (b : Body) : Response :=
  {| res_status := s; res_json := b |}.

(** A handler: from the store to the response and the store it leaves. *)
Definition Handler : Type := Store -> Response * Store.

(** [try { body } catch (error) { res.status(500)... }] *)
Definition try_catch (body : Db Response) : Handler :=
  fun st =>
    match body st with
    | (Some r, st') => (r, st')
    | (None, st') => (respond 500 (error "Internal server error"), st')
    end.

(** A JavaScript string in a condition: the empty one is false. *)
Definition truthy (o : option string) : option string :=
  match o with
  | Some s => if is_empty s then None else Some s
  | None => None
  end.

(** ** The middleware and the handlers *)

(** [authHeader && authHeader.split(' ')[1]], [None] when [!token]. *)
Definition bearer_token (authHeader : option string) : option string :=
  match truthy authHeader with
  | None => None
  | Some h => truthy (nth_error (split " " h) 1)
  end.

(** [authenticateToken] (lines 213-229): [next] is the handler the route
    names after it. *)
Definition authenticateToken (L : Libs) (ctx : Context) (req : Request)
  (next : Identity -> Handler) : Handler :=
  match bearer_token (authorization req) with
  | None => fun st => (respond 401 (error "Access token required"), st)
  | Some token =>
      match jwt_verify L token (now ctx) with
      | None => fun st => (respond 403 (error "Invalid token"), st)
      | Some user => next user
      end
  end.

Definition identity_of (L : Libs) (u : User) : Identity :=
  {| jwt_userId := show_ObjectId L (user_id u);
     jwt_username := username u;
     jwt_role := role u |}.

Definition public (u : User) (ll : option Z) : PublicUser :=
  {| pub_id := user_id u; pub_username := username u; pub_email := email u;
     pub_role := role u; pub_lastLogin := ll |}.

(** [POST /api/auth/register] (lines 291-337) *)
Definition register (L : Libs) (ctx : Context) (req : Request) : Handler :=
  try_catch
    match registerSchema L (req_body req) with
    | Invalid e => ret (respond 400 (validation_error e))
    | Valid value =>
        await existingUser <-
          User_findOne_email_or_username (reg_email value) (reg_username value) ;;
        match existingUser with
        | Some _ => ret (respond 400 (error "User already exists"))
        | None =>
            await user <-
              User_save_new L (salt ctx) (new_User (fresh_id ctx) (now ctx) value) ;;
            let token := jwt_sign L (identity_of L user) (now ctx) in
            ret (respond 201 (session "User created successfully" token (public user None)))
        end
    end.

(** [POST /api/auth/login] (lines 339-391) *)
Definition login (L : Libs) (ctx : Context) (req : Request) : Handler :=
  try_catch
    match loginSchema L (req_body req) with
    | Invalid e => ret (respond 400 (validation_error e))
    | Valid value =>
        await found <- User_findOne_active (login_email value) ;;
        match found with
        | None => ret (respond 401 (error "Invalid credentials"))
        | Some user =>
            if negb (bcrypt_compare L (login_password value) (password user))
            then ret (respond 401 (error "Invalid credentials"))
            else
              await user' <- User_save_lastLogin user (now ctx) ;;
              let token := jwt_sign L (identity_of L user') (now ctx) in
              ret (respond 200 (session "Login successful" token
                                  (public user' (lastLogin user'))))
        end
    end.

(** [GET /api/tasks] (lines 394-419), after [authenticateToken]. *)
Definition get_tasks (L : Libs) (ctx : Context) (req : Request) (user : Identity)
  : Handler :=
  try_catch
    (let page := or_default 1 (page (query req)) in
     let limit := or_default 10 (limit (query req)) in
     let filter := {| f_userId := jwt_userId user;
                      f_status := truthy (q_status (query req));
                      f_priority := truthy (q_priority (query req)) |} in
     await tasks <- Task_find L filter (limit * 1) ((page - 1) * limit) ;;
     await total <- Task_countDocuments L filter ;;
     ret (respond 200 (tasks_page tasks (ceil_div (Z.of_nat total) limit) page total))).

(** [POST /api/tasks] (lines 421-443) *)
Definition post_task (L : Libs) (ctx : Context) (req : Request) (user : Identity)
  : Handler :=
  try_catch
    match taskSchema_validation L (req_body req) with
    | Invalid e => ret (respond 400 (validation_error e))
    | Valid value =>
        await task <-
          Task_save_new L (fresh_id ctx) (now ctx) (now_updatedAt ctx) (now_pre_save ctx)
            (jwt_userId user) value ;;
        ret (respond 201 (task_json task))
    end.

(** [PUT /api/tasks/:id] (lines 445-472) *)
Definition put_task (L : Libs) (ctx : Context) (req : Request) (user : Identity)
  : Handler :=
  try_catch
    match taskSchema_validation L (req_body req) with
    | Invalid e => ret (respond 400 (validation_error e))
    | Valid value =>
        await task <-
          Task_findOneAndUpdate L (params_id req) (jwt_userId user) value (now ctx) ;;
        match task with
        | None => ret (respond 404 (error "Task not found"))
        | Some t => ret (respond 200 (task_json t))
        end
    end.

(** [DELETE /api/tasks/:id] (lines 474-491) *)
Definition delete_task (L : Libs) (ctx : Context) (req : Request) (user : Identity)
  : Handler :=
  try_catch
    (await task <- Task_findOneAndDelete L (params_id req) (jwt_userId user) ;;
     match task with
     | None => ret (respond 404 (error "Task not found"))
     | Some _ => ret (respond 200 (message "Task deleted successfully"))
     end).

Definition without_password (u : User) : Profile :=
  {| profile_id := user_id u; profile_username := username u;
     profile_email := email u; profile_role := role u;
     profile_isActive := isActive u; profile_lastLogin := lastLogin u;
     profile_createdAt := user_createdAt u |}.

(** [GET /api/auth/profile] (lines 494-505) *)
Definition get_profile (L : Libs) (ctx : Context) (req : Request) (user : Identity)
  : Handler :=
  try_catch
    (await found <- User_findById L (jwt_userId user) ;;
     match found with
     | None => ret (respond 404 (error "User not found"))
     | Some u => ret (respond 200 (profile_json (without_password u)))
     end).

(** The routes of the application that name [authenticateToken]. *)
Inductive Protected : Type :=
| GET_profile
| GET_tasks
| POST_tasks
| PUT_tasks_id
| DELETE_tasks_id.

Definition handler_of (r : Protected)
  : Libs -> Context -> Request -> Identity -> Handler :=
  match r with
  | GET_profile => get_profile
  | GET_tasks => get_tasks
  | POST_tasks => post_task
  | PUT_tasks_id => put_task
  | DELETE_tasks_id => delete_task
  end.

(** [app.METHOD(path, authenticateToken, handler)] *)
Definition route (L : Libs) (ctx : Context) (r : Protected) (req : Request) : Handler :=
  authenticateToken L ctx req (handler_of r L ctx req).

(** ** Predicates of the statements *)

(** The request carries a token that verifies, and the identity in it is
    the user with ObjectId [who]. *)
Definition authenticated_as (L : Libs) (ctx : Context) (req : Request)
  (user : Identity) (who : N) : Prop :=
  exists token,
    bearer_token (authorization req) = Some token
    /\ jwt_verify L token (now ctx) = Some user
    /\ cast_ObjectId L (jwt_userId user) = Some who.

(** [_id] is the primary key of the [tasks] collection. *)
Definition task_ids_unique (st : Store) : Prop :=
  NoDup (map task_id (tasks st)).

(** The unique index on [email]. *)
Definition emails_unique (st : Store) : Prop :=
  NoDup (map email (users st)).

(** Every stored e-mail is in the form the setters of [userSchema] give it
    (trimmed, lower case), as every e-mail written by [new_User] is. *)
Definition emails_as_set (st : Store) : Prop :=
  Forall (fun u => set_email (email u) = email u) (users st).

(** The three ways the credentials of a validated login request fail: the
    e-mail is that of no user, it is that of a deactivated user, or it is
    that of an active user whose password is another. *)
Inductive LoginFailure (L : Libs) (st : Store) (value : LoginValue) : Prop :=
| unknown_email :
    (forall u, In u (users st) -> email u <> set_email (login_email value)) ->
    LoginFailure L st value
| deactivated_user (u : User) :
    emails_unique st ->
    In u (users st) ->
    email u = set_email (login_email value) ->
    isActive u = false ->
    LoginFailure L st value
| wrong_password (u : User) :
    emails_unique st ->
    In u (users st) ->
    email u = set_email (login_email value) ->
    isActive u = true ->
    bcrypt_compare L (login_password value) (password u) = false ->
    LoginFailure L st value.

(** The request with another [:id] in its path. *)
Definition with_id (req : Request) (id : string) : Request :=
  {| authorization := authorization req; params_id := id;
     query := query req; req_body := req_body req |}.

(** The request with another query string. *)
Definition with_query (req : Request) (q : Query) : Request :=
  {| authorization := authorization req; params_id := params_id req;
     query := q; req_body := req_body req |}.

(** [?page=p&limit=l] *)
Definition paged (p l : Z) : Query :=
  {| page := Some p; limit := Some l; q_status := None; q_priority := None |}.

(** The answer to an update whose filter matches no document; it depends
    on the body alone. *)
Definition update_no_match_answer (L : Libs) (body : json) : Response :=
  match taskSchema_validation L body with
  | Invalid d => respond 400 (validation_error d)
  | Valid value =>
      if update_valid value then respond 404 (error "Task not found")
      else respond 500 (error "Internal server error")
  end.

(** The filter [GET /api/tasks] builds for a caller, and the tasks of the
    store it matches once the caller's id is cast to [who]. *)
Definition filter_of (req : Request) (user : Identity) : Filter :=
  {| f_userId := jwt_userId user;
     f_status := truthy (q_status (query req));
     f_priority := truthy (q_priority (query req)) |}.

Definition matching (req : Request) (user : Identity) (who : N) (st : Store)
  : list Task :=
  filter (matches who (filter_of req user)) (tasks st).

(** An integer in the range where JavaScript's numbers are exact, so that
    the arithmetic of the handler is the arithmetic of [Z]. *)
Definition exact (z : Z) : Prop := Z.abs z <= 2 ^ 53.

(** The tasks a response shows to the client. *)
Definition tasks_shown (r : Response) : list Task :=
  match res_json r with
  | task_json t => [t]
  | tasks_page ts _ _ _ => ts
  | _ => []
  end.

(** The session token a response hands out, if any. *)
Definition token_issued (r : Response) : option string :=
  match res_json r with
  | session _ token _ => Some token
  | _ => None
  end.

(** The store after the calls [cs] (the latest first) that changed no
    collection. *)
Definition after_calls (cs : list StoreCall) (st : Store) : Store :=
  {| users := users st; tasks := tasks st; calls := cs ++ calls st |}.

(** The tasks of [owner], in the order of the collection: what an
    unfiltered listing sorts and cuts its pages from. *)
Definition owned (owner : N) (st : Store) : list Task :=
  filter (fun t => N.eqb (userId t) owner) (tasks st).

(** Descending order of [createdAt]. *)
Definition latest_first (a b : Task) : Prop := createdAt b <= createdAt a.

(** ** A small instance of the libraries, on which statements are evaluated

    ObjectIds are written in decimal; the token of a user is the word
    [token-] followed by the user's ObjectId, and nothing else verifies; a
    hash is the password after a dollar sign. *)

Module Demo.

Definition show (n : N) : string := NilZero.string_of_uint (N.to_uint n).

Definition cast (s : string) : option N :=
  if is_empty s then None else option_map N.of_uint (NilZero.uint_of_string s).

Definition verify (token : string) (now : Z) : option Identity :=
  if String.prefix "token-" token
  then
    let id := String.substring 6 (String.length token - 6) token in
    match cast id with
    | Some _ => Some {| jwt_userId := id; jwt_username := "user" ++ id; jwt_role := role_user |}
    | None => None
    end
  else None.

Definition libs : Libs :=
  {| joi_email := re_email;
     joi_iso_date := fun _ => None;
     bcrypt_hash := fun pw _ => "$" ++ pw;
     bcrypt_compare := fun pw h => String.eqb h ("$" ++ pw);
     jwt_sign := fun ident _ => "token-" ++ jwt_userId ident;
     jwt_verify := verify;
     cast_ObjectId := cast;
     show_ObjectId := show |}.

Definition ctx : Context :=
  {| now := 5000; fresh_id := 99; salt := 7;
     now_updatedAt := 5000; now_pre_save := 5001 |}.

Definition alice : User :=
  {| user_id := 1; username := "alice"; email := "alice@example.com";
     password := "$wonderland"; role := role_user; isActive := true;
     lastLogin := None; user_createdAt := 10 |}.

Definition bob : User :=
  {| user_id := 2; username := "bob"; email := "bob@example.com";
     password := "$builder1"; role := role_user; isActive := false;
     lastLogin := None; user_createdAt := 20 |}.

Definition task (id owner : N) (at_ : Z) : Task :=
  {| task_id := id; title := "task " ++ show id; description := None;
     status := pending; priority := medium; dueDate := None; tags := [];
     userId := owner; createdAt := at_; updatedAt := at_ |}.

(** Twelve tasks of alice (ids 101..112, created at 1001..1012) and one of
    bob's (id 200). *)
Definition twelve : list Task :=
  map (fun i => task (100 + N.of_nat i) 1 (1000 + Z.of_nat i)) (seq 1 12).

Definition store : Store :=
  {| users := [alice; bob]; tasks := twelve ++ [task 200 2 2000]; calls := [] |}.

Definition no_query : Query :=
  {| page := None; limit := None; q_status := None; q_priority := None |}.

Definition request (auth : option string) (id : string) (q : Query) (b : json) : Request :=
  {| authorization := auth; params_id := id; query := q; req_body := b |}.

(** [POST /api/auth/login] with [{ email, password }]. *)
Definition credentials (e p : string) : Request :=
  request None "" no_query (JObject [("email", JString e); ("password", JString p)]).

End Demo.

(** ** More predicates *)

(** The unique index on [username]. *)
Definition usernames_unique (st : Store) : Prop :=
  NoDup (map username (users st)).

(** [_id] is the primary key of the [users] collection. *)
Definition user_ids_unique (st : Store) : Prop :=
  NoDup (map user_id (users st)).

(** The routes of the API: the two that issue tokens and the five behind
    [authenticateToken]. *)
Inductive Endpoint : Type :=
| POST_register
| POST_login
| guarded (r : Protected).

Definition serve (L : Libs) (ctx : Context) (e : Endpoint) (req : Request) : Handler :=
  match e with
  | POST_register => register L ctx req
  | POST_login => login L ctx req
  | guarded r => route L ctx r req
  end.

(** The request with [page] and [limit] set and its filters kept. *)
Definition with_page (req : Request) (p l : Z) : Request :=
  {| authorization := authorization req; params_id := params_id req;
     query := {| page := Some p; limit := Some l;
                 q_status := q_status (query req);
                 q_priority := q_priority (query req) |};
     req_body := req_body req |}.

(** The request with another Authorization header. *)
Definition with_authorization (req : Request) (h : string) : Request :=
  {| authorization := Some h; params_id := params_id req;
     query := query req; req_body := req_body req |}.

(** The request with another body. *)
Definition with_body (req : Request) (b : json) : Request :=
  {| authorization := authorization req; params_id := params_id req;
     query := query req; req_body := b |}.

(** The tasks of pages [1..k] of a listing with page size [l], one page
    after the other. *)
Definition pages_shown (L : Libs) (ctx : Context) (req : Request) (st : Store)
  (l : Z) (k : nat) : list Task :=
  flat_map (fun i => tasks_shown (fst (route L ctx GET_tasks
                                         (with_page req (Z.of_nat i) l) st)))
           (seq 1 k).

(** The task document a creation stores and returns. *)
Definition created (ctx : Context) (owner : N) (value : TaskValue) : Task :=
  taskSchema_pre_save (now_pre_save ctx)
    (new_Task (fresh_id ctx) (now ctx) (now_updatedAt ctx) owner value).

(** The user document a registration stores. *)
Definition registered (L : Libs) (ctx : Context) (value : RegisterValue) : User :=
  {| user_id := fresh_id ctx;
     username := reg_username value;
     email := set_email (reg_email value);
     password := bcrypt_hash L (reg_password value) (salt ctx);
     role := role_user;
     isActive := true;
     lastLogin := None;
     user_createdAt := now ctx |}.

(** A string of one word: no space in it. *)
Definition no_space (s : string) : bool :=
  all_chars (fun c => negb (Ascii.eqb c " ")) s.

(** The user collection as the indexes and setters of [userSchema] keep
    it: e-mails and usernames unique, e-mails trimmed and in lower case. *)
Definition users_wellformed (st : Store) : Prop :=
  emails_unique st /\ usernames_unique st /\ emails_as_set st.

(** ** The client (the React component [App] of the frontend)

    The parts of the component that compute what is sent to the API and
    what is kept of its answers. *)

Module Client.

(** [taskForm], the state behind the form that creates a task. *)
Record TaskForm : Type := {
  form_title : string;
  form_description : string;
  form_priority : string;
  form_dueDate : string;
  form_tags : string
}.

(** [taskForm.tags ? taskForm.tags.split(',').map(tag => tag.trim()) : []] *)
Definition tags_of (s : string) : list string :=
  if is_empty s then [] else map trim (split "," s).

(** [taskData] of [handleCreateTask] as JSON: the keys of the form in their
    order, [tags] as the array above, and [dueDate] as an ISO string
    ([toISOString], the argument [iso]) or left out when the field is
    empty. *)
Definition taskData (iso : string -> string) (f : TaskForm) : json :=
  JObject
    ([("title", JString (form_title f));
      ("description", JString (form_description f));
      ("priority", JString (form_priority f))]
     ++ (if is_empty (form_dueDate f) then []
         else [("dueDate", JString (iso (form_dueDate f)))])
     ++ [("tags", JArray (map JString (tags_of (form_tags f))))]).

(** [setTasks([response.data, ...tasks.slice(0, 4)])] *)
Definition after_create (created : Task) (shown : list Task) : list Task :=
  created :: firstn 4 shown.

(** [tasks.filter(task => task._id !== taskId)] *)
Definition after_delete (taskId : N) (shown : list Task) : list Task :=
  filter (fun t => negb (N.eqb (task_id t) taskId)) shown.

(** [tasks.map(task => task._id === taskId ? response.data : task)] *)
Definition after_update (taskId : N) (updated : Task) (shown : list Task) : list Task :=
  map (fun t => if N.eqb (task_id t) taskId then updated else t) shown.

(** The parameters of [fetchTasks]: [{ page: currentPage, limit: 5,
    ...filters }]. *)
Definition fetch_query (currentPage : Z) (status priority : string) : Query :=
  {| page := Some currentPage; limit := Some 5;
     q_status := Some status; q_priority := Some priority |}.

(** [`Bearer ${token}`], the header the client sets after login. *)
Definition authorization_of (token : string) : string := "Bearer " ++ token.

(** The page the pagination buttons can lead to. The buttons are rendered
    when [totalPages > 1]; Previous is disabled on page 1 and sets
    [Math.max(prev - 1, 1)]; Next is disabled on the last page and sets
    [Math.min(prev + 1, totalPages)]. Login and logout set page 1. The
    [totalPages] of a click is whatever the last answer of the server
    held. *)
Inductive reachable_page : Z -> Prop :=
| first_page : reachable_page 1
| previous_click (p totalPages : Z) :
    reachable_page p -> 1 < totalPages -> p <> 1 ->
    reachable_page (Z.max (p - 1) 1)
| next_click (p totalPages : Z) :
    reachable_page p -> 1 < totalPages -> p <> totalPages ->
    reachable_page (Z.min (p + 1) totalPages).

End Client.

(** ** A second scenario, for the statements on registration *)

Module Scenario.

(** The body of a registration. *)
Definition signup (u e p : string) : Request :=
  Demo.request None "" Demo.no_query
    (JObject [("username", JString u); ("email", JString e); ("password", JString p)]).

(** The user that registration creates in the demo store for
    [user99 / User99@Example.com / secret99]. *)
Definition user99 : User :=
  {| user_id := 99; username := "user99"; email := "user99@example.com";
     password := "$secret99"; role := role_user; isActive := true;
     lastLogin := None; user_createdAt := 5000 |}.

Definition later : Context :=
  {| now := 6000; fresh_id := 100; salt := 8;
     now_updatedAt := 6000; now_pre_save := 6001 |}.

(** A request during which the clock stands at 5000. *)
Definition instant : Context :=
  {| now := 5000; fresh_id := 99; salt := 7;
     now_updatedAt := 5000; now_pre_save := 5000 |}.

End Scenario.

(** * Properties *)

(** The steps of a store computation, unfolded down to the store. *)
Ltac db :=
  unfold bind, called, read, write_users, write_tasks, ObjectId.

(** ** Strings *)

Lemma alnum_not_space (c : ascii) : is_alnum c = true -> is_space c = false.
Proof.
  destruct c as [[] [] [] [] [] [] [] []]; vm_compute; congruence.
Qed.

Lemma trimEnd_without_spaces (s : string) :
  all_chars (fun c => negb (is_space c)) s = true -> trimEnd s = s.
Proof.
  induction s as [|c r IH]; simpl; [reflexivity|].
  intros H. apply andb_true_iff in H. destruct H as [Hc Hr].
  rewrite (IH Hr). destruct r.
  - apply negb_true_iff in Hc. now rewrite Hc.
  - reflexivity.
Qed.

Lemma trimStart_without_spaces (s : string) :
  all_chars (fun c => negb (is_space c)) s = true -> trimStart s = s.
Proof.
  destruct s as [|c r]; simpl; [reflexivity|].
  intros H. apply andb_true_iff in H. destruct H as [Hc _].
  apply negb_true_iff in Hc. now rewrite Hc.
Qed.

Lemma all_chars_weaken (p q : ascii -> bool) (s : string) :
  (forall c, p c = true -> q c = true) ->
  all_chars p s = true -> all_chars q s = true.
Proof.
  intros Hpq. induction s as [|c r IH]; simpl; [reflexivity|].
  intros H. apply andb_true_iff in H. destruct H as [Hc Hr].
  now rewrite (Hpq c Hc), (IH Hr).
Qed.

(** A string of letters and digits is left as it is by [trim]. *)
Lemma trim_alphanum (s : string) : re_alphanum s = true -> trim s = s.
Proof.
  unfold re_alphanum, trim. intros H.
  apply andb_true_iff in H. destruct H as [_ H].
  assert (Hs : all_chars (fun c => negb (is_space c)) s = true).
  { apply (all_chars_weaken is_alnum); [|exact H].
    intros c Hc. now rewrite (alnum_not_space c Hc). }
  now rewrite (trimStart_without_spaces s Hs), (trimEnd_without_spaces s Hs).
Qed.

(** A string with an underscore is not alphanumeric. *)
Lemma underscore_not_alphanum (s : string) :
  In "_"%char (list_ascii_of_string s) -> re_alphanum s = false.
Proof.
  unfold re_alphanum. intros H.
  assert (Hs : all_chars is_alnum s = false).
  { induction s as [|c r IH]; simpl in *; [contradiction|].
    destruct H as [->|H]; [reflexivity|].
    rewrite (IH H). apply andb_false_r. }
  rewrite Hs. apply andb_false_r.
Qed.

(** ** The schemas *)

Lemma string_inv (L : Libs) (allow : list string) (rs : list rule) (v : json) (s : string) :
  string_ L allow rs v = inr s ->
  v = JString s
  /\ (Joi.mem s allow = true
      \/ (is_empty s = false /\ first_broken L rs s = None)).
Proof.
  unfold string_. destruct v; try discriminate.
  destruct (Joi.mem s0 allow) eqn:Ha.
  - intros [= ->]. auto.
  - destruct (is_empty s0) eqn:He; [discriminate|].
    destruct (first_broken L rs s0) eqn:Hb; [discriminate|].
    intros [= ->]. auto.
Qed.

Lemma required_inv {A : Type} (k : string) (schema : json -> error_type + A)
  (o : list (string * json)) (a : A) :
  required k schema o = Valid a ->
  exists v, lookup k o = Some v /\ schema v = inr a.
Proof.
  unfold required. destruct (lookup k o) as [v|]; [|discriminate].
  destruct (schema v) as [c|a'] eqn:Hs; [discriminate|].
  intros [= ->]. eauto.
Qed.

Lemma required_absent {A : Type} (k : string) (schema : json -> error_type + A)
  (o : list (string * json)) :
  lookup k o = None ->
  required k schema o = Invalid {| key := k; item := None; why := any_required |}.
Proof. unfold required. now intros ->. Qed.

Lemma password_rules (L : Libs) (p : string) :
  string_ L [] [min 6; max 128] (JString p)
  = if is_empty p then inl string_empty
    else if Nat.leb 6 (len p)
         then if Nat.leb (len p) 128 then inr p else inl (string_max 128)
         else inl (string_min 6).
Proof.
  unfold string_. cbn [Joi.mem existsb first_broken broken].
  destruct (is_empty p); [reflexivity|].
  destruct (Nat.leb 6 (len p)); [|reflexivity].
  destruct (Nat.leb (len p) 128); reflexivity.
Qed.

Lemma username_rules (L : Libs) (u : string) :
  string_ L [] [alphanum; min 3; max 30] (JString u)
  = if is_empty u then inl string_empty
    else if re_alphanum u
         then if Nat.leb 3 (len u)
              then if Nat.leb (len u) 30 then inr u else inl (string_max 30)
              else inl (string_min 3)
         else inl string_alphanum.
Proof.
  unfold string_. cbn [Joi.mem existsb first_broken broken].
  destruct (is_empty u); [reflexivity|].
  destruct (re_alphanum u); [|reflexivity].
  destruct (Nat.leb 3 (len u)); [|reflexivity].
  destruct (Nat.leb (len u) 30); reflexivity.
Qed.

Lemma email_rules (L : Libs) (e : string) :
  string_ L [] [Joi.email] (JString e)
  = if is_empty e then inl string_empty
    else if joi_email L e then inr e else inl string_email.
Proof.
  unfold string_. cbn [Joi.mem existsb first_broken broken].
  destruct (is_empty e); [reflexivity|].
  destruct (joi_email L e); reflexivity.
Qed.

(** What a value that passed [registerSchema] tells about the body. *)
Lemma registerSchema_inv (L : Libs) (body : json) (value : RegisterValue) :
  registerSchema L body = Valid value ->
  exists o,
    body = JObject o
    /\ lookup "username" o = Some (JString (reg_username value))
    /\ re_alphanum (reg_username value) = true
    /\ (3 <= len (reg_username value) <= 30)%nat
    /\ lookup "email" o = Some (JString (reg_email value))
    /\ joi_email L (reg_email value) = true
    /\ lookup "password" o = Some (JString (reg_password value))
    /\ (6 <= len (reg_password value) <= 128)%nat.
Proof.
  unfold registerSchema, Joi.object. destruct body; try discriminate.
  simpl. intros H. exists fields.
  destruct (required "username" _ fields) as [u|] eqn:Hu; [|discriminate].
  destruct (required "email" _ fields) as [e|] eqn:He; [|discriminate].
  destruct (required "password" _ fields) as [p|] eqn:Hp; [|discriminate].
  simpl in H. destruct (no_unknown _ fields); [|discriminate].
  simpl in H. injection H as <-. simpl.
  apply required_inv in Hu, He, Hp.
  destruct Hu as (vu & Hlu & Hu), He as (ve & Hle & He), Hp as (vp & Hlp & Hp).
  apply string_inv in Hu, He, Hp.
  destruct Hu as [-> [Hu|[_ Hu]]]; [discriminate|].
  destruct He as [-> [He|[_ He]]]; [discriminate|].
  destruct Hp as [-> [Hp|[_ Hp]]]; [discriminate|].
  cbn [first_broken broken] in Hu, He, Hp.
  destruct (re_alphanum u) eqn:Ha; [|discriminate].
  destruct (Nat.leb 3 (len u)) eqn:H3; [|discriminate].
  destruct (Nat.leb (len u) 30) eqn:H30; [|discriminate].
  destruct (joi_email L e) eqn:Hm; [|discriminate].
  destruct (Nat.leb 6 (len p)) eqn:H6; [|discriminate].
  destruct (Nat.leb (len p) 128) eqn:H128; [|discriminate].
  apply Nat.leb_le in H3, H30, H6, H128.
  repeat split; auto.
Qed.

(** ** The token gate *)

Lemma route_without_token (L : Libs) (ctx : Context) (r : Protected) (req : Request)
  (st : Store) :
  bearer_token (authorization req) = None ->
  route L ctx r req st = (respond 401 (error "Access token required"), st).
Proof. unfold route, authenticateToken. now intros ->. Qed.

Lemma route_rejected_token (L : Libs) (ctx : Context) (r : Protected) (req : Request)
  (st : Store) (token : string) :
  bearer_token (authorization req) = Some token ->
  jwt_verify L token (now ctx) = None ->
  route L ctx r req st = (respond 403 (error "Invalid token"), st).
Proof. unfold route, authenticateToken. now intros -> ->. Qed.

Lemma route_authenticated (L : Libs) (ctx : Context) (r : Protected) (req : Request)
  (user : Identity) (who : N) :
  authenticated_as L ctx req user who ->
  route L ctx r req = handler_of r L ctx req user.
Proof.
  intros (token & Ht & Hv & _). unfold route, authenticateToken. now rewrite Ht, Hv.
Qed.

(** C3. On each of the five protected routes, a request whose Authorization
    header yields no token is answered 401, and one whose token
    [jwt.verify] rejects (tampered, malformed or expired) is answered 403;
    in both cases the store comes back exactly as it was, its log of calls
    included: the handler was not entered and the store was neither read
    nor written. *)
Theorem token_gate (L : Libs) (ctx : Context) (r : Protected) (req : Request) (st : Store) :
  (bearer_token (authorization req) = None ->
   route L ctx r req st = (respond 401 (error "Access token required"), st))
  /\ (forall token,
        bearer_token (authorization req) = Some token ->
        jwt_verify L token (now ctx) = None ->
        route L ctx r req st = (respond 403 (error "Invalid token"), st)).
Proof.
  split.
  - apply route_without_token.
  - intros token. apply route_rejected_token.
Qed.

(** The gate on the demo store: no header, a header without a second word,
    and a token that does not verify, on the route that deletes. *)
Lemma token_gate_witness :
  route Demo.libs Demo.ctx DELETE_tasks_id
    (Demo.request None "101" Demo.no_query JNull) Demo.store
  = (respond 401 (error "Access token required"), Demo.store)
  /\ route Demo.libs Demo.ctx DELETE_tasks_id
       (Demo.request (Some "Bearer") "101" Demo.no_query JNull) Demo.store
     = (respond 401 (error "Access token required"), Demo.store)
  /\ route Demo.libs Demo.ctx DELETE_tasks_id
       (Demo.request (Some "Bearer token-x1") "101" Demo.no_query JNull) Demo.store
     = (respond 403 (error "Invalid token"), Demo.store).
Proof.
  split; [|split].
  - apply (token_gate Demo.libs Demo.ctx DELETE_tasks_id
             (Demo.request None "101" Demo.no_query JNull) Demo.store).
    reflexivity.
  - apply (token_gate Demo.libs Demo.ctx DELETE_tasks_id
             (Demo.request (Some "Bearer") "101" Demo.no_query JNull) Demo.store).
    reflexivity.
  - apply (token_gate Demo.libs Demo.ctx DELETE_tasks_id
             (Demo.request (Some "Bearer token-x1") "101" Demo.no_query JNull) Demo.store)
      with (token := "token-x1"); reflexivity.
Defined.

(** ** Registration: what the schema lets through *)

Lemma register_invalid (L : Libs) (ctx : Context) (req : Request) (st : Store)
  (d : Joi.details) :
  registerSchema L (req_body req) = Invalid d ->
  register L ctx req st = (respond 400 (validation_error d), st).
Proof. unfold register, try_catch. now intros ->. Qed.

Lemma In_not_empty (c : ascii) (s : string) :
  In c (list_ascii_of_string s) -> is_empty s = false.
Proof. destruct s; simpl; [contradiction|reflexivity]. Qed.

(** C8. A registration whose username contains an underscore is refused by
    [registerSchema] ([alphanum]) with 400 and leaves the store as it was,
    although the name is one [userSchema.username]'s own [match] admits. *)
Theorem register_rejects_underscore (L : Libs) (ctx : Context) (req : Request)
  (st : Store) (o : list (string * json)) (u : string) :
  req_body req = JObject o ->
  lookup "username" o = Some (JString u) ->
  In "_"%char (list_ascii_of_string u) ->
  all_chars is_word u = true ->
  register L ctx req st
  = (respond 400 (validation_error
                    {| key := "username"; item := None; why := string_alphanum |}), st)
  /\ re_username u = true.
Proof.
  intros Hb Hu Hin Hw. split.
  - apply register_invalid. rewrite Hb. unfold registerSchema.
    cbn [Joi.object and_then]. unfold required at 1.
    rewrite Hu, username_rules.
    rewrite (In_not_empty _ _ Hin), (underscore_not_alphanum _ Hin). reflexivity.
  - unfold re_username. now rewrite (In_not_empty _ _ Hin), Hw.
Qed.

Lemma register_rejects_underscore_witness :
  register Demo.libs Demo.ctx
    (Demo.request None "" Demo.no_query
       (JObject [("username", JString "a_b"); ("email", JString "ab@example.com");
                 ("password", JString "secret1")]))
    Demo.store
  = (respond 400 (validation_error
                    {| key := "username"; item := None; why := string_alphanum |}),
     Demo.store)
  /\ re_username "a_b" = true.
Proof.
  apply (register_rejects_underscore Demo.libs Demo.ctx _ Demo.store
           [("username", JString "a_b"); ("email", JString "ab@example.com");
            ("password", JString "secret1")] "a_b").
  - reflexivity.
  - reflexivity.
  - simpl. auto.
  - reflexivity.
Defined.

Lemma password_out_of_range (L : Libs) (o : list (string * json)) (p : string) :
  lookup "password" o = Some (JString p) ->
  (len p < 6 \/ 128 < len p)%nat ->
  exists d, registerSchema L (JObject o) = Invalid d.
Proof.
  intros Hp Hlen. unfold registerSchema. cbn [Joi.object and_then].
  destruct (required "username" _ o) as [u|d]; cbn [and_then]; [|eauto].
  destruct (required "email" _ o) as [e|d]; cbn [and_then]; [|eauto].
  unfold required at 1. rewrite Hp, password_rules.
  destruct (is_empty p); cbn [and_then]; [eauto|].
  destruct (Nat.leb 6 (len p)) eqn:H6; cbn [and_then]; [|eauto].
  destruct (Nat.leb (len p) 128) eqn:H128; cbn [and_then]; [|eauto].
  apply Nat.leb_le in H6, H128. lia.
Qed.

Lemma password_in_range (L : Libs) (o : list (string * json)) (u e p : string) :
  lookup "username" o = Some (JString u) ->
  re_alphanum u = true -> (3 <= len u <= 30)%nat ->
  lookup "email" o = Some (JString e) ->
  is_empty e = false -> joi_email L e = true ->
  lookup "password" o = Some (JString p) ->
  no_unknown ["username"; "email"; "password"] o = Valid tt ->
  (6 <= len p <= 128)%nat ->
  registerSchema L (JObject o)
  = Valid {| reg_username := u; reg_email := e; reg_password := p |}.
Proof.
  intros Hu Ha [H3 H30] He Hne Hm Hp Hk [H6 H128].
  assert (Hue : is_empty u = false)
    by (destruct u; [unfold len in H3; simpl in H3; lia|reflexivity]).
  assert (Hpe : is_empty p = false)
    by (destruct p; [unfold len in H6; simpl in H6; lia|reflexivity]).
  apply Nat.leb_le in H3, H30, H6, H128.
  unfold registerSchema. cbn [Joi.object and_then]. unfold required.
  rewrite Hu, He, Hp, username_rules, email_rules, password_rules.
  rewrite Hue, Hne, Hpe, Ha, Hm, H3, H30, H6, H128. cbn [and_then].
  rewrite Hk. reflexivity.
Qed.

(** ** Task update: the payload *)

Lemma put_task_invalid (L : Libs) (ctx : Context) (req : Request) (user : Identity)
  (st : Store) (d : Joi.details) :
  taskSchema_validation L (req_body req) = Invalid d ->
  put_task L ctx req user st = (respond 400 (validation_error d), st).
Proof. unfold put_task, try_catch. now intros ->. Qed.

(** C5. An update whose body has no [title] (for instance only
    [{status: 'completed'}]) is refused by [taskSchema_validation]: the
    answer is 400, ["title" is required], and no task is touched. *)
Theorem update_without_title_rejected (L : Libs) (ctx : Context) (req : Request)
  (user : Identity) (st : Store) (o : list (string * json)) :
  req_body req = JObject o ->
  lookup "title" o = None ->
  put_task L ctx req user st
  = (respond 400 (validation_error
                    {| key := "title"; item := None; why := any_required |}), st).
Proof.
  intros Hb Ht. apply put_task_invalid. rewrite Hb.
  unfold taskSchema_validation. simpl. now rewrite (required_absent _ _ _ Ht).
Qed.

(** Alice marks her own task 101 completed, as the client does. *)
Lemma update_without_title_rejected_witness :
  route Demo.libs Demo.ctx PUT_tasks_id
    (Demo.request (Some "Bearer token-1") "101" Demo.no_query
       (JObject [("status", JString "completed")]))
    Demo.store
  = (respond 400 (validation_error
                    {| key := "title"; item := None; why := any_required |}),
     Demo.store).
Proof.
  exact (update_without_title_rejected Demo.libs Demo.ctx
           (Demo.request (Some "Bearer token-1") "101" Demo.no_query
              (JObject [("status", JString "completed")]))
           {| jwt_userId := "1"; jwt_username := "user1"; jwt_role := role_user |}
           Demo.store [("status", JString "completed")] eq_refl eq_refl).
Defined.

(** ** Lists and lookups *)

Lemma find_none_all {A : Type} (p : A -> bool) (l : list A) :
  (forall x, In x l -> p x = false) -> find p l = None.
Proof.
  induction l as [|a l IH]; simpl; [reflexivity|].
  intros H. rewrite (H a (or_introl eq_refl)). apply IH. auto.
Qed.

Lemma find_some_any {A : Type} (p : A -> bool) (l : list A) (x : A) :
  In x l -> p x = true -> exists y, find p l = Some y.
Proof.
  intros Hin Hp. destruct (find p l) as [y|] eqn:Hf; [eauto|].
  rewrite (find_none p l Hf x Hin) in Hp. discriminate.
Qed.

Lemma NoDup_map_eq {A B : Type} (f : A -> B) (l : list A) (x y : A) :
  NoDup (map f l) -> In x l -> In y l -> f x = f y -> x = y.
Proof.
  induction l as [|a l IH]; simpl; [contradiction|].
  intros Hnd Hx Hy Hf. inversion Hnd as [|? ? Hnotin Hnd']; subst.
  destruct Hx as [->|Hx], Hy as [->|Hy]; auto.
  - exfalso. apply Hnotin. rewrite Hf. now apply in_map.
  - exfalso. apply Hnotin. rewrite <- Hf. now apply in_map.
Qed.

(** With unique keys, the first element of a key that satisfies a test on
    the rest is the element itself. *)
Lemma find_unique {A : Type} (key : A -> string) (q : A -> bool) (l : list A)
  (x : A) :
  NoDup (map key l) -> In x l -> q x = true ->
  find (fun y => (String.eqb (key y) (key x) && q y)%bool) l = Some x.
Proof.
  intros Hnd Hin Hq.
  destruct (find_some_any (fun y => (String.eqb (key y) (key x) && q y)%bool) l x Hin)
    as [y Hy].
  { now rewrite String.eqb_refl, Hq. }
  rewrite Hy. f_equal.
  destruct (find_some _ _ Hy) as [Hyin Hyp].
  apply andb_true_iff in Hyp. destruct Hyp as [Hk _].
  apply String.eqb_eq in Hk.
  exact (NoDup_map_eq key l y x Hnd Hyin Hin Hk).
Qed.

(** Where [find] finds its element, [update_first] replaces it and
    [remove_first] removes it; the rest of the list stays. *)
Lemma find_split {A : Type} (p : A -> bool) (f : A -> A) (l : list A) (x : A) :
  find p l = Some x ->
  exists pre post,
    l = (pre ++ x :: post)%list
    /\ update_first p f l = (pre ++ f x :: post)%list
    /\ remove_first p l = (pre ++ post)%list.
Proof.
  induction l as [|a l IH]; simpl; [discriminate|].
  destruct (p a) eqn:Hp.
  - intros [= ->]. exists [], l. auto.
  - intros Hf. destruct (IH Hf) as (pre & post & -> & Hu & Hr).
    exists (a :: pre), post. simpl. now rewrite Hu, Hr.
Qed.

(** ** Registration: the conflict *)

Lemma register_existing (L : Libs) (ctx : Context) (req : Request) (st : Store)
  (value : RegisterValue) (u : User) :
  registerSchema L (req_body req) = Valid value ->
  emails_as_set st ->
  In u (users st) ->
  username u = reg_username value \/ email u = reg_email value ->
  register L ctx req st
  = (respond 400 (error "User already exists"), after_calls [c_User_findOne] st).
Proof.
  intros Hv Hset Hin Hsame.
  assert (Hmatch : (String.eqb (email u) (set_email (reg_email value))
                    || String.eqb (username u) (set_username (reg_username value)))%bool
                   = true).
  { apply orb_true_iff. destruct Hsame as [Hu|He].
    - right. apply String.eqb_eq. unfold set_username.
      destruct (registerSchema_inv L _ _ Hv) as (o & _ & _ & Ha & _).
      now rewrite (trim_alphanum _ Ha).
    - left. apply String.eqb_eq. rewrite <- He.
      unfold emails_as_set in Hset. rewrite Forall_forall in Hset.
      symmetry. exact (Hset u Hin). }
  destruct (find_some_any
              (fun x => (String.eqb (email x) (set_email (reg_email value))
                         || String.eqb (username x) (set_username (reg_username value)))%bool)
              (users st) u Hin Hmatch) as [y Hy].
  unfold register, try_catch. rewrite Hv.
  unfold User_findOne_email_or_username; db.
  cbn [users]. rewrite Hy. reflexivity.
Qed.

(** C4. A registration whose body carries the username or the e-mail of a
    stored user is answered 400 and leaves both collections as they were:
    no record is created and none is modified. When the body passes
    [registerSchema], the answer is [User already exists], given after the
    one [findOne] and before any [save]. *)
Theorem register_conflict (L : Libs) (ctx : Context) (req : Request) (st : Store)
  (o : list (string * json)) (u : User) :
  req_body req = JObject o ->
  emails_as_set st ->
  In u (users st) ->
  lookup "username" o = Some (JString (username u))
  \/ lookup "email" o = Some (JString (email u)) ->
  (res_status (fst (register L ctx req st)) = 400
   /\ users (snd (register L ctx req st)) = users st
   /\ tasks (snd (register L ctx req st)) = tasks st)
  /\ (forall value,
        registerSchema L (req_body req) = Valid value ->
        register L ctx req st
        = (respond 400 (error "User already exists"), after_calls [c_User_findOne] st)).
Proof.
  intros Hb Hset Hin Hsame.
  assert (Hvalid : forall value,
             registerSchema L (req_body req) = Valid value ->
             register L ctx req st
             = (respond 400 (error "User already exists"), after_calls [c_User_findOne] st)).
  { intros value Hv. apply (register_existing L ctx req st value u Hv Hset Hin).
    destruct (registerSchema_inv L _ _ Hv) as (o' & Ho' & Hu & _ & _ & He & _).
    rewrite Hb in Ho'. injection Ho' as <-.
    destruct Hsame as [H|H]; [left|right]; congruence. }
  split; [|exact Hvalid].
  destruct (registerSchema L (req_body req)) as [value|d] eqn:Hv.
  - rewrite (Hvalid value eq_refl). auto.
  - rewrite (register_invalid L ctx req st d Hv). auto.
Qed.

(** Registering again with alice's e-mail under another username. *)
Lemma register_conflict_witness :
  register Demo.libs Demo.ctx
    (Demo.request None "" Demo.no_query
       (JObject [("username", JString "alice2"); ("email", JString "alice@example.com");
                 ("password", JString "secret1")]))
    Demo.store
  = (respond 400 (error "User already exists"), after_calls [c_User_findOne] Demo.store).
Proof.
  apply (proj2 (register_conflict Demo.libs Demo.ctx
                  (Demo.request None "" Demo.no_query
                     (JObject [("username", JString "alice2");
                               ("email", JString "alice@example.com");
                               ("password", JString "secret1")]))
                  Demo.store _ Demo.alice eq_refl
                  ltac:(repeat constructor) ltac:(simpl; auto) (or_intror eq_refl))
           {| reg_username := "alice2"; reg_email := "alice@example.com";
              reg_password := "secret1" |}).
  reflexivity.
Defined.

(** ** The invariants of the user collection *)

Lemma space_lower_char (c : ascii) : is_space (lower_char c) = is_space c.
Proof. destruct c as [[] [] [] [] [] [] [] []]; vm_compute; reflexivity. Qed.

Lemma lower_char_idempotent (c : ascii) : lower_char (lower_char c) = lower_char c.
Proof. destruct c as [[] [] [] [] [] [] [] []]; vm_compute; reflexivity. Qed.

Lemma toLowerCase_idempotent (s : string) : toLowerCase (toLowerCase s) = toLowerCase s.
Proof.
  induction s as [|c r IH]; simpl; [reflexivity|].
  now rewrite lower_char_idempotent, IH.
Qed.

Lemma trimStart_toLowerCase (s : string) :
  trimStart (toLowerCase s) = toLowerCase (trimStart s).
Proof.
  induction s as [|c r IH]; simpl; [reflexivity|].
  rewrite space_lower_char. destruct (is_space c); [exact IH|reflexivity].
Qed.

Lemma trimEnd_toLowerCase (s : string) :
  trimEnd (toLowerCase s) = toLowerCase (trimEnd s).
Proof.
  induction s as [|c r IH]; simpl; [reflexivity|].
  rewrite IH, space_lower_char.
  destruct (trimEnd r); simpl; [destruct (is_space c)|]; reflexivity.
Qed.

Lemma trimEnd_idempotent (s : string) : trimEnd (trimEnd s) = trimEnd s.
Proof.
  induction s as [|c r IH]; simpl; [reflexivity|].
  destruct (trimEnd r) as [|c' r'] eqn:Hr.
  - destruct (is_space c) eqn:Hc; simpl; [reflexivity|now rewrite Hc].
  - change (trimEnd (String c (String c' r')) = String c (String c' r')).
    cbn [trimEnd]. cbn [trimEnd] in IH. now rewrite IH.
Qed.

(** A string that does not begin with a space keeps its first character
    under [trimEnd]. *)
Lemma trimStart_trimEnd (s : string) :
  trimStart s = s -> trimStart (trimEnd s) = trimEnd s.
Proof.
  destruct s as [|c r]; simpl; [reflexivity|].
  destruct (is_space c) eqn:Hc.
  - intros H. exfalso.
    assert (Hlen : String.length (trimStart r) = S (String.length r)) by now rewrite H.
    assert (Hle : forall t, (String.length (trimStart t) <= String.length t)%nat).
    { induction t as [|a t IHt]; simpl; [lia|]. destruct (is_space a); simpl; lia. }
    specialize (Hle r). lia.
  - intros _. destruct (trimEnd r); simpl; now rewrite Hc.
Qed.

Lemma trimStart_idempotent (s : string) : trimStart (trimStart s) = trimStart s.
Proof.
  induction s as [|c r IH]; simpl; [reflexivity|].
  destruct (is_space c) eqn:Hc; [exact IH|]. simpl. now rewrite Hc.
Qed.

Lemma trim_idempotent (s : string) : trim (trim s) = trim s.
Proof.
  unfold trim.
  rewrite (trimStart_trimEnd (trimStart s) (trimStart_idempotent s)).
  apply trimEnd_idempotent.
Qed.

(** The setters of [email] applied twice are the setters applied once: a
    stored e-mail is found by a query for itself. *)
Lemma set_email_idempotent (s : string) : set_email (set_email s) = set_email s.
Proof.
  unfold set_email, trim.
  rewrite trimStart_toLowerCase, trimEnd_toLowerCase, toLowerCase_idempotent.
  fold (trim (trimEnd (trimStart s))). fold (trim s).
  now rewrite trim_idempotent.
Qed.

Lemma update_first_map_same {A B : Type} (p : A -> bool) (f : A -> A) (g : A -> B)
  (l : list A) :
  (forall x, g (f x) = g x) -> map g (update_first p f l) = map g l.
Proof.
  intros Hg. induction l as [|a l IH]; simpl; [reflexivity|].
  destruct (p a); simpl; [now rewrite Hg|now rewrite IH].
Qed.

Lemma not_duplicate_key (u : User) (us : list User) :
  duplicate_key u us = false -> ~ In (email u) (map email us).
Proof.
  unfold duplicate_key. intros Hd Hin.
  apply in_map_iff in Hin. destruct Hin as (x & He & Hx).
  assert (Hf : existsb (fun x => (String.eqb (username x) (username u)
                                  || String.eqb (email x) (email u))%bool) us = true).
  { apply existsb_exists. exists x. split; [exact Hx|].
    rewrite He, String.eqb_refl. apply orb_true_r. }
  congruence.
Qed.

(** Registration and login keep the e-mails of the collection unique and
    in the form the setters give them. *)
Lemma register_keeps_emails (L : Libs) (ctx : Context) (req : Request) (st : Store) :
  emails_unique st /\ emails_as_set st ->
  emails_unique (snd (register L ctx req st))
  /\ emails_as_set (snd (register L ctx req st)).
Proof.
  intros [Hu Hs]. unfold register, try_catch.
  destruct (registerSchema L (req_body req)) as [value|d]; [|now split].
  unfold User_findOne_email_or_username; db. cbn [users].
  destruct (find _ (users st)); [now split|].
  unfold User_save_new; db. cbn.
  destruct (userSchema_valid _); cbn; [|now split].
  match goal with
  | |- context [existsb ?f (users st)] =>
      change (existsb f (users st))
        with (duplicate_key (new_User (fresh_id ctx) (now ctx) value) (users st))
  end.
  destruct (duplicate_key _ (users st)) eqn:Hd; cbn; [now split|].
  apply not_duplicate_key in Hd. cbn in Hd.
  unfold emails_unique, emails_as_set in *. cbn. split.
  - rewrite map_app. cbn.
    apply NoDup_app; [exact Hu|repeat constructor; intros []|].
    intros e He [<-|[]]. exact (Hd He).
  - apply Forall_app. split; [exact Hs|].
    constructor; [|constructor]. cbn. apply set_email_idempotent.
Qed.

Lemma login_keeps_emails (L : Libs) (ctx : Context) (req : Request) (st : Store) :
  emails_unique st /\ emails_as_set st ->
  emails_unique (snd (login L ctx req st))
  /\ emails_as_set (snd (login L ctx req st)).
Proof.
  intros [Hu Hs]. unfold login, try_catch.
  destruct (loginSchema L (req_body req)) as [value|d]; [|now split].
  unfold User_findOne_active; db. cbn [users].
  destruct (find _ (users st)) as [u|]; [|now split].
  destruct (bcrypt_compare L _ _); cbn; [|now split].
  unfold User_save_lastLogin; db. cbn.
  destruct (userSchema_valid _); cbn; [|now split].
  unfold emails_unique, emails_as_set in *. cbn. split.
  - now rewrite (update_first_map_same _ _ email).
  - rewrite Forall_forall in *. intros x Hx.
    assert (Hm : In (email x) (map email (users st))).
    { rewrite <- (update_first_map_same
                    (fun y => N.eqb (user_id y) (user_id u)) (with_lastLogin (now ctx))
                    email (users st)) by reflexivity.
      now apply in_map. }
    apply in_map_iff in Hm. destruct Hm as (y & He & Hy).
    rewrite <- He. exact (Hs y Hy).
Qed.

(** ** Login *)

Lemma login_no_active_user (L : Libs) (ctx : Context) (req : Request) (st : Store)
  (value : LoginValue) :
  loginSchema L (req_body req) = Valid value ->
  find (fun u => (String.eqb (email u) (set_email (login_email value)) && isActive u)%bool)
       (users st) = None ->
  login L ctx req st
  = (respond 401 (error "Invalid credentials"), after_calls [c_User_findOne] st).
Proof.
  intros Hv Hf. unfold login, try_catch. rewrite Hv.
  unfold User_findOne_active; db. cbn [users].
  rewrite Hf. reflexivity.
Qed.

Lemma login_password_mismatch (L : Libs) (ctx : Context) (req : Request) (st : Store)
  (value : LoginValue) (u : User) :
  loginSchema L (req_body req) = Valid value ->
  find (fun u => (String.eqb (email u) (set_email (login_email value)) && isActive u)%bool)
       (users st) = Some u ->
  bcrypt_compare L (login_password value) (password u) = false ->
  login L ctx req st
  = (respond 401 (error "Invalid credentials"), after_calls [c_User_findOne] st).
Proof.
  intros Hv Hf Hc. unfold login, try_catch. rewrite Hv.
  unfold User_findOne_active; db. cbn [users].
  rewrite Hf, Hc. reflexivity.
Qed.

Lemma login_invalid (L : Libs) (ctx : Context) (req : Request) (st : Store)
  (d : Joi.details) :
  loginSchema L (req_body req) = Invalid d ->
  login L ctx req st = (respond 400 (validation_error d), st).
Proof. unfold login, try_catch. now intros ->. Qed.

Lemma login_failure (L : Libs) (ctx : Context) (req : Request) (st : Store)
  (value : LoginValue) :
  loginSchema L (req_body req) = Valid value ->
  LoginFailure L st value ->
  login L ctx req st
  = (respond 401 (error "Invalid credentials"), after_calls [c_User_findOne] st).
Proof.
  intros Hv [Hnone|u Huniq Hin He Hoff|u Huniq Hin He Hon Hpw].
  - apply (login_no_active_user L ctx req st value Hv).
    apply find_none_all. intros x Hx.
    destruct (String.eqb_spec (email x) (set_email (login_email value))) as [E|E];
      [now elim (Hnone x Hx)|reflexivity].
  - apply (login_no_active_user L ctx req st value Hv).
    apply find_none_all. intros x Hx.
    destruct (String.eqb_spec (email x) (set_email (login_email value))) as [E|E];
      [|reflexivity].
    assert (x = u) as ->
      by (apply (NoDup_map_eq email (users st)); auto; congruence).
    now rewrite Hoff.
  - apply (login_password_mismatch L ctx req st value u Hv); [|exact Hpw].
    rewrite <- He. exact (find_unique email isActive (users st) u Huniq Hin Hon).
Qed.

(** C2. A login request that passes validation and whose credentials fail
    in any of the three ways (unknown e-mail, e-mail of a deactivated user,
    wrong password of an active user) gets one and the same answer, 401
    with [Invalid credentials], and the collections are not changed.
    Whatever the request, two stores in which its credentials fail give the
    client the same answer, so the answer does not tell whether the e-mail
    exists. And whenever login hands out a token, it is the token of an
    active user of the store: a deactivated user never obtains one. *)
Theorem login_failure_uniform (L : Libs) (ctx : Context) (req : Request) (st : Store) :
  (forall value,
     loginSchema L (req_body req) = Valid value ->
     LoginFailure L st value ->
     login L ctx req st
     = (respond 401 (error "Invalid credentials"), after_calls [c_User_findOne] st))
  /\ (forall st',
        (forall value,
           loginSchema L (req_body req) = Valid value ->
           LoginFailure L st value /\ LoginFailure L st' value) ->
        fst (login L ctx req st) = fst (login L ctx req st'))
  /\ (forall token,
        token_issued (fst (login L ctx req st)) = Some token ->
        exists u,
          In u (users st) /\ isActive u = true
          /\ token = jwt_sign L (identity_of L u) (now ctx)).
Proof.
  split; [|split].
  - apply login_failure.
  - intros st' Hfail.
    destruct (loginSchema L (req_body req)) as [value|d] eqn:Hv.
    + destruct (Hfail value eq_refl) as [H H'].
      now rewrite (login_failure L ctx req st value Hv H),
                  (login_failure L ctx req st' value Hv H').
    + now rewrite !(login_invalid L ctx req _ d Hv).
  - intros token. unfold login, try_catch.
    destruct (loginSchema L (req_body req)) as [value|d]; [|discriminate].
    unfold User_findOne_active; db. cbn [users].
    destruct (find _ (users st)) as [u|] eqn:Hf; [|discriminate].
    destruct (bcrypt_compare L (login_password value) (password u)); [|discriminate].
    unfold User_save_lastLogin; db. cbn.
    destruct (userSchema_valid (with_lastLogin (now ctx) u)); [|discriminate].
    cbn. intros [= <-].
    destruct (find_some _ _ Hf) as [Hin Hp].
    apply andb_true_iff in Hp. destruct Hp as [_ Hact].
    exists u. auto.
Qed.

(** On the demo store: an unknown e-mail, the deactivated bob with his own
    password, and alice with a wrong password get the same answer. *)
Lemma login_failure_uniform_witness :
  let answer := respond 401 (error "Invalid credentials") in
  fst (login Demo.libs Demo.ctx (Demo.credentials "nobody@example.com" "secret1")
         Demo.store) = answer
  /\ fst (login Demo.libs Demo.ctx (Demo.credentials "bob@example.com" "builder1")
            Demo.store) = answer
  /\ fst (login Demo.libs Demo.ctx (Demo.credentials "alice@example.com" "looking-glass")
            Demo.store) = answer.
Proof.
  cbv zeta. split; [|split].
  - rewrite (proj1 (login_failure_uniform Demo.libs Demo.ctx
                      (Demo.credentials "nobody@example.com" "secret1") Demo.store)
               {| login_email := "nobody@example.com"; login_password := "secret1" |}
               eq_refl); [reflexivity|].
    apply unknown_email. simpl. intros u [<-|[<-|[]]]; discriminate.
  - rewrite (proj1 (login_failure_uniform Demo.libs Demo.ctx
                      (Demo.credentials "bob@example.com" "builder1") Demo.store)
               {| login_email := "bob@example.com"; login_password := "builder1" |}
               eq_refl); [reflexivity|].
    apply (deactivated_user _ _ _ Demo.bob); try reflexivity.
    + repeat constructor; simpl; intuition discriminate.
    + simpl. auto.
  - rewrite (proj1 (login_failure_uniform Demo.libs Demo.ctx
                      (Demo.credentials "alice@example.com" "looking-glass") Demo.store)
               {| login_email := "alice@example.com"; login_password := "looking-glass" |}
               eq_refl); [reflexivity|].
    apply (wrong_password _ _ _ Demo.alice); try reflexivity.
    + repeat constructor; simpl; intuition discriminate.
    + simpl. auto.
Defined.

(** ** Tasks: update and delete *)

(** With unique ids, a task of another owner is not what the filter
    [{ _id, userId }] matches. *)
Lemma not_owned_no_match (st : Store) (t : Task) (who : N) :
  task_ids_unique st -> In t (tasks st) -> who <> userId t ->
  find (owned_with_id (task_id t) who) (tasks st) = None.
Proof.
  intros Huniq Hin Hne. apply find_none_all. intros x Hx.
  unfold owned_with_id.
  destruct (N.eqb_spec (task_id x) (task_id t)) as [E|E]; [|reflexivity].
  assert (x = t) as -> by exact (NoDup_map_eq task_id (tasks st) x t Huniq Hx Hin E).
  simpl. apply N.eqb_neq. congruence.
Qed.

Lemma no_such_id_no_match (st : Store) (i who : N) :
  (forall x, In x (tasks st) -> task_id x <> i) ->
  find (owned_with_id i who) (tasks st) = None.
Proof.
  intros Hno. apply find_none_all. intros x Hx. unfold owned_with_id.
  destruct (N.eqb_spec (task_id x) i) as [E|E]; [now elim (Hno x Hx)|reflexivity].
Qed.

(** The answer to a delete whose filter matches no document. *)
Lemma delete_task_no_match (L : Libs) (ctx : Context) (req : Request) (user : Identity)
  (st : Store) (i who : N) :
  cast_ObjectId L (params_id req) = Some i ->
  cast_ObjectId L (jwt_userId user) = Some who ->
  find (owned_with_id i who) (tasks st) = None ->
  delete_task L ctx req user st
  = (respond 404 (error "Task not found"), after_calls [c_Task_findOneAndDelete] st).
Proof.
  intros Hi Hw Hf. unfold delete_task, try_catch, Task_findOneAndDelete.
  db. rewrite Hi, Hw. cbn. rewrite Hf. reflexivity.
Qed.

Lemma put_task_no_match (L : Libs) (ctx : Context) (req : Request) (user : Identity)
  (st : Store) (i who : N) :
  cast_ObjectId L (params_id req) = Some i ->
  cast_ObjectId L (jwt_userId user) = Some who ->
  find (owned_with_id i who) (tasks st) = None ->
  exists cs,
    put_task L ctx req user st
    = (update_no_match_answer L (req_body req), after_calls cs st).
Proof.
  intros Hi Hw Hf. unfold put_task, try_catch, update_no_match_answer.
  destruct (taskSchema_validation L (req_body req)) as [value|d].
  - exists [c_Task_findOneAndUpdate].
    unfold Task_findOneAndUpdate; db. rewrite Hi, Hw. cbn.
    destruct (update_valid value); cbn; [rewrite Hf|]; reflexivity.
  - exists []. destruct st. reflexivity.
Qed.

(** Update and delete keep the ids of the collection unique. *)
Lemma remove_first_NoDup {A B : Type} (p : A -> bool) (g : A -> B) (l : list A) :
  NoDup (map g l) -> NoDup (map g (remove_first p l)).
Proof.
  induction l as [|a l IH]; simpl; [auto|].
  intros Hnd. inversion Hnd as [|? ? Hnotin Hnd']; subst.
  destruct (p a); [exact Hnd'|]. simpl. constructor; [|now apply IH].
  intros Hin. apply Hnotin.
  apply in_map_iff in Hin. destruct Hin as (x & Hx & Hxin).
  apply in_map_iff. exists x. split; [exact Hx|].
  clear -Hxin. induction l as [|b l IHl]; simpl in *; [contradiction|].
  destruct (p b); [now right|]. destruct Hxin as [->|H]; auto.
Qed.

Lemma put_task_keeps_ids (L : Libs) (ctx : Context) (req : Request) (user : Identity)
  (st : Store) :
  task_ids_unique st -> task_ids_unique (snd (put_task L ctx req user st)).
Proof.
  intros Hu. unfold put_task, try_catch.
  destruct (taskSchema_validation L (req_body req)) as [value|d]; [|exact Hu].
  unfold Task_findOneAndUpdate; db.
  destruct (cast_ObjectId L (params_id req)) as [i|]; [|exact Hu].
  destruct (cast_ObjectId L (jwt_userId user)) as [who|]; [|exact Hu].
  cbn. destruct (update_valid value); cbn; [|exact Hu].
  destruct (find (owned_with_id i who) (tasks st)); cbn; [|exact Hu].
  unfold task_ids_unique. cbn.
  now rewrite (update_first_map_same _ _ task_id).
Qed.

Lemma delete_task_keeps_ids (L : Libs) (ctx : Context) (req : Request) (user : Identity)
  (st : Store) :
  task_ids_unique st -> task_ids_unique (snd (delete_task L ctx req user st)).
Proof.
  intros Hu. unfold delete_task, try_catch, Task_findOneAndDelete. db.
  destruct (cast_ObjectId L (params_id req)) as [i|]; [|exact Hu].
  destruct (cast_ObjectId L (jwt_userId user)) as [who|]; [|exact Hu].
  cbn. destruct (find (owned_with_id i who) (tasks st)); cbn; [|exact Hu].
  unfold task_ids_unique. cbn. now apply remove_first_NoDup.
Qed.

(** The tasks a listing returns are tasks of the caller. *)
Lemma In_insert_desc (x y : Task) (l : list Task) :
  In y (insert_desc x l) -> y = x \/ In y l.
Proof.
  induction l as [|a l IH]; simpl.
  - intros [->|[]]. auto.
  - destruct (createdAt a <=? createdAt x); simpl.
    + intros [->|[->|H]]; auto.
    + intros [->|H]; auto. destruct (IH H); auto.
Qed.

Lemma In_sort (y : Task) (l : list Task) : In y (sort_createdAt_desc l) -> In y l.
Proof.
  induction l as [|a l IH]; simpl; [auto|].
  intros H. destruct (In_insert_desc _ _ _ H) as [->|H']; auto.
Qed.

Lemma In_firstn_list {A : Type} (n : nat) (y : A) (l : list A) :
  In y (firstn n l) -> In y l.
Proof.
  revert l. induction n as [|n IH]; intros [|a l]; simpl; try tauto.
  intros [H|H]; auto.
Qed.

Lemma In_skipn_list {A : Type} (n : nat) (y : A) (l : list A) :
  In y (skipn n l) -> In y l.
Proof.
  revert l. induction n as [|n IH]; intros [|a l]; simpl; auto.
Qed.

Lemma In_window (limit skip : Z) (y : Task) (l : list Task) :
  In y (window limit skip l) -> In y l.
Proof.
  unfold window. intros H.
  apply (In_skipn_list (Z.to_nat skip)).
  destruct (limit =? 0); [exact H|].
  exact (In_firstn_list _ _ _ H).
Qed.

(** What [GET /api/tasks] does for a caller whose id casts: the window it
    asks the store for is made of the query values as they are. *)
Lemma get_tasks_run (L : Libs) (ctx : Context) (req : Request) (user : Identity)
  (st : Store) (who : N) :
  cast_ObjectId L (jwt_userId user) = Some who ->
  let p := or_default 1 (page (query req)) in
  let l := or_default 10 (limit (query req)) in
  let found := matching req user who st in
  get_tasks L ctx req user st
  = if (p - 1) * l <? 0
    then (respond 500 (error "Internal server error"),
          after_calls [c_Task_find (l * 1) ((p - 1) * l)] st)
    else (respond 200
            (tasks_page (window (l * 1) ((p - 1) * l) (sort_createdAt_desc found))
               (ceil_div (Z.of_nat (List.length found)) l) p (List.length found)),
          after_calls [c_Task_countDocuments; c_Task_find (l * 1) ((p - 1) * l)] st).
Proof.
  intros Hw. cbv zeta. unfold get_tasks, try_catch, Task_find, Task_countDocuments.
  db. cbn [f_userId]. rewrite Hw.
  destruct ((or_default 1 (page (query req)) - 1) * or_default 10 (limit (query req)) <? 0);
    reflexivity.
Qed.

Lemma get_tasks_shows_own (L : Libs) (ctx : Context) (req : Request) (user : Identity)
  (st : Store) (who : N) (y : Task) :
  cast_ObjectId L (jwt_userId user) = Some who ->
  In y (tasks_shown (fst (get_tasks L ctx req user st))) ->
  In y (tasks st) /\ userId y = who.
Proof.
  intros Hw. rewrite (get_tasks_run L ctx req user st who Hw). cbv zeta.
  destruct ((or_default 1 (page (query req)) - 1) * or_default 10 (limit (query req)) <? 0);
    cbn [fst tasks_shown res_json respond]; [contradiction|].
  intros H. apply In_window, In_sort, filter_In in H.
  destruct H as [Hin Hm]. split; [exact Hin|].
  unfold matches in Hm.
  apply andb_true_iff in Hm. destruct Hm as [Hm _].
  apply andb_true_iff in Hm. destruct Hm as [Hm _].
  now apply N.eqb_eq.
Qed.

Lemma authenticated_with_id (L : Libs) (ctx : Context) (req : Request) (user : Identity)
  (who : N) (id : string) :
  authenticated_as L ctx req user who -> authenticated_as L ctx (with_id req id) user who.
Proof. intros (token & H). exists token. exact H. Qed.

(** C1. Let [t] be a task of the store and let the request be authenticated
    as a user [B] who is not its owner. Then [t] is not among the tasks
    List Tasks returns; and with [t]'s own id in the path, Delete answers
    404 [Task not found], Update leaves both collections as they were,
    answers 404 [Task not found] whenever its payload passes the
    validators, and each of the two answers is the one the same request
    gets for an id that no task of the store has. *)
Theorem ownership_isolation (L : Libs) (ctx : Context) (st : Store) (t : Task)
  (req : Request) (user : Identity) (B : N) :
  In t (tasks st) ->
  task_ids_unique st ->
  authenticated_as L ctx req user B ->
  B <> userId t ->
  ~ In t (tasks_shown (fst (route L ctx GET_tasks req st)))
  /\ (cast_ObjectId L (params_id req) = Some (task_id t) ->
      route L ctx DELETE_tasks_id req st
      = (respond 404 (error "Task not found"), after_calls [c_Task_findOneAndDelete] st)
      /\ (exists cs,
            route L ctx PUT_tasks_id req st
            = (update_no_match_answer L (req_body req), after_calls cs st))
      /\ tasks (snd (route L ctx PUT_tasks_id req st)) = tasks st
      /\ (forall value,
            taskSchema_validation L (req_body req) = Valid value ->
            update_valid value = true ->
            fst (route L ctx PUT_tasks_id req st) = respond 404 (error "Task not found"))
      /\ (forall id' i',
            cast_ObjectId L id' = Some i' ->
            (forall x, In x (tasks st) -> task_id x <> i') ->
            fst (route L ctx DELETE_tasks_id (with_id req id') st)
            = fst (route L ctx DELETE_tasks_id req st)
            /\ fst (route L ctx PUT_tasks_id (with_id req id') st)
               = fst (route L ctx PUT_tasks_id req st))).
Proof.
  intros Hin Huniq Hauth Hne.
  pose proof Hauth as (token & _ & _ & Hw).
  pose proof (not_owned_no_match st t B Huniq Hin Hne) as Hnone.
  split.
  - rewrite (route_authenticated L ctx GET_tasks req user B Hauth). cbn [handler_of].
    intros Hshown.
    destruct (get_tasks_shows_own L ctx req user st B t Hw Hshown) as [_ Hown].
    congruence.
  - intros Hid.
    rewrite (route_authenticated L ctx DELETE_tasks_id req user B Hauth).
    rewrite (route_authenticated L ctx PUT_tasks_id req user B Hauth).
    cbn [handler_of].
    pose proof (delete_task_no_match L ctx req user st _ B Hid Hw Hnone) as Hdel.
    destruct (put_task_no_match L ctx req user st _ B Hid Hw Hnone) as [cs Hput].
    split; [exact Hdel|]. split; [eauto|]. split; [now rewrite Hput|]. split.
    + intros value Hv Hu. rewrite Hput. cbn [fst].
      unfold update_no_match_answer. now rewrite Hv, Hu.
    + intros id' i' Hid' Hno.
      pose proof (authenticated_with_id L ctx req user B id' Hauth) as Hauth'.
      rewrite (route_authenticated L ctx DELETE_tasks_id _ user B Hauth').
      rewrite (route_authenticated L ctx PUT_tasks_id _ user B Hauth').
      cbn [handler_of].
      pose proof (no_such_id_no_match st i' B Hno) as Hnone'.
      rewrite (delete_task_no_match L ctx (with_id req id') user st i' B Hid' Hw Hnone').
      destruct (put_task_no_match L ctx (with_id req id') user st i' B Hid' Hw Hnone')
        as [cs' Hput'].
      rewrite Hdel, Hput, Hput'. split; reflexivity.
Qed.

Lemma demo_task_ids_unique : task_ids_unique Demo.store.
Proof.
  unfold task_ids_unique. simpl.
  repeat (apply NoDup_cons; [simpl; intuition discriminate|]). apply NoDup_nil.
Qed.

(** Bob's token on alice's task 101: it is not listed to him, his delete
    and his update of it are answered 404. *)
Lemma ownership_isolation_witness :
  let req b := Demo.request (Some "Bearer token-2") "101" Demo.no_query b in
  ~ In (Demo.task 101 1 1001)
       (tasks_shown (fst (route Demo.libs Demo.ctx GET_tasks (req JNull) Demo.store)))
  /\ fst (route Demo.libs Demo.ctx DELETE_tasks_id (req JNull) Demo.store)
     = respond 404 (error "Task not found")
  /\ fst (route Demo.libs Demo.ctx PUT_tasks_id
            (req (JObject [("title", JString "mine now")])) Demo.store)
     = respond 404 (error "Task not found").
Proof.
  cbv zeta.
  assert (Hin : In (Demo.task 101 1 1001) (tasks Demo.store)) by (left; reflexivity).
  assert (Hauth : forall b,
             authenticated_as Demo.libs Demo.ctx
               (Demo.request (Some "Bearer token-2") "101" Demo.no_query b)
               {| jwt_userId := "2"; jwt_username := "user2"; jwt_role := role_user |} 2)
    by (intros b; exists "token-2"; repeat split).
  assert (Hne : 2%N <> userId (Demo.task 101 1 1001)) by discriminate.
  split; [|split].
  - exact (proj1 (ownership_isolation Demo.libs Demo.ctx Demo.store _ _ _ 2
                    Hin demo_task_ids_unique (Hauth JNull) Hne)).
  - destruct (proj2 (ownership_isolation Demo.libs Demo.ctx Demo.store _ _ _ 2
                       Hin demo_task_ids_unique (Hauth JNull) Hne) eq_refl)
      as (Hdel & _).
    now rewrite Hdel.
  - destruct (proj2 (ownership_isolation Demo.libs Demo.ctx Demo.store _ _ _ 2
                       Hin demo_task_ids_unique
                       (Hauth (JObject [("title", JString "mine now")])) Hne) eq_refl)
      as (_ & _ & _ & Hput & _).
    exact (Hput {| v_title := "mine now"; v_description := None; v_status := None;
                   v_priority := None; v_dueDate := None; v_tags := None |}
             eq_refl eq_refl).
Defined.

(** A 200 from [PUT /api/tasks/:id] comes from one place: the payload was
    valid, the filter [{ _id, userId }] found a task, and that task was
    rewritten by [set_paths]. *)
Lemma put_task_200 (L : Libs) (ctx : Context) (req : Request) (user : Identity)
  (st st' : Store) (b : Body) :
  put_task L ctx req user st = (respond 200 b, st') ->
  exists value i who t,
    taskSchema_validation L (req_body req) = Valid value
    /\ cast_ObjectId L (params_id req) = Some i
    /\ cast_ObjectId L (jwt_userId user) = Some who
    /\ find (owned_with_id i who) (tasks st) = Some t
    /\ b = task_json (set_paths value (now ctx) t)
    /\ users st' = users st
    /\ tasks st' = update_first (owned_with_id i who) (set_paths value (now ctx)) (tasks st).
Proof.
  unfold put_task, try_catch.
  destruct (taskSchema_validation L (req_body req)) as [value|d]; [|discriminate].
  unfold Task_findOneAndUpdate; db.
  destruct (cast_ObjectId L (params_id req)) as [i|]; [|discriminate].
  destruct (cast_ObjectId L (jwt_userId user)) as [who|]; [|discriminate].
  cbn. destruct (update_valid value); cbn; [|discriminate].
  destruct (find (owned_with_id i who) (tasks st)) as [t|] eqn:Hf; cbn; [|discriminate].
  intros [= <- <-]. exists value, i, who, t. cbn. auto 10.
Qed.

(** A 200 on a protected route was given by the route's handler, to the
    identity of a token that verified. *)
Lemma route_200 (L : Libs) (ctx : Context) (r : Protected) (req : Request)
  (st st' : Store) (b : Body) :
  route L ctx r req st = (respond 200 b, st') ->
  exists token user,
    bearer_token (authorization req) = Some token
    /\ jwt_verify L token (now ctx) = Some user
    /\ handler_of r L ctx req user st = (respond 200 b, st').
Proof.
  unfold route, authenticateToken.
  destruct (bearer_token (authorization req)) as [token|]; [|discriminate].
  destruct (jwt_verify L token (now ctx)) as [user|] eqn:Hv; [|discriminate].
  intros H. exists token, user. auto.
Qed.

(** ** Listing: order and pages *)

Lemma insert_desc_perm (x : Task) (l : list Task) :
  Permutation (x :: l) (insert_desc x l).
Proof.
  induction l as [|y l IH]; simpl; [reflexivity|].
  destruct (createdAt y <=? createdAt x); [reflexivity|].
  rewrite perm_swap. now apply perm_skip.
Qed.

Lemma sort_perm (l : list Task) : Permutation l (sort_createdAt_desc l).
Proof.
  induction l as [|x l IH]; simpl; [reflexivity|].
  rewrite <- insert_desc_perm. now apply perm_skip.
Qed.

Lemma insert_desc_hd (x y : Task) (l : list Task) :
  HdRel latest_first y l -> latest_first y x -> HdRel latest_first y (insert_desc x l).
Proof.
  intros Hl Hx. destruct l as [|z l]; simpl; [now constructor|].
  destruct (createdAt z <=? createdAt x); constructor; auto.
  now inversion Hl.
Qed.

Lemma insert_desc_sorted (x : Task) (l : list Task) :
  Sorted latest_first l -> Sorted latest_first (insert_desc x l).
Proof.
  induction l as [|y l IH]; simpl; intros Hs.
  - repeat constructor.
  - destruct (createdAt y <=? createdAt x) eqn:Hc.
    + constructor; [exact Hs|]. constructor. unfold latest_first. lia.
    + inversion Hs as [|? ? Hs' Hhd]; subst. constructor; [now apply IH|].
      apply insert_desc_hd; [exact Hhd|]. unfold latest_first. lia.
Qed.

Lemma sort_sorted (l : list Task) : StronglySorted latest_first (sort_createdAt_desc l).
Proof.
  apply Sorted_StronglySorted.
  - intros a b c Hab Hbc. unfold latest_first in *. lia.
  - induction l as [|x l IH]; simpl; [constructor|]. now apply insert_desc_sorted.
Qed.

Lemma authenticated_with_query (L : Libs) (ctx : Context) (req : Request)
  (user : Identity) (who : N) (q : Query) :
  authenticated_as L ctx req user who ->
  authenticated_as L ctx (with_query req q) user who.
Proof. intros (token & H). exists token. exact H. Qed.

Lemma ceil_div_positive (total l : Z) :
  0 <= total -> 1 <= l ->
  exists n, ceil_div total l = JInt n /\ (n - 1) * l < total <= n * l.
Proof.
  intros Ht Hl. unfold ceil_div.
  destruct (Z.eqb_spec l 0) as [E|_]; [lia|].
  exists (- (- total / l)). split; [reflexivity|].
  pose proof (Z.div_mod (- total) l ltac:(lia)) as Hdm.
  pose proof (Z.mod_pos_bound (- total) l ltac:(lia)) as Hmod.
  nia.
Qed.

(** With [page] and [limit] at least 1 the handler's window is the page:
    [limit] tasks after the first [(page - 1) * limit] of the caller's
    matching tasks, latest first. *)
Lemma get_tasks_in_range (L : Libs) (ctx : Context) (req : Request) (user : Identity)
  (st : Store) (who : N) :
  cast_ObjectId L (jwt_userId user) = Some who ->
  let p := or_default 1 (page (query req)) in
  let l := or_default 10 (limit (query req)) in
  let found := matching req user who st in
  1 <= p -> 1 <= l ->
  get_tasks L ctx req user st
  = (respond 200
       (tasks_page
          (firstn (Z.to_nat l) (skipn (Z.to_nat ((p - 1) * l)) (sort_createdAt_desc found)))
          (ceil_div (Z.of_nat (List.length found)) l) p (List.length found)),
     after_calls [c_Task_countDocuments; c_Task_find l ((p - 1) * l)] st).
Proof.
  intros Hw p l found Hp Hl.
  rewrite (get_tasks_run L ctx req user st who Hw). fold p l found.
  destruct (Z.ltb_spec ((p - 1) * l) 0) as [Hneg|_]; [nia|].
  unfold window. rewrite Z.mul_1_r.
  destruct (Z.eqb_spec l 0) as [E|_]; [lia|].
  now rewrite (Z.abs_eq l) by lia.
Qed.

Lemma matching_unfiltered (req : Request) (user : Identity) (who : N) (st : Store)
  (p l : Z) :
  matching (with_query req (paged p l)) user who st = owned who st.
Proof.
  unfold matching, owned. apply filter_ext. intros t. unfold matches. cbn.
  now rewrite !andb_true_r.
Qed.

(** C6, as amended. The handler does no clamping or validation of [page]
    and [limit]: for every request, the window it hands to the store is
    [limit] and [(page - 1) * limit], computed from the query values as
    they are (1 and 10 when absent). When that offset is negative the
    store refuses it and the request is answered 500 from the handler's
    error branch, after the one [find]; when it is not, the request is
    answered 200 with the window the store makes of the two values. In
    particular, when [page] and [limit] are both at least 1 the answer is
    200 with [limit] tasks after the first [(page - 1) * limit] of the
    caller's matching tasks. ([page] and [limit] are integers in the exact
    range.) *)
Theorem pagination_window_unclamped (L : Libs) (ctx : Context) (req : Request)
  (user : Identity) (who : N) (st : Store) :
  authenticated_as L ctx req user who ->
  let p := or_default 1 (page (query req)) in
  let l := or_default 10 (limit (query req)) in
  let found := matching req user who st in
  exact l -> exact ((p - 1) * l) ->
  ((p - 1) * l < 0 ->
   route L ctx GET_tasks req st
   = (respond 500 (error "Internal server error"),
      after_calls [c_Task_find l ((p - 1) * l)] st))
  /\ (0 <= (p - 1) * l ->
      route L ctx GET_tasks req st
      = (respond 200
           (tasks_page (window l ((p - 1) * l) (sort_createdAt_desc found))
              (ceil_div (Z.of_nat (List.length found)) l) p (List.length found)),
         after_calls [c_Task_countDocuments; c_Task_find l ((p - 1) * l)] st))
  /\ (1 <= p -> 1 <= l ->
      route L ctx GET_tasks req st
      = (respond 200
           (tasks_page
              (firstn (Z.to_nat l)
                 (skipn (Z.to_nat ((p - 1) * l)) (sort_createdAt_desc found)))
              (ceil_div (Z.of_nat (List.length found)) l) p (List.length found)),
         after_calls [c_Task_countDocuments; c_Task_find l ((p - 1) * l)] st)).
Proof.
  intros Hauth p l found _ _.
  rewrite (route_authenticated L ctx GET_tasks req user who Hauth). cbn [handler_of].
  destruct Hauth as (token & _ & _ & Hw).
  split; [|split].
  - intros Hneg. rewrite (get_tasks_run L ctx req user st who Hw). fold p l found.
    rewrite Z.mul_1_r.
    destruct (Z.ltb_spec ((p - 1) * l) 0) as [_|Hpos]; [reflexivity|lia].
  - intros Hpos. rewrite (get_tasks_run L ctx req user st who Hw). fold p l found.
    rewrite Z.mul_1_r.
    destruct (Z.ltb_spec ((p - 1) * l) 0) as [Hneg|_]; [lia|reflexivity].
  - intros Hp Hl. exact (get_tasks_in_range L ctx req user st who Hw Hp Hl).
Qed.

(** Alice asks for page 2 with the default limit: the store is asked for
    10 tasks after the first 10, and her two earliest tasks come back. With
    page -1 and limit 5 the store is asked to skip -10 and the answer is
    500. *)
Lemma pagination_window_unclamped_witness :
  route Demo.libs Demo.ctx GET_tasks
    (Demo.request (Some "Bearer token-1") ""
       {| page := Some 2; limit := None; q_status := None; q_priority := None |} JNull)
    Demo.store
  = (respond 200
       (tasks_page [Demo.task 102 1 1002; Demo.task 101 1 1001] (JInt 2) 2 12),
     after_calls [c_Task_countDocuments; c_Task_find 10 10] Demo.store)
  /\ route Demo.libs Demo.ctx GET_tasks
       (Demo.request (Some "Bearer token-1") ""
          {| page := Some (-1); limit := Some 5; q_status := None; q_priority := None |}
          JNull)
       Demo.store
     = (respond 500 (error "Internal server error"),
        after_calls [c_Task_find 5 (-10)] Demo.store).
Proof.
  split.
  - apply (proj2 (proj2 (pagination_window_unclamped Demo.libs Demo.ctx
             (Demo.request (Some "Bearer token-1") ""
                {| page := Some 2; limit := None; q_status := None; q_priority := None |}
                JNull)
             {| jwt_userId := "1"; jwt_username := "user1"; jwt_role := role_user |} 1
             Demo.store
             (ex_intro _ "token-1" (conj eq_refl (conj eq_refl eq_refl)))
             ltac:(unfold exact; cbn; lia) ltac:(unfold exact; cbn; lia))));
      cbn; lia.
  - apply (proj1 (pagination_window_unclamped Demo.libs Demo.ctx
             (Demo.request (Some "Bearer token-1") ""
                {| page := Some (-1); limit := Some 5; q_status := None;
                   q_priority := None |}
                JNull)
             {| jwt_userId := "1"; jwt_username := "user1"; jwt_role := role_user |} 1
             Demo.store
             (ex_intro _ "token-1" (conj eq_refl (conj eq_refl eq_refl)))
             ltac:(unfold exact; cbn; lia) ltac:(unfold exact; cbn; lia))).
    cbn. lia.
Defined.

(** C6, as stated, fails: with [page=0] (and the default limit) the offset
    handed to the store is [(0 - 1) * 10 = -10], the store refuses it, and
    the handler answers from its error branch. *)
Lemma pagination_page_zero :
  route Demo.libs Demo.ctx GET_tasks
    (Demo.request (Some "Bearer token-1") ""
       {| page := Some 0; limit := None; q_status := None; q_priority := None |} JNull)
    Demo.store
  = (respond 500 (error "Internal server error"),
     after_calls [c_Task_find 10 (-10)] Demo.store).
Proof. reflexivity. Qed.

Lemma pages_of_twelve {A : Type} (s : list A) :
  List.length s = 12%nat ->
  let p1 := firstn 5 (skipn 0 s) in
  let p2 := firstn 5 (skipn 5 s) in
  let p3 := firstn 5 (skipn 10 s) in
  List.length p1 = 5%nat /\ List.length p2 = 5%nat /\ List.length p3 = 2%nat
  /\ (p1 ++ p2 ++ p3)%list = s.
Proof.
  intros H.
  do 12 (destruct s as [|? s]; [discriminate|]).
  destruct s; [|discriminate]. cbn. auto.
Qed.

(** C7. For a caller who owns exactly 12 tasks, the requests for pages 1,
    2 and 3 with [limit=5], made one after the other, are answered 200
    with 5, 5 and 2 tasks, each with [totalPages] 3 and [total] 12; the
    three pages put end to end are a rearrangement of the caller's tasks
    and are in descending order of [createdAt]. In general, for [page] and
    [limit] of at least 1, [totalPages] is the least [n] with
    [total <= n * limit], the ceiling of [total / limit]. *)
Theorem pagination_consistency (L : Libs) (ctx : Context) (req : Request)
  (user : Identity) (who : N) (st : Store) :
  authenticated_as L ctx req user who ->
  (List.length (owned who st) = 12%nat ->
   exists p1 p2 p3 st1 st2 st3,
     route L ctx GET_tasks (with_query req (paged 1 5)) st
     = (respond 200 (tasks_page p1 (JInt 3) 1 12), st1)
     /\ route L ctx GET_tasks (with_query req (paged 2 5)) st1
        = (respond 200 (tasks_page p2 (JInt 3) 2 12), st2)
     /\ route L ctx GET_tasks (with_query req (paged 3 5)) st2
        = (respond 200 (tasks_page p3 (JInt 3) 3 12), st3)
     /\ List.length p1 = 5%nat /\ List.length p2 = 5%nat /\ List.length p3 = 2%nat
     /\ Permutation (p1 ++ p2 ++ p3) (owned who st)
     /\ StronglySorted latest_first (p1 ++ p2 ++ p3))
  /\ (forall p l,
        1 <= p -> 1 <= l -> exact l -> exact ((p - 1) * l) ->
        exists ts n,
          fst (route L ctx GET_tasks (with_query req (paged p l)) st)
          = respond 200 (tasks_page ts (JInt n) p (List.length (owned who st)))
          /\ (n - 1) * l < Z.of_nat (List.length (owned who st)) <= n * l).
Proof.
  intros Hauth.
  assert (Hq : forall q, route L ctx GET_tasks (with_query req q)
                         = get_tasks L ctx (with_query req q) user).
  { intros q.
    exact (route_authenticated L ctx GET_tasks _ user who
             (authenticated_with_query L ctx req user who q Hauth)). }
  destruct Hauth as (token & _ & _ & Hw).
  assert (Hrun : forall p l st0,
             tasks st0 = tasks st -> 1 <= p -> 1 <= l ->
             route L ctx GET_tasks (with_query req (paged p l)) st0
             = (respond 200
                  (tasks_page
                     (firstn (Z.to_nat l)
                        (skipn (Z.to_nat ((p - 1) * l)) (sort_createdAt_desc (owned who st))))
                     (ceil_div (Z.of_nat (List.length (owned who st))) l) p
                     (List.length (owned who st))),
                after_calls [c_Task_countDocuments; c_Task_find l ((p - 1) * l)] st0)).
  { intros p l st0 Hsame Hp Hl. rewrite Hq.
    rewrite (get_tasks_in_range L ctx (with_query req (paged p l)) user st0 who Hw Hp Hl).
    cbn [with_query query paged page limit or_default].
    rewrite matching_unfiltered. unfold owned. now rewrite Hsame. }
  split.
  - intros H12.
    assert (Hlen : List.length (sort_createdAt_desc (owned who st)) = 12%nat)
      by (rewrite <- H12; symmetry; apply Permutation_length, sort_perm).
    destruct (pages_of_twelve _ Hlen) as (H1 & H2 & H3 & Happ).
    do 3 eexists. do 3 eexists.
    split; [|split; [|split]].
    + rewrite (Hrun 1 5 st) by (reflexivity || lia). rewrite H12. reflexivity.
    + rewrite (Hrun 2 5) by (reflexivity || lia). rewrite H12. reflexivity.
    + rewrite (Hrun 3 5) by (reflexivity || lia). rewrite H12. reflexivity.
    + change (Z.to_nat 5) with 5%nat.
      change (Z.to_nat ((1 - 1) * 5)) with 0%nat.
      change (Z.to_nat ((2 - 1) * 5)) with 5%nat.
      change (Z.to_nat ((3 - 1) * 5)) with 10%nat.
      split; [exact H1|]. split; [exact H2|]. split; [exact H3|].
      rewrite Happ. split; [symmetry; apply sort_perm|apply sort_sorted].
  - intros p l Hp Hl _ _.
    destruct (ceil_div_positive (Z.of_nat (List.length (owned who st))) l) as (n & Hn & Hb);
      [lia|exact Hl|].
    do 2 eexists. split; [|exact Hb].
    rewrite (Hrun p l st) by (reflexivity || lia). rewrite Hn. reflexivity.
Qed.

(** Alice owns the twelve tasks 101..112 of the demo store. *)
Lemma pagination_consistency_witness :
  exists p1 p2 p3 st1 st2 st3,
    let req := Demo.request (Some "Bearer token-1") "" Demo.no_query JNull in
    route Demo.libs Demo.ctx GET_tasks (with_query req (paged 1 5)) Demo.store
    = (respond 200 (tasks_page p1 (JInt 3) 1 12), st1)
    /\ route Demo.libs Demo.ctx GET_tasks (with_query req (paged 2 5)) st1
       = (respond 200 (tasks_page p2 (JInt 3) 2 12), st2)
    /\ route Demo.libs Demo.ctx GET_tasks (with_query req (paged 3 5)) st2
       = (respond 200 (tasks_page p3 (JInt 3) 3 12), st3)
    /\ List.length p1 = 5%nat /\ List.length p2 = 5%nat /\ List.length p3 = 2%nat
    /\ Permutation (p1 ++ p2 ++ p3) (owned 1 Demo.store)
    /\ StronglySorted latest_first (p1 ++ p2 ++ p3).
Proof.
  apply (proj1 (pagination_consistency Demo.libs Demo.ctx
                  (Demo.request (Some "Bearer token-1") "" Demo.no_query JNull)
                  {| jwt_userId := "1"; jwt_username := "user1"; jwt_role := role_user |}
                  1 Demo.store
                  (ex_intro _ "token-1" (conj eq_refl (conj eq_refl eq_refl))))).
  reflexivity.
Defined.

(** * Further properties of the handlers *)

(** ** Registration and login, end to end *)

Lemma alphanum_username (s : string) : re_alphanum s = true -> re_username s = true.
Proof.
  unfold re_alphanum, re_username. intros H.
  apply andb_true_iff in H. destruct H as [Hne Ha].
  rewrite Hne. simpl.
  apply (all_chars_weaken is_alnum); [|exact Ha].
  intros c Hc. unfold is_word. now rewrite Hc.
Qed.

Lemma long_not_empty (s : string) (n : nat) : (S n <= len s)%nat -> is_empty s = false.
Proof. destruct s; unfold len; simpl; [lia|reflexivity]. Qed.

(** The e-mail of a validated registration is not the empty string. *)
Lemma registerSchema_email (L : Libs) (body : json) (value : RegisterValue) :
  registerSchema L body = Valid value -> is_empty (reg_email value) = false.
Proof.
  unfold registerSchema, Joi.object. destruct body; try discriminate.
  cbn [and_then].
  destruct (required "username" _ fields) as [u|]; cbn [and_then]; [|discriminate].
  destruct (required "email" _ fields) as [e|] eqn:He; cbn [and_then]; [|discriminate].
  destruct (required "password" _ fields) as [p|]; cbn [and_then]; [|discriminate].
  destruct (no_unknown _ fields); cbn [and_then]; [|discriminate].
  intros [= <-]. cbn.
  apply required_inv in He. destruct He as (v & _ & He).
  apply string_inv in He. destruct He as [_ [He|[He _]]]; [discriminate|exact He].
Qed.

(** Of the validators of [userSchema], only the [match] of [email] can
    refuse a document built from a validated registration. *)
Lemma new_User_valid (L : Libs) (body : json) (value : RegisterValue) (id : N) (t : Z) :
  registerSchema L body = Valid value ->
  userSchema_valid (new_User id t value) = re_email (set_email (reg_email value)).
Proof.
  intros Hv.
  destruct (registerSchema_inv L body value Hv)
    as (o & _ & _ & Ha & [H3 H30] & _ & _ & _ & [H6 H128]).
  unfold userSchema_valid, new_User. cbn [username email password]. unfold set_username.
  rewrite (trim_alphanum _ Ha), (alphanum_username _ Ha).
  rewrite (long_not_empty _ 2 H3), (long_not_empty _ 5 H6).
  apply Nat.leb_le in H3, H30, H6. rewrite H3, H30, H6. cbn [negb andb].
  destruct (re_email (set_email (reg_email value))) eqn:Hm.
  - assert (Hne : is_empty (set_email (reg_email value)) = false)
      by (destruct (set_email (reg_email value)); [discriminate|reflexivity]).
    now rewrite Hne.
  - now rewrite andb_false_r.
Qed.

Lemma no_duplicate_key (u : User) (us : list User) :
  (forall x, In x us -> email x <> email u /\ username x <> username u) ->
  duplicate_key u us = false.
Proof.
  intros H. unfold duplicate_key.
  destruct (existsb _ us) eqn:He; [|reflexivity].
  apply existsb_exists in He. destruct He as (x & Hx & Hm).
  destruct (H x Hx) as [He Hu].
  apply orb_true_iff in Hm. destruct Hm as [Hm|Hm]; apply String.eqb_eq in Hm; congruence.
Qed.

(** What registration does when no stored user has the e-mail or the
    username. *)
Lemma register_runs (L : Libs) (ctx : Context) (req : Request) (st : Store)
  (value : RegisterValue) :
  registerSchema L (req_body req) = Valid value ->
  (forall x, In x (users st) ->
             email x <> set_email (reg_email value)
             /\ username x <> reg_username value) ->
  register L ctx req st
  = if re_email (set_email (reg_email value))
    then (respond 201
            (session "User created successfully"
               (jwt_sign L (identity_of L (registered L ctx value)) (now ctx))
               (public (registered L ctx value) None)),
          {| users := users st ++ [registered L ctx value];
             tasks := tasks st;
             calls := c_User_save :: c_User_findOne :: calls st |})
    else (respond 500 (error "Internal server error"),
          after_calls [c_User_save; c_User_findOne] st).
Proof.
  intros Hv Hfree.
  destruct (registerSchema_inv L _ _ Hv) as (o & _ & _ & Ha & _).
  assert (Hfind : find (fun x => (String.eqb (email x) (set_email (reg_email value))
                                  || String.eqb (username x)
                                       (set_username (reg_username value)))%bool)
                       (users st) = None).
  { apply find_none_all. intros x Hx. destruct (Hfree x Hx) as [He Hu].
    unfold set_username. rewrite (trim_alphanum _ Ha).
    apply orb_false_iff. split; apply String.eqb_neq; assumption. }
  unfold register, try_catch. rewrite Hv.
  unfold User_findOne_email_or_username; db. cbn [users]. rewrite Hfind.
  unfold User_save_new; db.
  rewrite (new_User_valid L _ value (fresh_id ctx) (now ctx) Hv).
  destruct (re_email (set_email (reg_email value))); cbn [negb]; [|reflexivity].
  cbn [new_User user_id username email password role isActive lastLogin
       user_createdAt users tasks calls].
  unfold set_username. rewrite (trim_alphanum _ Ha).
  fold (registered L ctx value).
  rewrite (no_duplicate_key (registered L ctx value) (users st)) by exact Hfree.
  reflexivity.
Qed.

(** ** Registration: the length of the password *)

(** Past validation, registration asks the store for a user of that e-mail
    or username, and none of its answers is a validation error. *)
Lemma register_past_validation (L : Libs) (ctx : Context) (req : Request) (st : Store)
  (value : RegisterValue) :
  registerSchema L (req_body req) = Valid value ->
  (exists cs, calls (snd (register L ctx req st)) = (cs ++ c_User_findOne :: calls st)%list)
  /\ forall d, fst (register L ctx req st) <> respond 400 (validation_error d).
Proof.
  intros Hv. unfold register, try_catch. rewrite Hv.
  unfold User_findOne_email_or_username; db. cbn [users].
  destruct (find _ (users st)) as [x|].
  - split; [exists []; reflexivity|]. intros d. discriminate.
  - unfold User_save_new; db.
    destruct (negb (userSchema_valid _)).
    + split; [exists [c_User_save]; reflexivity|]. intros d. discriminate.
    + cbn [users].
      destruct (duplicate_key _ (users st)).
      * split; [exists [c_User_save]; reflexivity|]. intros d. discriminate.
      * split; [exists [c_User_save]; reflexivity|]. intros d. discriminate.
Qed.

(** C10. Registration accepts a password exactly when its length lies
    between 6 and 128. With a shorter or longer password the registration
    is answered 400 with a validation error and the store is returned
    untouched (no call was made, no record created). In a body whose other
    keys are in order, the answer is a validation error only then: with a
    length between 6 and 128 the schema accepts the body, the handler goes
    on to ask the store for a user of that e-mail or username, and when
    there is none (and the e-mail has the form [userSchema] asks for) the
    answer is 201 and the user is stored with the hash of that password. *)
Theorem register_password_length (L : Libs) (ctx : Context) (req : Request) (st : Store)
  (o : list (string * json)) (p : string) :
  req_body req = JObject o ->
  lookup "password" o = Some (JString p) ->
  ((len p < 6 \/ 128 < len p)%nat ->
   exists d, register L ctx req st = (respond 400 (validation_error d), st))
  /\ (forall u e,
        lookup "username" o = Some (JString u) ->
        re_alphanum u = true -> (3 <= len u <= 30)%nat ->
        lookup "email" o = Some (JString e) ->
        is_empty e = false -> joi_email L e = true ->
        no_unknown ["username"; "email"; "password"] o = Valid tt ->
        let value := {| reg_username := u; reg_email := e; reg_password := p |} in
        (registerSchema L (req_body req) = Valid value <-> (6 <= len p <= 128)%nat)
        /\ ((exists d, fst (register L ctx req st) = respond 400 (validation_error d))
            <-> (len p < 6 \/ 128 < len p)%nat)
        /\ ((6 <= len p <= 128)%nat ->
            (exists cs,
               calls (snd (register L ctx req st))
               = (cs ++ c_User_findOne :: calls st)%list)
            /\ ((forall x, In x (users st) ->
                            email x <> set_email e /\ username x <> u) ->
                re_email (set_email e) = true ->
                register L ctx req st
                = (respond 201
                     (session "User created successfully"
                        (jwt_sign L (identity_of L (registered L ctx value)) (now ctx))
                        (public (registered L ctx value) None)),
                   {| users := users st ++ [registered L ctx value];
                      tasks := tasks st;
                      calls := c_User_save :: c_User_findOne :: calls st |})
                /\ password (registered L ctx value) = bcrypt_hash L p (salt ctx)))).
Proof.
  intros Hb Hp. split.
  - intros Hlen. destruct (password_out_of_range L o p Hp Hlen) as [d Hd].
    exists d. apply register_invalid. now rewrite Hb.
  - intros u e Hu Ha Hul He Hne Hm Hk value.
    assert (Hin : (6 <= len p <= 128)%nat -> registerSchema L (req_body req) = Valid value)
      by (intros Hlen; rewrite Hb; now apply password_in_range).
    split; [|split].
    + split; [|exact Hin].
      intros Hv. apply registerSchema_inv in Hv. rewrite Hb in Hv. simpl in Hv.
      destruct Hv as (o' & _ & _ & _ & _ & _ & _ & _ & Hlen). exact Hlen.
    + split.
      * intros [d Hd].
        destruct (Nat.lt_ge_cases (len p) 6) as [|H6]; [now left|].
        destruct (Nat.lt_ge_cases 128 (len p)) as [|H128]; [now right|].
        destruct (register_past_validation L ctx req st value (Hin (conj H6 H128)))
          as [_ Hnot].
        elim (Hnot d Hd).
      * intros Hlen. destruct (password_out_of_range L o p Hp Hlen) as [d Hd].
        exists d. rewrite (register_invalid L ctx req st d); [reflexivity|].
        now rewrite Hb.
    + intros Hlen. pose proof (Hin Hlen) as Hv. split.
      * exact (proj1 (register_past_validation L ctx req st value Hv)).
      * intros Hfree Hmatch.
        rewrite (register_runs L ctx req st value Hv Hfree).
        cbn [reg_email value] in *. unfold value at 1. cbn [reg_email].
        rewrite Hmatch. split; reflexivity.
Qed.

(** Five characters are refused; six are accepted, and the user is stored
    with the hash of the six. *)
Lemma register_password_length_witness :
  (exists d,
     register Demo.libs Demo.ctx (Scenario.signup "carol" "carol@example.com" "12345")
       Demo.store
     = (respond 400 (validation_error d), Demo.store))
  /\ (exists user,
        users (snd (register Demo.libs Demo.ctx
                      (Scenario.signup "carol" "carol@example.com" "123456") Demo.store))
        = [Demo.alice; Demo.bob; user]
        /\ password user = "$123456").
Proof.
  split.
  - apply (register_password_length Demo.libs Demo.ctx
             (Scenario.signup "carol" "carol@example.com" "12345")
             Demo.store _ "12345" eq_refl eq_refl).
    left. simpl. lia.
  - destruct (proj2 (register_password_length Demo.libs Demo.ctx
                       (Scenario.signup "carol" "carol@example.com" "123456")
                       Demo.store _ "123456" eq_refl eq_refl)
                "carol" "carol@example.com" eq_refl eq_refl
                ltac:(simpl; lia) eq_refl eq_refl eq_refl eq_refl)
      as (_ & _ & Hok).
    destruct (Hok ltac:(simpl; lia)) as [_ Hcreated].
    destruct (Hcreated ltac:(simpl; intros x [<-|[<-|[]]]; split; discriminate) eq_refl)
      as [Hreg Hpw].
    eexists. rewrite Hreg. split; [reflexivity|exact Hpw].
Defined.

(** X1. A registration that passes [registerSchema] and collides with no
    stored user appends exactly one user to the collection: the e-mail in
    lower case, the password as its bcrypt hash, role [user], active. The
    answer is 201 with the token of that user and its public view. When
    the e-mail, though accepted by Joi, does not match the pattern of
    [userSchema], nothing is stored and the answer is 500. *)
Theorem register_creates_user (L : Libs) (ctx : Context) (req : Request) (st : Store)
  (value : RegisterValue) :
  registerSchema L (req_body req) = Valid value ->
  (forall x, In x (users st) ->
             email x <> set_email (reg_email value)
             /\ username x <> reg_username value) ->
  (re_email (set_email (reg_email value)) = true ->
   register L ctx req st
   = (respond 201
        (session "User created successfully"
           (jwt_sign L (identity_of L (registered L ctx value)) (now ctx))
           (public (registered L ctx value) None)),
      {| users := users st ++ [registered L ctx value];
         tasks := tasks st;
         calls := c_User_save :: c_User_findOne :: calls st |}))
  /\ (re_email (set_email (reg_email value)) = false ->
      register L ctx req st
      = (respond 500 (error "Internal server error"),
         after_calls [c_User_save; c_User_findOne] st)).
Proof.
  intros Hv Hfree.
  split; intros Hm; rewrite (register_runs L ctx req st value Hv Hfree), Hm; reflexivity.
Qed.

Lemma register_creates_user_witness :
  register Demo.libs Demo.ctx
    (Scenario.signup "user99" "User99@Example.com" "secret99") Demo.store
  = (respond 201
       (session "User created successfully" "token-99"
          (public Scenario.user99 None)),
     {| users := [Demo.alice; Demo.bob; Scenario.user99];
        tasks := tasks Demo.store;
        calls := [c_User_save; c_User_findOne] |}).
Proof.
  apply (proj1 (register_creates_user Demo.libs Demo.ctx
                  (Scenario.signup "user99" "User99@Example.com" "secret99") Demo.store
                  {| reg_username := "user99"; reg_email := "User99@Example.com";
                     reg_password := "secret99" |} eq_refl
                  ltac:(simpl; intros x [<-|[<-|[]]]; split; discriminate))).
  reflexivity.
Defined.

(** ** The Authorization header *)

Lemma split_one_word (s : string) : no_space s = true -> split " " s = [s].
Proof.
  unfold no_space. induction s as [|c r IH]; cbn [all_chars split]; [reflexivity|].
  intros H. apply andb_true_iff in H. destruct H as [Hc Hr].
  apply negb_true_iff in Hc. rewrite Hc, (IH Hr). reflexivity.
Qed.

Lemma split_two_words (a b : string) :
  no_space a = true -> no_space b = true ->
  split " " (a ++ String " " b) = [a; b].
Proof.
  unfold no_space. intros Ha Hb. induction a as [|c r IH]; cbn [append split all_chars] in *.
  - rewrite Ascii.eqb_refl. now rewrite (split_one_word b Hb).
  - apply andb_true_iff in Ha. destruct Ha as [Hc Hr].
    apply negb_true_iff in Hc. rewrite Hc, (IH Hr). reflexivity.
Qed.

Lemma bearer_token_second_word (scheme token : string) :
  no_space scheme = true -> no_space token = true -> is_empty token = false ->
  bearer_token (Some (scheme ++ String " " token)) = Some token.
Proof.
  intros Hs Ht Hne. unfold bearer_token. cbn [truthy].
  assert (Hh : is_empty (scheme ++ String " " token) = false)
    by (destruct scheme; reflexivity).
  rewrite Hh, (split_two_words scheme token Hs Ht). cbn [nth_error truthy].
  now rewrite Hne.
Qed.

(** X2. [authenticateToken] takes the second word of the Authorization
    header, whatever the first word is: for a token of one word, the answer
    of a protected route does not depend on the scheme the header names
    ([Bearer], [Basic], or none before the space). *)
Theorem scheme_is_not_checked (L : Libs) (ctx : Context) (r : Protected) (req : Request)
  (st : Store) (scheme scheme' token : string) :
  no_space scheme = true -> no_space scheme' = true ->
  no_space token = true -> is_empty token = false ->
  route L ctx r (with_authorization req (scheme ++ String " " token)) st
  = route L ctx r (with_authorization req (scheme' ++ String " " token)) st.
Proof.
  intros Hs Hs' Ht Hne. unfold route, authenticateToken.
  cbn [authorization with_authorization].
  rewrite (bearer_token_second_word scheme token Hs Ht Hne).
  rewrite (bearer_token_second_word scheme' token Hs' Ht Hne).
  destruct (jwt_verify L token (now ctx)); [|reflexivity].
  destruct r; reflexivity.
Qed.

Lemma scheme_is_not_checked_witness :
  route Demo.libs Demo.ctx GET_profile
    (Demo.request (Some "Bearer token-1") "" Demo.no_query JNull) Demo.store
  = route Demo.libs Demo.ctx GET_profile
      (Demo.request (Some "Basic token-1") "" Demo.no_query JNull) Demo.store.
Proof.
  exact (scheme_is_not_checked Demo.libs Demo.ctx GET_profile
           (Demo.request None "" Demo.no_query JNull) Demo.store
           "Bearer" "Basic" "token-1" eq_refl eq_refl eq_refl eq_refl).
Defined.

Lemma find_last {A : Type} (p : A -> bool) (l : list A) (x : A) :
  (forall y, In y l -> p y = false) -> p x = true ->
  find p (l ++ [x]) = Some x.
Proof.
  intros Hl Hx. induction l as [|a l IH]; cbn.
  - now rewrite Hx.
  - rewrite (Hl a (or_introl eq_refl)). apply IH. intros y Hy. apply Hl. now right.
Qed.

Lemma update_last {A : Type} (p : A -> bool) (f : A -> A) (l : list A) (x : A) :
  (forall y, In y l -> p y = false) -> p x = true ->
  update_first p f (l ++ [x]) = (l ++ [f x])%list.
Proof.
  intros Hl Hx. induction l as [|a l IH]; cbn.
  - now rewrite Hx.
  - rewrite (Hl a (or_introl eq_refl)). f_equal. apply IH.
    intros y Hy. apply Hl. now right.
Qed.

(** The credentials a user registered with, as the body of a login. *)
Lemma loginSchema_of_registered (L : Libs) (body : json) (value : RegisterValue) :
  registerSchema L body = Valid value ->
  loginSchema L (JObject [("email", JString (reg_email value));
                          ("password", JString (reg_password value))])
  = Valid {| login_email := reg_email value; login_password := reg_password value |}.
Proof.
  intros Hv.
  pose proof (registerSchema_email L body value Hv) as He.
  destruct (registerSchema_inv L body value Hv)
    as (o & _ & _ & _ & _ & _ & Hm & _ & [H6 _]).
  pose proof (long_not_empty _ 5 H6) as Hp.
  unfold loginSchema. cbn [Joi.object and_then]. unfold required.
  cbn [lookup String.eqb Ascii.eqb Bool.eqb].
  rewrite email_rules, He, Hm. cbn [and_then].
  unfold string_. cbn [Joi.mem existsb first_broken]. rewrite Hp. reflexivity.
Qed.

(** X3. Registration followed by login with the same e-mail and password:
    when bcrypt verifies the password against the hash it made (and the
    hash has the six characters [userSchema] asks of a password), the login
    is answered 200 with the token of the registered user, and the only
    change it makes to the store is that user's [lastLogin]. *)
Theorem register_then_login (L : Libs) (ctx ctx' : Context) (req : Request) (st : Store)
  (value : RegisterValue) :
  registerSchema L (req_body req) = Valid value ->
  (forall x, In x (users st) ->
             email x <> set_email (reg_email value)
             /\ username x <> reg_username value) ->
  (forall x, In x (users st) -> user_id x <> fresh_id ctx) ->
  re_email (set_email (reg_email value)) = true ->
  bcrypt_compare L (reg_password value)
    (bcrypt_hash L (reg_password value) (salt ctx)) = true ->
  (6 <= len (bcrypt_hash L (reg_password value) (salt ctx)))%nat ->
  let u := registered L ctx value in
  let st1 := snd (register L ctx req st) in
  login L ctx'
    (with_body req (JObject [("email", JString (reg_email value));
                             ("password", JString (reg_password value))])) st1
  = (respond 200
       (session "Login successful"
          (jwt_sign L (identity_of L u) (now ctx'))
          (public u (Some (now ctx')))),
     {| users := users st ++ [with_lastLogin (now ctx') u];
        tasks := tasks st;
        calls := c_User_save :: c_User_findOne :: calls st1 |}).
Proof.
  intros Hv Hfree Hfresh Hm Hcmp Hlen u st1.
  assert (Hst1 : st1 = {| users := users st ++ [u]; tasks := tasks st;
                          calls := c_User_save :: c_User_findOne :: calls st |}).
  { unfold st1. now rewrite (register_runs L ctx req st value Hv Hfree), Hm. }
  destruct (registerSchema_inv L _ _ Hv) as (o & _ & _ & Ha & [H3 H30] & _ & _ & _ & _).
  assert (Hvalid : userSchema_valid (with_lastLogin (now ctx') u) = true).
  { unfold userSchema_valid, with_lastLogin, u, registered. cbn [username email password].
    rewrite (alphanum_username _ Ha), (long_not_empty _ 2 H3), (long_not_empty _ 5 Hlen).
    apply Nat.leb_le in H3, H30, Hlen. rewrite H3, H30, Hlen, Hm.
    assert (Hne : is_empty (set_email (reg_email value)) = false)
      by (destruct (set_email (reg_email value)); [discriminate|reflexivity]).
    now rewrite Hne. }
  unfold login, try_catch. cbn [req_body with_body].
  rewrite (loginSchema_of_registered L _ value Hv).
  unfold User_findOne_active; db. cbn [login_email login_password].
  rewrite Hst1. cbn [users tasks calls].
  rewrite (find_last _ (users st) u).
  - change (password u) with (bcrypt_hash L (reg_password value) (salt ctx)).
    rewrite Hcmp. cbn [negb].
    unfold User_save_lastLogin; db. rewrite Hvalid. cbn [negb users tasks calls].
    rewrite (update_last _ _ (users st) u).
    + reflexivity.
    + intros y Hy. apply N.eqb_neq. exact (Hfresh y Hy).
    + apply N.eqb_refl.
  - intros y Hy. destruct (Hfree y Hy) as [He _].
    apply andb_false_iff. left. now apply String.eqb_neq.
  - cbn. now rewrite String.eqb_refl.
Qed.

Lemma register_then_login_witness :
  fst (login Demo.libs Scenario.later
         (Demo.credentials "User99@Example.com" "secret99")
         (snd (register Demo.libs Demo.ctx
                 (Scenario.signup "user99" "User99@Example.com" "secret99") Demo.store)))
  = respond 200
      (session "Login successful" "token-99" (public Scenario.user99 (Some 6000))).
Proof.
  exact (f_equal fst (register_then_login Demo.libs Demo.ctx Scenario.later
             (Scenario.signup "user99" "User99@Example.com" "secret99") Demo.store
             {| reg_username := "user99"; reg_email := "User99@Example.com";
                reg_password := "secret99" |} eq_refl
             ltac:(simpl; intros x [<-|[<-|[]]]; split; discriminate)
             ltac:(simpl; intros x [<-|[<-|[]]]; discriminate)
             eq_refl eq_refl ltac:(cbv; lia))).
Defined.

(** What [GET /api/auth/profile] does for an identity whose id casts. *)
Lemma get_profile_run (L : Libs) (ctx : Context) (req : Request) (user : Identity)
  (st : Store) (who : N) :
  cast_ObjectId L (jwt_userId user) = Some who ->
  get_profile L ctx req user st
  = (match find (fun u => N.eqb (user_id u) who) (users st) with
     | Some u => respond 200 (profile_json (without_password u))
     | None => respond 404 (error "User not found")
     end,
     after_calls [c_User_findById] st).
Proof.
  intros Hw. unfold get_profile, try_catch, User_findById; db. rewrite Hw. cbn.
  destruct (find _ (users st)); reflexivity.
Qed.

Lemma find_by_id (st : Store) (u : User) :
  user_ids_unique st -> In u (users st) ->
  find (fun x => N.eqb (user_id x) (user_id u)) (users st) = Some u.
Proof.
  intros Hu Hin.
  destruct (find_some_any (fun x => N.eqb (user_id x) (user_id u)) (users st) u Hin
              (N.eqb_refl _)) as [y Hy].
  rewrite Hy. f_equal. destruct (find_some _ _ Hy) as [Hyin Hp].
  apply N.eqb_eq in Hp.
  exact (NoDup_map_eq user_id (users st) y u Hu Hyin Hin Hp).
Qed.

(** X4. The token login and registration issue for a user opens that
    user's profile: sent by the client as [Bearer <token>], a token that
    [jwt.verify] gives back with the identity it was signed for is answered
    200 with the stored record of that user, password left out, and the
    store is read once and not changed. (The token is one word, and an
    ObjectId written out casts back to itself.) *)
Theorem token_opens_profile (L : Libs) (ctx : Context) (req : Request) (st : Store)
  (u : User) (issued : Z) :
  In u (users st) ->
  user_ids_unique st ->
  jwt_verify L (jwt_sign L (identity_of L u) issued) (now ctx) = Some (identity_of L u) ->
  cast_ObjectId L (show_ObjectId L (user_id u)) = Some (user_id u) ->
  no_space (jwt_sign L (identity_of L u) issued) = true ->
  is_empty (jwt_sign L (identity_of L u) issued) = false ->
  route L ctx GET_profile
    (with_authorization req
       (Client.authorization_of (jwt_sign L (identity_of L u) issued))) st
  = (respond 200 (profile_json (without_password u)), after_calls [c_User_findById] st).
Proof.
  intros Hin Hu Hver Hcast Hword Hne.
  unfold route, authenticateToken. cbn [authorization with_authorization].
  unfold Client.authorization_of.
  change ("Bearer " ++ jwt_sign L (identity_of L u) issued)
    with ("Bearer" ++ String " " (jwt_sign L (identity_of L u) issued)).
  rewrite (bearer_token_second_word "Bearer" _ eq_refl Hword Hne), Hver.
  cbn [handler_of].
  rewrite (get_profile_run L ctx _ (identity_of L u) st (user_id u) Hcast).
  now rewrite (find_by_id st u Hu Hin).
Qed.

Lemma token_opens_profile_witness :
  route Demo.libs Demo.ctx GET_profile
    (Demo.request (Some "Bearer token-99") "" Demo.no_query JNull)
    {| users := [Demo.alice; Demo.bob; Scenario.user99]; tasks := []; calls := [] |}
  = (respond 200 (profile_json (without_password Scenario.user99)),
     {| users := [Demo.alice; Demo.bob; Scenario.user99]; tasks := [];
        calls := [c_User_findById] |}).
Proof.
  apply (token_opens_profile Demo.libs Demo.ctx
           (Demo.request None "" Demo.no_query JNull)
           {| users := [Demo.alice; Demo.bob; Scenario.user99]; tasks := []; calls := [] |}
           Scenario.user99 5000).
  - simpl. auto.
  - unfold user_ids_unique. simpl.
    repeat (apply NoDup_cons; [simpl; intuition discriminate|]). apply NoDup_nil.
  - reflexivity.
  - reflexivity.
  - reflexivity.
  - reflexivity.
Defined.

(** ** What the handlers keep *)

(** Case analysis on whatever the goal still matches on. *)
Ltac branches :=
  repeat (cbn;
          match goal with
          | |- context [match ?x with _ => _ end] =>
              lazymatch x with
              | context [match _ with _ => _ end] => fail
              | _ => destruct x eqn:?
              end
          end);
  cbn.

(** The handlers behind [authenticateToken] do not write to the user
    collection. *)
Lemma handler_keeps_users (L : Libs) (ctx : Context) (r : Protected) (req : Request)
  (user : Identity) (st : Store) :
  users (snd (handler_of r L ctx req user st)) = users st.
Proof.
  destruct r; cbn [handler_of];
    unfold get_profile, get_tasks, post_task, put_task, delete_task, try_catch,
      User_findById, Task_find, Task_countDocuments, Task_save_new,
      Task_findOneAndUpdate, Task_findOneAndDelete; db; branches; reflexivity.
Qed.

Lemma route_keeps_users (L : Libs) (ctx : Context) (r : Protected) (req : Request)
  (st : Store) :
  users (snd (route L ctx r req st)) = users st.
Proof.
  unfold route, authenticateToken.
  destruct (bearer_token (authorization req)) as [token|]; [|reflexivity].
  destruct (jwt_verify L token (now ctx)) as [user|]; [|reflexivity].
  apply handler_keeps_users.
Qed.

Lemma not_duplicate_username (u : User) (us : list User) :
  duplicate_key u us = false -> ~ In (username u) (map username us).
Proof.
  unfold duplicate_key. intros Hd Hin.
  apply in_map_iff in Hin. destruct Hin as (x & He & Hx).
  assert (Hf : existsb (fun x => (String.eqb (username x) (username u)
                                  || String.eqb (email x) (email u))%bool) us = true).
  { apply existsb_exists. exists x. split; [exact Hx|].
    now rewrite He, String.eqb_refl. }
  congruence.
Qed.

Lemma register_keeps_usernames (L : Libs) (ctx : Context) (req : Request) (st : Store) :
  usernames_unique st -> usernames_unique (snd (register L ctx req st)).
Proof.
  intros Hu. unfold register, try_catch.
  destruct (registerSchema L (req_body req)) as [value|d]; [|exact Hu].
  unfold User_findOne_email_or_username; db. cbn [users].
  destruct (find _ (users st)); [exact Hu|].
  unfold User_save_new; db. cbn.
  destruct (userSchema_valid _); cbn; [|exact Hu].
  match goal with
  | |- context [existsb ?f (users st)] =>
      change (existsb f (users st))
        with (duplicate_key (new_User (fresh_id ctx) (now ctx) value) (users st))
  end.
  destruct (duplicate_key _ (users st)) eqn:Hd; cbn; [exact Hu|].
  apply not_duplicate_username in Hd. cbn in Hd.
  unfold usernames_unique in *. cbn. rewrite map_app. cbn.
  apply NoDup_app; [exact Hu|repeat constructor; intros []|].
  intros e He [<-|[]]. exact (Hd He).
Qed.

Lemma login_keeps_usernames (L : Libs) (ctx : Context) (req : Request) (st : Store) :
  usernames_unique st -> usernames_unique (snd (login L ctx req st)).
Proof.
  intros Hu. unfold login, try_catch.
  destruct (loginSchema L (req_body req)) as [value|d]; [|exact Hu].
  unfold User_findOne_active; db. cbn [users].
  destruct (find _ (users st)) as [u|]; [|exact Hu].
  destruct (bcrypt_compare L _ _); cbn; [|exact Hu].
  unfold User_save_lastLogin; db. cbn.
  destruct (userSchema_valid _); cbn; [|exact Hu].
  unfold usernames_unique in *. cbn.
  now rewrite (update_first_map_same _ _ username).
Qed.

(** X5. Whatever the request, every route of the API leaves the user
    collection as the schema's indexes and setters want it: if e-mails and
    usernames were unique and e-mails trimmed and in lower case before the
    request, they are so after it. *)
Theorem users_stay_wellformed (L : Libs) (ctx : Context) (e : Endpoint) (req : Request)
  (st : Store) :
  users_wellformed st -> users_wellformed (snd (serve L ctx e req st)).
Proof.
  intros (He & Hu & Hs). unfold users_wellformed. destruct e as [| |r]; cbn [serve].
  - destruct (register_keeps_emails L ctx req st (conj He Hs)) as [He' Hs'].
    pose proof (register_keeps_usernames L ctx req st Hu). auto.
  - destruct (login_keeps_emails L ctx req st (conj He Hs)) as [He' Hs'].
    pose proof (login_keeps_usernames L ctx req st Hu). auto.
  - unfold emails_unique, usernames_unique, emails_as_set in *.
    rewrite (route_keeps_users L ctx r req st). auto.
Qed.

Lemma demo_users_wellformed : users_wellformed Demo.store.
Proof.
  unfold users_wellformed, emails_unique, usernames_unique, emails_as_set. simpl.
  repeat split;
    try (repeat (apply NoDup_cons; [simpl; intuition discriminate|]); apply NoDup_nil).
  repeat constructor.
Qed.

Lemma users_stay_wellformed_witness :
  users_wellformed
    (snd (serve Demo.libs Demo.ctx POST_register
            (Scenario.signup "user99" "User99@Example.com" "secret99") Demo.store)).
Proof.
  exact (users_stay_wellformed Demo.libs Demo.ctx POST_register
           (Scenario.signup "user99" "User99@Example.com" "secret99") Demo.store
           demo_users_wellformed).
Defined.

(** ** Creating a task *)

(** An answer of a protected route other than the two of the gate was
    given by the route's handler. *)
Lemma route_entered (L : Libs) (ctx : Context) (r : Protected) (req : Request)
  (st st' : Store) (resp : Response) :
  route L ctx r req st = (resp, st') ->
  res_status resp <> 401 -> res_status resp <> 403 ->
  exists token user,
    bearer_token (authorization req) = Some token
    /\ jwt_verify L token (now ctx) = Some user
    /\ handler_of r L ctx req user st = (resp, st').
Proof.
  unfold route, authenticateToken.
  destruct (bearer_token (authorization req)) as [token|].
  - destruct (jwt_verify L token (now ctx)) as [user|] eqn:Hv.
    + intros H _ _. exists token, user. auto.
    + intros [= <- <-] _ H. now elim H.
  - intros [= <- <-] H. now elim H.
Qed.

Lemma lookup_In (k : string) (o : list (string * json)) (v : json) :
  lookup k o = Some v -> In (k, v) o.
Proof.
  induction o as [|[k' v'] o IH]; cbn; [discriminate|].
  destruct (String.eqb_spec k k') as [->|_].
  - intros [= ->]. now left.
  - intros H. right. now apply IH.
Qed.

(** A body with a key the task schema does not name is refused. *)
Lemma taskSchema_unknown_key (L : Libs) (o : list (string * json)) (k : string) (v : json) :
  lookup k o = Some v ->
  Joi.mem k ["title"; "description"; "status"; "priority"; "dueDate"; "tags"] = false ->
  exists d, taskSchema_validation L (JObject o) = Invalid d.
Proof.
  intros Hk Hun. unfold taskSchema_validation. cbn [Joi.object and_then].
  destruct (required "title" _ o); cbn [and_then]; [|eauto].
  destruct (optional "description" _ o); cbn [and_then]; [|eauto].
  destruct (optional "status" _ o); cbn [and_then]; [|eauto].
  destruct (optional "priority" _ o); cbn [and_then]; [|eauto].
  destruct (optional "dueDate" _ o); cbn [and_then]; [|eauto].
  destruct (optional_array "tags" _ o); cbn [and_then]; [|eauto].
  unfold no_unknown.
  destruct (find_some_any
              (fun e => negb (Joi.mem (fst e)
                                ["title"; "description"; "status"; "priority";
                                 "dueDate"; "tags"]))
              o (k, v) (lookup_In k o v Hk)) as [y Hy].
  { cbn [fst]. now rewrite Hun. }
  rewrite Hy. cbn [and_then]. eauto.
Qed.

(** What [POST /api/tasks] does with a validated payload. *)
Lemma post_task_run (L : Libs) (ctx : Context) (req : Request) (user : Identity)
  (st : Store) (value : TaskValue) (who : N) :
  taskSchema_validation L (req_body req) = Valid value ->
  cast_ObjectId L (jwt_userId user) = Some who ->
  post_task L ctx req user st
  = if taskSchema_valid (new_Task (fresh_id ctx) (now ctx) (now_updatedAt ctx) who value)
    then (respond 201 (task_json (created ctx who value)),
          {| users := users st;
             tasks := tasks st ++ [created ctx who value];
             calls := c_Task_save :: calls st |})
    else (respond 500 (error "Internal server error"), after_calls [c_Task_save] st).
Proof.
  intros Hv Hw. unfold post_task, try_catch. rewrite Hv.
  unfold Task_save_new; db. rewrite Hw. cbn.
  destruct (taskSchema_valid _); reflexivity.
Qed.

Lemma post_task_201 (L : Libs) (ctx : Context) (req : Request) (user : Identity)
  (st st' : Store) (b : Body) :
  post_task L ctx req user st = (respond 201 b, st') ->
  exists value who,
    taskSchema_validation L (req_body req) = Valid value
    /\ cast_ObjectId L (jwt_userId user) = Some who
    /\ b = task_json (created ctx who value)
    /\ st' = {| users := users st;
                tasks := tasks st ++ [created ctx who value];
                calls := c_Task_save :: calls st |}.
Proof.
  destruct (taskSchema_validation L (req_body req)) as [value|d] eqn:Hv.
  - destruct (cast_ObjectId L (jwt_userId user)) as [who|] eqn:Hw.
    + rewrite (post_task_run L ctx req user st value who Hv Hw).
      destruct (taskSchema_valid _); [|discriminate].
      intros [= <- <-]. exists value, who. auto.
    + unfold post_task, try_catch. rewrite Hv. unfold Task_save_new; db. rewrite Hw.
      discriminate.
  - unfold post_task, try_catch. rewrite Hv. discriminate.
Qed.

(** ** Task update: the frame and the clock *)

(** C9, as amended. After a successful Update Task (a 200 from
    [PUT /api/tasks/:id]) the store differs from the one before in one
    task only, the caller's task with the id of the path; that task keeps
    its id, its owner and its [createdAt], every path the validated payload
    does not have keeps its value, and [updatedAt] is the clock as the
    update read it. The user collection is not changed. [updatedAt] is
    later than [createdAt] exactly when that reading of the clock is later
    than the [createdAt] of the task; it is so when the task is the
    document a creation answered at an earlier reading of the clock. *)
Theorem update_frame (L : Libs) (ctx : Context) (req : Request)
  (st st' : Store) (t' : Task) :
  route L ctx PUT_tasks_id req st = (respond 200 (task_json t'), st') ->
  exists value t before after,
    taskSchema_validation L (req_body req) = Valid value
    /\ tasks st = (before ++ t :: after)%list
    /\ tasks st' = (before ++ t' :: after)%list
    /\ users st' = users st
    /\ cast_ObjectId L (params_id req) = Some (task_id t)
    /\ (exists user, authenticated_as L ctx req user (userId t))
    /\ task_id t' = task_id t
    /\ userId t' = userId t
    /\ createdAt t' = createdAt t
    /\ updatedAt t' = now ctx
    /\ (createdAt t' < updatedAt t' <-> createdAt t < now ctx)
    /\ (forall ctx0 post st0 st1,
          route L ctx0 POST_tasks post st0 = (respond 201 (task_json t), st1) ->
          now ctx0 < now ctx -> createdAt t' < updatedAt t')
    /\ (v_description value = None -> description t' = description t)
    /\ (v_status value = None -> status t' = status t)
    /\ (v_priority value = None -> priority t' = priority t)
    /\ (v_dueDate value = None -> dueDate t' = dueDate t)
    /\ (v_tags value = None -> tags t' = tags t).
Proof.
  intros H.
  destruct (route_200 L ctx PUT_tasks_id req st st' _ H) as (token & user & Htok & Hver & Hput).
  cbn [handler_of] in Hput.
  destruct (put_task_200 L ctx req user st st' _ Hput)
    as (value & i & who & t & Hv & Hi & Hw & Hf & Hb & Hu & Ht).
  injection Hb as ->.
  destruct (find_split _ (set_paths value (now ctx)) _ _ Hf)
    as (before & after & Hl & Hup & _).
  destruct (find_some _ _ Hf) as [_ Hm]. unfold owned_with_id in Hm.
  apply andb_true_iff in Hm. destruct Hm as [Hmi Hmo].
  apply N.eqb_eq in Hmi, Hmo. subst i who.
  exists value, t, before, after.
  rewrite Ht, Hup. cbn.
  repeat split; auto; try (intros ->; reflexivity).
  - exists user, token. auto.
  - intros ctx0 post st0 st1 Hpost Hlater.
    destruct (route_entered L ctx0 POST_tasks post st0 st1 _ Hpost)
      as (token0 & user0 & _ & _ & Hp); [discriminate|discriminate|].
    cbn [handler_of] in Hp.
    destruct (post_task_201 L ctx0 post user0 st0 st1 _ Hp)
      as (value0 & who0 & _ & _ & Hb & _).
    injection Hb as ->. exact Hlater.
Qed.

(** Alice retitles her task 101 at time 5000. She creates a task at time
    5000 and retitles it at time 6000: its [updatedAt] is then later than
    its [createdAt]. *)
Lemma update_frame_witness :
  (exists value t before after,
     taskSchema_validation Demo.libs (JObject [("title", JString "renamed")]) = Valid value
     /\ tasks Demo.store = (before ++ t :: after)%list
     /\ createdAt t = 1001 /\ userId t = 1%N
     /\ title (set_paths value 5000 t) = "renamed"
     /\ (createdAt (set_paths value 5000 t) < updatedAt (set_paths value 5000 t)
         <-> createdAt t < 5000))
  /\ (exists t',
        fst (route Demo.libs Scenario.later PUT_tasks_id
               (Demo.request (Some "Bearer token-1") "99" Demo.no_query
                  (JObject [("title", JString "tree")]))
               (snd (route Demo.libs Demo.ctx POST_tasks
                       (Demo.request (Some "Bearer token-1") "" Demo.no_query
                          (JObject [("title", JString "plant")]))
                       Demo.store)))
        = respond 200 (task_json t')
        /\ createdAt t' < updatedAt t').
Proof.
  split.
  - destruct (update_frame Demo.libs Demo.ctx
                (Demo.request (Some "Bearer token-1") "101" Demo.no_query
                   (JObject [("title", JString "renamed")]))
                Demo.store _ _ eq_refl)
      as (value & t & before & after & Hv & Hl & _ & _ & Hi & _ & _ & _ & Hc & _ & Hlt & _).
    exists value, t, before, after.
    cbn in Hv. injection Hv as <-.
    assert (Ht : t = Demo.task 101 1 1001).
    { apply (NoDup_map_eq task_id (tasks Demo.store)).
      - exact demo_task_ids_unique.
      - rewrite Hl. apply in_elt.
      - left. reflexivity.
      - cbn in Hi. injection Hi as <-. reflexivity. }
    subst t. split; [reflexivity|]. split; [exact Hl|].
    split; [reflexivity|]. split; [reflexivity|]. split; [reflexivity|].
    exact Hlt.
  - eexists. split; [reflexivity|].
    destruct (update_frame Demo.libs Scenario.later
                (Demo.request (Some "Bearer token-1") "99" Demo.no_query
                   (JObject [("title", JString "tree")]))
                (snd (route Demo.libs Demo.ctx POST_tasks
                        (Demo.request (Some "Bearer token-1") "" Demo.no_query
                           (JObject [("title", JString "plant")]))
                        Demo.store))
                _ _ eq_refl)
      as (value & t & before & after & _ & Hl & _ & _ & Hi & _ & _ & _ & _ & _ & _
          & Hcreated & _).
    assert (Ht : t = created Demo.ctx 1
                       {| v_title := "plant"; v_description := None; v_status := None;
                          v_priority := None; v_dueDate := None; v_tags := None |}).
    { apply (NoDup_map_eq task_id
               (tasks (snd (route Demo.libs Demo.ctx POST_tasks
                              (Demo.request (Some "Bearer token-1") "" Demo.no_query
                                 (JObject [("title", JString "plant")]))
                              Demo.store)))).
      - simpl.
        repeat (apply NoDup_cons; [simpl; intuition discriminate|]). apply NoDup_nil.
      - rewrite Hl. apply in_elt.
      - simpl. tauto.
      - cbn in Hi. injection Hi as <-. reflexivity. }
    subst t.
    exact (Hcreated Demo.ctx
             (Demo.request (Some "Bearer token-1") "" Demo.no_query
                (JObject [("title", JString "plant")]))
             Demo.store _ eq_refl eq_refl).
Defined.

(** C9, as stated, fails: nothing in the update compares the two dates. A
    task is created while the clock reads 5000 and updated before the clock
    has moved on: the update is answered 200 and the task it returns has
    [updatedAt = createdAt], not a later date. *)
Lemma update_at_creation_instant :
  exists t',
    fst (route Demo.libs Scenario.instant PUT_tasks_id
           (Demo.request (Some "Bearer token-1") "99" Demo.no_query
              (JObject [("title", JString "tree")]))
           (snd (route Demo.libs Scenario.instant POST_tasks
                   (Demo.request (Some "Bearer token-1") "" Demo.no_query
                      (JObject [("title", JString "plant")]))
                   Demo.store)))
    = respond 200 (task_json t')
    /\ task_id t' = 99%N
    /\ createdAt t' = 5000 /\ updatedAt t' = 5000
    /\ ~ createdAt t' < updatedAt t'.
Proof.
  eexists. split; [reflexivity|]. cbn. repeat split. lia.
Qed.

(** X6. The owner of a created task is the caller, never the client's
    choice: a body that names a [userId] is refused with 400 and nothing is
    stored, and whenever [POST /api/tasks] answers 201 the task it returns
    belongs to the user of the token, has the id the driver generated, and
    is the one document added to the collection. Its [createdAt] is the
    clock as the [Date.now] default read it and its [updatedAt] the clock
    as the [pre('save')] hook read it afterwards: neither comes from the
    payload. *)
Theorem create_task_forces_owner (L : Libs) (ctx : Context) (req : Request) (st : Store) :
  (forall user who o v,
     authenticated_as L ctx req user who ->
     req_body req = JObject o ->
     lookup "userId" o = Some v ->
     exists d, route L ctx POST_tasks req st = (respond 400 (validation_error d), st))
  /\ (forall t st',
        route L ctx POST_tasks req st = (respond 201 (task_json t), st') ->
        exists user,
          authenticated_as L ctx req user (userId t)
          /\ task_id t = fresh_id ctx
          /\ createdAt t = now ctx /\ updatedAt t = now_pre_save ctx
          /\ tasks st' = (tasks st ++ [t])%list
          /\ users st' = users st).
Proof.
  split.
  - intros user who o v Hauth Hb Hk.
    rewrite (route_authenticated L ctx POST_tasks req user who Hauth). cbn [handler_of].
    destruct (taskSchema_unknown_key L o "userId" v Hk eq_refl) as [d Hd].
    exists d. unfold post_task, try_catch. now rewrite Hb, Hd.
  - intros t st' H.
    destruct (route_entered L ctx POST_tasks req st st' _ H) as (token & user & Ht & Hv & Hp);
      [discriminate|discriminate|].
    cbn [handler_of] in Hp.
    destruct (post_task_201 L ctx req user st st' _ Hp) as (value & who & _ & Hw & Hb & ->).
    injection Hb as ->. exists user. cbn.
    repeat split. exists token. auto.
Qed.

Lemma create_task_forces_owner_witness :
  let req b := Demo.request (Some "Bearer token-2") "" Demo.no_query b in
  (exists d,
     route Demo.libs Demo.ctx POST_tasks
       (req (JObject [("title", JString "plant"); ("userId", JString "1")])) Demo.store
     = (respond 400 (validation_error d), Demo.store))
  /\ (exists user,
        authenticated_as Demo.libs Demo.ctx
          (req (JObject [("title", JString "plant")])) user 2%N).
Proof.
  cbv zeta. split.
  - apply (proj1 (create_task_forces_owner Demo.libs Demo.ctx
                    (Demo.request (Some "Bearer token-2") "" Demo.no_query
                       (JObject [("title", JString "plant"); ("userId", JString "1")]))
                    Demo.store)
             {| jwt_userId := "2"; jwt_username := "user2"; jwt_role := role_user |} 2%N
             [("title", JString "plant"); ("userId", JString "1")] (JString "1")).
    + exists "token-2". repeat split.
    + reflexivity.
    + reflexivity.
  - destruct (proj2 (create_task_forces_owner Demo.libs Demo.ctx
                       (Demo.request (Some "Bearer token-2") "" Demo.no_query
                          (JObject [("title", JString "plant")]))
                       Demo.store) _ _ eq_refl) as (user & Hauth & _).
    exists user. exact Hauth.
Defined.

(** ** Listing with filters *)

Lemma matches_inv (who : N) (f : Filter) (t : Task) :
  matches who f t = true ->
  userId t = who
  /\ (forall s, f_status f = Some s -> status_name (status t) = s)
  /\ (forall p, f_priority f = Some p -> priority_name (priority t) = p).
Proof.
  unfold matches. intros H.
  apply andb_true_iff in H. destruct H as [H Hp].
  apply andb_true_iff in H. destruct H as [Ho Hs].
  split; [now apply N.eqb_eq|]. split.
  - intros s E. rewrite E in Hs. now apply String.eqb_eq.
  - intros p E. rewrite E in Hp. now apply String.eqb_eq.
Qed.

(** X7. Whenever List Tasks answers 200, every task it returns is a task
    of the store that belongs to the caller and has the status and the
    priority the query asks for (an empty parameter asks for nothing);
    [total] is the number of the caller's tasks that do, whatever the page;
    a status that is none of the three names gives an empty page and total
    0, not an error; and neither collection is changed. *)
Theorem listing_respects_filters (L : Libs) (ctx : Context) (req : Request)
  (user : Identity) (who : N) (st st' : Store)
  (ts : list Task) (tp : jsnum) (cp : Z) (total : nat) :
  authenticated_as L ctx req user who ->
  route L ctx GET_tasks req st = (respond 200 (tasks_page ts tp cp total), st') ->
  (forall t, In t ts ->
     In t (tasks st) /\ userId t = who
     /\ (forall s, truthy (q_status (query req)) = Some s -> status_name (status t) = s)
     /\ (forall p, truthy (q_priority (query req)) = Some p ->
                   priority_name (priority t) = p))
  /\ total = List.length (matching req user who st)
  /\ (forall s, truthy (q_status (query req)) = Some s ->
                (forall x, status_name x <> s) -> ts = [] /\ total = 0%nat)
  /\ tasks st' = tasks st /\ users st' = users st.
Proof.
  intros Hauth H.
  rewrite (route_authenticated L ctx GET_tasks req user who Hauth) in H.
  cbn [handler_of] in H.
  destruct Hauth as (token & _ & _ & Hw).
  rewrite (get_tasks_run L ctx req user st who Hw) in H. cbv zeta in H.
  destruct ((or_default 1 (page (query req)) - 1) * or_default 10 (limit (query req)) <? 0);
    [discriminate|].
  injection H as <- _ _ <- <-.
  assert (Hin : forall t, In t (matching req user who st) ->
                          In t (tasks st) /\ matches who (filter_of req user) t = true)
    by (intros t Ht; now apply filter_In in Ht).
  split; [|split; [reflexivity|split; [|split; reflexivity]]].
  - intros t Ht. apply In_window, In_sort in Ht.
    destruct (Hin t Ht) as [Hs Hm].
    destruct (matches_inv _ _ _ Hm) as (Ho & Hst & Hpr). auto.
  - intros s Hs Hno.
    assert (Hnil : matching req user who st = []).
    { destruct (matching req user who st) as [|t l] eqn:E; [reflexivity|].
      destruct (Hin t) as [_ Hm]; [now left|].
      destruct (matches_inv _ _ _ Hm) as (_ & Hst & _).
      now elim (Hno (status t) (Hst s Hs)). }
    rewrite Hnil. cbn. unfold window. cbn.
    destruct (or_default 10 (limit (query req)) * 1 =? 0);
      [now rewrite skipn_nil|].
    now rewrite skipn_nil, firstn_nil.
Qed.

Lemma listing_respects_filters_witness :
  Forall (fun t => userId t = 1%N /\ status_name (status t) = "pending")
    (tasks_shown
       (fst (route Demo.libs Demo.ctx GET_tasks
               (Demo.request (Some "Bearer token-1") ""
                  {| page := None; limit := None;
                     q_status := Some "pending"; q_priority := Some "" |} JNull)
               Demo.store))).
Proof.
  destruct (listing_respects_filters Demo.libs Demo.ctx
              (Demo.request (Some "Bearer token-1") ""
                 {| page := None; limit := None;
                    q_status := Some "pending"; q_priority := Some "" |} JNull)
              {| jwt_userId := "1"; jwt_username := "user1"; jwt_role := role_user |}
              1 Demo.store _ _ _ _ _
              (ex_intro _ "token-1" (conj eq_refl (conj eq_refl eq_refl))) eq_refl)
    as (Hall & _).
  apply Forall_forall. intros t Ht.
  destruct (Hall t Ht) as (_ & Ho & Hs & _). split; [exact Ho|]. now apply Hs.
Defined.

(** ** Deleting a task *)

Lemma delete_task_200 (L : Libs) (ctx : Context) (req : Request) (user : Identity)
  (st st' : Store) (b : Body) :
  delete_task L ctx req user st = (respond 200 b, st') ->
  exists i who t,
    cast_ObjectId L (params_id req) = Some i
    /\ cast_ObjectId L (jwt_userId user) = Some who
    /\ find (owned_with_id i who) (tasks st) = Some t
    /\ b = message "Task deleted successfully"
    /\ users st' = users st
    /\ tasks st' = remove_first (owned_with_id i who) (tasks st).
Proof.
  unfold delete_task, try_catch, Task_findOneAndDelete; db.
  destruct (cast_ObjectId L (params_id req)) as [i|]; [|discriminate].
  destruct (cast_ObjectId L (jwt_userId user)) as [who|]; [|discriminate].
  cbn. destruct (find (owned_with_id i who) (tasks st)) as [t|] eqn:Hf; cbn; [|discriminate].
  intros [= <- <-]. exists i, who, t. cbn. auto 10.
Qed.

(** X8. Whenever Delete Task answers 200, exactly one document left the
    task collection: the caller's task with the id of the path; the other
    tasks keep their places and the users are not touched. With unique
    ids, the same request made again finds nothing and is answered 404. *)
Theorem delete_removes_one (L : Libs) (ctx : Context) (req : Request)
  (st st' : Store) (b : Body) :
  route L ctx DELETE_tasks_id req st = (respond 200 b, st') ->
  exists t before after,
    tasks st = (before ++ t :: after)%list
    /\ tasks st' = (before ++ after)%list
    /\ users st' = users st
    /\ cast_ObjectId L (params_id req) = Some (task_id t)
    /\ (exists user, authenticated_as L ctx req user (userId t))
    /\ b = message "Task deleted successfully"
    /\ (task_ids_unique st ->
        route L ctx DELETE_tasks_id req st'
        = (respond 404 (error "Task not found"),
           after_calls [c_Task_findOneAndDelete] st')).
Proof.
  intros H.
  destruct (route_entered L ctx DELETE_tasks_id req st st' _ H)
    as (token & user & Htok & Hver & Hd); [discriminate|discriminate|].
  cbn [handler_of] in Hd.
  destruct (delete_task_200 L ctx req user st st' _ Hd)
    as (i & who & t & Hi & Hw & Hf & Hb & Hu & Ht).
  destruct (find_split _ (fun x => x) _ _ Hf) as (before & after & Hl & _ & Hrm).
  destruct (find_some _ _ Hf) as [_ Hm]. unfold owned_with_id in Hm.
  apply andb_true_iff in Hm. destruct Hm as [Hmi Hmo].
  apply N.eqb_eq in Hmi, Hmo. subst i who.
  exists t, before, after. rewrite Ht, Hrm.
  repeat split; auto.
  - exists user, token. auto.
  - intros Huniq.
    assert (Hauth : authenticated_as L ctx req user (userId t))
      by (exists token; auto).
    rewrite (route_authenticated L ctx DELETE_tasks_id req user _ Hauth).
    cbn [handler_of].
    apply (delete_task_no_match L ctx req user st' (task_id t) (userId t) Hi Hw).
    apply no_such_id_no_match. rewrite Ht, Hrm. intros x Hx E.
    unfold task_ids_unique in Huniq. rewrite Hl, map_app in Huniq. cbn in Huniq.
    apply NoDup_remove_2 in Huniq. apply Huniq.
    rewrite <- map_app, <- E. now apply in_map.
Qed.

Lemma delete_removes_one_witness :
  exists st',
    route Demo.libs Demo.ctx DELETE_tasks_id
      (Demo.request (Some "Bearer token-1") "105" Demo.no_query JNull) Demo.store
    = (respond 200 (message "Task deleted successfully"), st')
    /\ route Demo.libs Demo.ctx DELETE_tasks_id
         (Demo.request (Some "Bearer token-1") "105" Demo.no_query JNull) st'
       = (respond 404 (error "Task not found"),
          after_calls [c_Task_findOneAndDelete] st').
Proof.
  eexists. split; [reflexivity|].
  destruct (delete_removes_one Demo.libs Demo.ctx
              (Demo.request (Some "Bearer token-1") "105" Demo.no_query JNull)
              Demo.store _ _ eq_refl)
    as (t & before & after & _ & _ & _ & _ & _ & _ & Hagain).
  exact (Hagain demo_task_ids_unique).
Defined.

(** ** A successful login *)

Lemma login_200 (L : Libs) (ctx : Context) (req : Request) (st st' : Store) (b : Body) :
  login L ctx req st = (respond 200 b, st') ->
  exists value u,
    loginSchema L (req_body req) = Valid value
    /\ find (fun u => (String.eqb (email u) (set_email (login_email value))
                       && isActive u)%bool) (users st) = Some u
    /\ bcrypt_compare L (login_password value) (password u) = true
    /\ b = session "Login successful"
             (jwt_sign L (identity_of L u) (now ctx))
             (public u (Some (now ctx)))
    /\ tasks st' = tasks st
    /\ users st'
       = update_first (fun x => N.eqb (user_id x) (user_id u))
           (with_lastLogin (now ctx)) (users st).
Proof.
  unfold login, try_catch.
  destruct (loginSchema L (req_body req)) as [value|d]; [|discriminate].
  unfold User_findOne_active; db. cbn [users].
  destruct (find _ (users st)) as [u|] eqn:Hf; [|discriminate].
  destruct (bcrypt_compare L (login_password value) (password u)) eqn:Hc;
    [|discriminate].
  unfold User_save_lastLogin; db. cbn.
  destruct (userSchema_valid (with_lastLogin (now ctx) u)); [|discriminate].
  cbn. intros [= <- <-]. exists value, u. cbn. auto 10.
Qed.

(** X9. Whenever login answers 200, the one change to the store is the
    [lastLogin] of the user who logged in, set to the time of the request:
    the stored password hash is the one that was there (it is not hashed
    again), every other field and every other user is as before, and no
    task is touched. That user is active, has the e-mail of the request in
    lower case, and bcrypt accepted the password against the stored
    hash. *)
Theorem login_changes_lastLogin_only (L : Libs) (ctx : Context) (req : Request)
  (st st' : Store) (b : Body) :
  user_ids_unique st ->
  login L ctx req st = (respond 200 b, st') ->
  exists value u u' before after,
    loginSchema L (req_body req) = Valid value
    /\ users st = (before ++ u :: after)%list
    /\ users st' = (before ++ u' :: after)%list
    /\ tasks st' = tasks st
    /\ lastLogin u' = Some (now ctx)
    /\ password u' = password u
    /\ (user_id u', username u', email u', role u', isActive u', user_createdAt u')
       = (user_id u, username u, email u, role u, isActive u, user_createdAt u)
    /\ email u = set_email (login_email value)
    /\ isActive u = true
    /\ bcrypt_compare L (login_password value) (password u) = true
    /\ token_issued (respond 200 b) = Some (jwt_sign L (identity_of L u) (now ctx)).
Proof.
  intros Hids H.
  destruct (login_200 L ctx req st st' b H) as (value & u & Hv & Hf & Hc & -> & Ht & Hu).
  destruct (find_some _ _ Hf) as [Hin Hp].
  apply andb_true_iff in Hp. destruct Hp as [He Ha]. apply String.eqb_eq in He.
  destruct (find_split _ (with_lastLogin (now ctx)) _ _ (find_by_id st u Hids Hin))
    as (before & after & Hl & Hup & _).
  exists value, u, (with_lastLogin (now ctx) u), before, after.
  rewrite Hu, Hup. cbn. auto 12.
Qed.

Lemma demo_user_ids_unique : user_ids_unique Demo.store.
Proof.
  unfold user_ids_unique. simpl.
  repeat (apply NoDup_cons; [simpl; intuition discriminate|]). apply NoDup_nil.
Qed.

Lemma login_changes_lastLogin_only_witness :
  exists st',
    login Demo.libs Demo.ctx (Demo.credentials "Alice@Example.com" "wonderland") Demo.store
    = (respond 200
         (session "Login successful" "token-1" (public Demo.alice (Some 5000))), st')
    /\ exists u' after,
         users st' = (u' :: after)%list /\ after = [Demo.bob]
         /\ password u' = "$wonderland" /\ lastLogin u' = Some 5000.
Proof.
  eexists. split; [reflexivity|].
  destruct (login_changes_lastLogin_only Demo.libs Demo.ctx
              (Demo.credentials "Alice@Example.com" "wonderland") Demo.store _ _
              demo_user_ids_unique eq_refl)
    as (value & u & u' & before & after & _ & _ & _ & _ & _).
  exists (with_lastLogin 5000 Demo.alice), [Demo.bob]. repeat split.
Defined.

(** ** The two layers of validation *)

Lemma len_trimStart (s : string) : (len (trimStart s) <= len s)%nat.
Proof.
  unfold len. induction s as [|c r IH]; cbn; [lia|].
  destruct (is_space c); cbn; lia.
Qed.

Lemma len_trimEnd (s : string) : (len (trimEnd s) <= len s)%nat.
Proof.
  unfold len. induction s as [|c r IH]; cbn; [lia|].
  destruct (trimEnd r); [destruct (is_space c)|]; cbn in *; lia.
Qed.

Lemma len_trim (s : string) : (len (trim s) <= len s)%nat.
Proof.
  unfold trim. pose proof (len_trimEnd (trimStart s)). pose proof (len_trimStart s). lia.
Qed.

Lemma optional_inv {A : Type} (k : string) (schema : json -> error_type + A)
  (o : list (string * json)) (a : A) :
  optional k schema o = Valid (Some a) ->
  exists v, lookup k o = Some v /\ schema v = inr a.
Proof.
  unfold optional. destruct (lookup k o) as [v|]; [|discriminate].
  destruct (schema v) as [c|a'] eqn:Hs; [discriminate|].
  intros [= ->]. eauto.
Qed.

Lemma string_max (L : Libs) (n : nat) (v : json) (s : string) :
  (string_ L [] [max n] v = inr s \/ string_ L [""] [max n] v = inr s) ->
  (len s <= n)%nat.
Proof.
  intros [H|H]; apply string_inv in H; destruct H as [_ [H|[_ H]]].
  - discriminate.
  - cbn in H. destruct (Nat.leb (len s) n) eqn:E; [now apply Nat.leb_le|discriminate].
  - cbn in H. rewrite orb_false_r in H. apply String.eqb_eq in H. subst s.
    unfold len. cbn. lia.
  - cbn in H. destruct (Nat.leb (len s) n) eqn:E; [now apply Nat.leb_le|discriminate].
Qed.

Lemma items_inv {A : Type} (k : string) (schema : json -> error_type + A)
  (i : nat) (l : list json) (r : list A) :
  items k schema i l = Valid r -> Forall (fun a => exists v, schema v = inr a) r.
Proof.
  revert i r. induction l as [|v l IH]; cbn; intros i r.
  - intros [= <-]. constructor.
  - destruct (schema v) as [c|a] eqn:Hs; [discriminate|].
    destruct (items k schema (S i) l) as [r'|] eqn:Hr; cbn; [|discriminate].
    intros [= <-]. constructor; [eauto|]. exact (IH _ _ Hr).
Qed.

(** What a value that passed [taskSchema_validation] tells about its
    strings. *)
Lemma taskSchema_lengths (L : Libs) (body : json) (value : TaskValue) :
  taskSchema_validation L body = Valid value ->
  (len (v_title value) <= 100)%nat
  /\ (forall d, v_description value = Some d -> (len d <= 500)%nat)
  /\ (forall l, v_tags value = Some l -> Forall (fun g => (len g <= 20)%nat) l).
Proof.
  unfold taskSchema_validation, Joi.object. destruct body; try discriminate.
  cbn [and_then].
  destruct (required "title" _ fields) as [t|] eqn:Ht; cbn [and_then]; [|discriminate].
  destruct (optional "description" _ fields) as [d|] eqn:Hd; cbn [and_then]; [|discriminate].
  destruct (optional "status" _ fields) as [s|]; cbn [and_then]; [|discriminate].
  destruct (optional "priority" _ fields) as [p|]; cbn [and_then]; [|discriminate].
  destruct (optional "dueDate" _ fields) as [due|]; cbn [and_then]; [|discriminate].
  destruct (optional_array "tags" _ fields) as [tg|] eqn:Hg; cbn [and_then]; [|discriminate].
  destruct (no_unknown _ fields); cbn [and_then]; [|discriminate].
  intros [= <-]. cbn. repeat split.
  - apply required_inv in Ht. destruct Ht as (v & _ & Ht).
    apply (string_max L 100 v). now left.
  - intros d' ->. apply optional_inv in Hd. destruct Hd as (v & _ & Hd).
    apply (string_max L 500 v). now right.
  - intros l ->. unfold optional_array in Hg.
    destruct (lookup "tags" fields) as [[]|]; try discriminate.
    destruct (items "tags" _ 0 items0) as [r|] eqn:Hr; cbn in Hg; [|discriminate].
    injection Hg as ->. apply items_inv in Hr.
    apply Forall_impl with (2 := Hr). intros g (v & Hv).
    apply (string_max L 20 v). now left.
Qed.

(** Of the validators of [taskSchema], only [required] on a title that is
    blank after [trim] can refuse what Joi accepted. *)
Lemma model_validators_after_joi (L : Libs) (body : json) (value : TaskValue) :
  taskSchema_validation L body = Valid value ->
  update_valid value = negb (is_empty (trim (v_title value)))
  /\ forall id t t' who,
       taskSchema_valid (new_Task id t t' who value)
       = negb (is_empty (trim (v_title value))).
Proof.
  intros Hv. destruct (taskSchema_lengths L body value Hv) as (Ht & Hd & Hg).
  assert (Ht' : Nat.leb (len (trim (v_title value))) 100 = true)
    by (apply Nat.leb_le; pose proof (len_trim (v_title value)); lia).
  assert (Hd' : match v_description value with
                | Some d => Nat.leb (len (trim d)) 500
                | None => true
                end = true).
  { destruct (v_description value) as [d|]; [|reflexivity].
    apply Nat.leb_le. pose proof (len_trim d). pose proof (Hd d eq_refl). lia. }
  assert (Hg' : forall l, v_tags value = Some l ->
                          forallb (fun g => Nat.leb (len (trim g)) 20) l = true).
  { intros l E. apply forallb_forall. intros g Hin.
    pose proof (Hg l E) as Hall. rewrite Forall_forall in Hall.
    apply Nat.leb_le. pose proof (len_trim g). pose proof (Hall g Hin). lia. }
  split.
  - unfold update_valid. rewrite Ht', Hd'.
    destruct (v_tags value) as [l|]; [rewrite (Hg' l eq_refl)|];
      now rewrite !andb_true_r.
  - intros id t t' who. unfold taskSchema_valid, new_Task.
    cbn [title description tags]. rewrite Ht'.
    assert (Hd'' : match option_map trim (v_description value) with
                   | Some d => Nat.leb (len d) 500
                   | None => true
                   end = true)
      by (destruct (v_description value); exact Hd').
    rewrite Hd''.
    assert (Hg'' : forallb (fun g => Nat.leb (len g) 20)
                     (map trim (or_default [] (v_tags value))) = true).
    { destruct (v_tags value) as [l|]; cbn [or_default map forallb]; [|reflexivity].
      rewrite forallb_forall. intros g Hin. apply in_map_iff in Hin.
      destruct Hin as (g0 & <- & Hin0).
      pose proof (Hg' l eq_refl) as Hall. rewrite forallb_forall in Hall.
      exact (Hall g0 Hin0). }
    rewrite Hg''. now rewrite !andb_true_r.
Qed.

(** X10. A payload that passes [taskSchema_validation] cannot fail the
    length validators of the model, so Create Task stores it and answers
    201 - unless its title consists of white space only: that title passes
    Joi, is emptied by [trim], fails [required], and Create and Update both
    answer 500 without writing. *)
Theorem blank_title_is_500 (L : Libs) (ctx : Context) (req : Request)
  (user : Identity) (who : N) (st : Store) (value : TaskValue) :
  authenticated_as L ctx req user who ->
  taskSchema_validation L (req_body req) = Valid value ->
  (is_empty (trim (v_title value)) = false ->
   route L ctx POST_tasks req st
   = (respond 201 (task_json (created ctx who value)),
      {| users := users st;
         tasks := tasks st ++ [created ctx who value];
         calls := c_Task_save :: calls st |}))
  /\ (is_empty (trim (v_title value)) = true ->
      route L ctx POST_tasks req st
      = (respond 500 (error "Internal server error"), after_calls [c_Task_save] st)
      /\ forall i,
           cast_ObjectId L (params_id req) = Some i ->
           route L ctx PUT_tasks_id req st
           = (respond 500 (error "Internal server error"),
              after_calls [c_Task_findOneAndUpdate] st)).
Proof.
  intros Hauth Hv.
  rewrite (route_authenticated L ctx POST_tasks req user who Hauth).
  rewrite (route_authenticated L ctx PUT_tasks_id req user who Hauth).
  cbn [handler_of].
  destruct Hauth as (token & _ & _ & Hw).
  destruct (model_validators_after_joi L _ value Hv) as [Hup Hnew].
  rewrite (post_task_run L ctx req user st value who Hv Hw), Hnew.
  split; intros Hb; rewrite Hb; cbn [negb]; [reflexivity|].
  split; [reflexivity|].
  intros i Hi. unfold put_task, try_catch. rewrite Hv.
  unfold Task_findOneAndUpdate; db. rewrite Hi, Hw. cbn.
  rewrite Hup, Hb. reflexivity.
Qed.

Lemma blank_title_is_500_witness :
  fst (route Demo.libs Demo.ctx POST_tasks
         (Demo.request (Some "Bearer token-1") "" Demo.no_query
            (JObject [("title", JString "   ")])) Demo.store)
  = respond 500 (error "Internal server error")
  /\ res_status
       (fst (route Demo.libs Demo.ctx POST_tasks
               (Demo.request (Some "Bearer token-1") "" Demo.no_query
                  (JObject [("title", JString " water the plants ")])) Demo.store))
     = 201.
Proof.
  split.
  - destruct (proj2 (blank_title_is_500 Demo.libs Demo.ctx
                       (Demo.request (Some "Bearer token-1") "" Demo.no_query
                          (JObject [("title", JString "   ")]))
                       {| jwt_userId := "1"; jwt_username := "user1"; jwt_role := role_user |}
                       1 Demo.store _
                       (ex_intro _ "token-1" (conj eq_refl (conj eq_refl eq_refl)))
                       eq_refl) eq_refl) as [H _].
    now rewrite H.
  - rewrite (proj1 (blank_title_is_500 Demo.libs Demo.ctx
                      (Demo.request (Some "Bearer token-1") "" Demo.no_query
                         (JObject [("title", JString " water the plants ")]))
                      {| jwt_userId := "1"; jwt_username := "user1"; jwt_role := role_user |}
                      1 Demo.store _
                      (ex_intro _ "token-1" (conj eq_refl (conj eq_refl eq_refl)))
                      eq_refl) eq_refl).
    reflexivity.
Defined.

(** ** Pages *)

Lemma firstn_plus {A : Type} (a b : nat) (s : list A) :
  firstn (a + b) s = (firstn a s ++ firstn b (skipn a s))%list.
Proof.
  revert s. induction a as [|a IH]; intros [|x s]; cbn; try reflexivity.
  - now rewrite firstn_nil.
  - now rewrite IH.
Qed.

Lemma authenticated_with_page (L : Libs) (ctx : Context) (req : Request)
  (user : Identity) (who : N) (p l : Z) :
  authenticated_as L ctx req user who ->
  authenticated_as L ctx (with_page req p l) user who.
Proof. intros (token & H). exists token. exact H. Qed.

(** Page [p] of a listing with page size [l], both at least 1. *)
Lemma page_shown (L : Libs) (ctx : Context) (req : Request) (user : Identity)
  (who : N) (st : Store) (p l : Z) :
  authenticated_as L ctx req user who -> 1 <= p -> 1 <= l ->
  route L ctx GET_tasks (with_page req p l) st
  = (respond 200
       (tasks_page
          (firstn (Z.to_nat l)
             (skipn (Z.to_nat ((p - 1) * l))
                (sort_createdAt_desc (matching req user who st))))
          (ceil_div (Z.of_nat (List.length (matching req user who st))) l) p
          (List.length (matching req user who st))),
     after_calls [c_Task_countDocuments; c_Task_find l ((p - 1) * l)] st).
Proof.
  intros Hauth Hp Hl.
  rewrite (route_authenticated L ctx GET_tasks _ user who
             (authenticated_with_page L ctx req user who p l Hauth)).
  cbn [handler_of]. destruct Hauth as (token & _ & _ & Hw).
  exact (get_tasks_in_range L ctx (with_page req p l) user st who Hw Hp Hl).
Qed.

(** X11. For a page size [l] of at least 1, the pages 1 to [k] of a
    listing, put end to end, are the first [k * l] of the caller's
    matching tasks in descending order of [createdAt]: no task is repeated
    or skipped between pages, for any number of tasks and any filter. A
    page lying wholly past the last task is answered 200 with no task. *)
Theorem pages_concatenate (L : Libs) (ctx : Context) (req : Request) (user : Identity)
  (who : N) (st : Store) (l : Z) :
  authenticated_as L ctx req user who ->
  1 <= l ->
  (forall k,
     pages_shown L ctx req st l k
     = firstn (k * Z.to_nat l) (sort_createdAt_desc (matching req user who st)))
  /\ (forall p,
        1 <= p ->
        Z.of_nat (List.length (matching req user who st)) <= (p - 1) * l ->
        exists tp total st',
          route L ctx GET_tasks (with_page req p l) st
          = (respond 200 (tasks_page [] tp p total), st')).
Proof.
  intros Hauth Hl. split.
  - induction k as [|k IH]; [reflexivity|].
    unfold pages_shown in *. rewrite seq_S, flat_map_app, IH. cbn [flat_map].
    rewrite app_nil_r.
    rewrite (page_shown L ctx req user who st (Z.of_nat (1 + k)) l Hauth) by lia.
    cbn [fst tasks_shown res_json respond].
    replace (Z.to_nat ((Z.of_nat (1 + k) - 1) * l)) with (k * Z.to_nat l)%nat
      by (rewrite Z2Nat.inj_mul by lia; f_equal; lia).
    replace (S k * Z.to_nat l)%nat with (k * Z.to_nat l + Z.to_nat l)%nat by lia.
    now rewrite firstn_plus.
  - intros p Hp Hpast.
    rewrite (page_shown L ctx req user who st p l Hauth Hp Hl).
    rewrite skipn_all2, firstn_nil; [eauto|].
    rewrite <- (Permutation_length (sort_perm (matching req user who st))). nia.
Qed.

Lemma pages_concatenate_witness :
  pages_shown Demo.libs Demo.ctx
    (Demo.request (Some "Bearer token-1") "" Demo.no_query JNull) Demo.store 5 2
  = firstn 10 (sort_createdAt_desc (owned 1 Demo.store))
  /\ exists tp total st',
       route Demo.libs Demo.ctx GET_tasks
         (with_page (Demo.request (Some "Bearer token-1") "" Demo.no_query JNull) 4 5)
         Demo.store
       = (respond 200 (tasks_page [] tp 4 total), st').
Proof.
  destruct (pages_concatenate Demo.libs Demo.ctx
              (Demo.request (Some "Bearer token-1") "" Demo.no_query JNull)
              {| jwt_userId := "1"; jwt_username := "user1"; jwt_role := role_user |}
              1 Demo.store 5
              (ex_intro _ "token-1" (conj eq_refl (conj eq_refl eq_refl)))
              ltac:(lia)) as [Hcat Hpast].
  split.
  - rewrite (Hcat 2%nat). reflexivity.
  - apply Hpast; [lia|]. vm_compute. discriminate.
Defined.

(** ** No partial writes *)

Ltac unfold_handlers :=
  unfold serve, route, authenticateToken, handler_of, register, login,
    get_profile, get_tasks, post_task, put_task, delete_task, try_catch,
    User_findOne_email_or_username, User_findOne_active, User_findById,
    User_save_new, User_save_lastLogin, Task_find, Task_countDocuments,
    Task_save_new, Task_findOneAndUpdate, Task_findOneAndDelete;
  db.

(** X12. On every route and for every request, an answer other than 200
    and 201 (a 400, 401, 403, 404 or 500) leaves both collections exactly
    as they were: a request that fails has written nothing. *)
Theorem failure_writes_nothing (L : Libs) (ctx : Context) (e : Endpoint) (req : Request)
  (st : Store) :
  res_status (fst (serve L ctx e req st)) <> 200 ->
  res_status (fst (serve L ctx e req st)) <> 201 ->
  users (snd (serve L ctx e req st)) = users st
  /\ tasks (snd (serve L ctx e req st)) = tasks st.
Proof.
  destruct e as [| |[]]; unfold_handlers; branches;
    intros H200 H201; try (now elim H200); try (now elim H201); auto.
Qed.

Lemma failure_writes_nothing_witness :
  users (snd (serve Demo.libs Demo.ctx (guarded PUT_tasks_id)
                (Demo.request (Some "Bearer token-1") "101" Demo.no_query
                   (JObject [("title", JString "   ")])) Demo.store))
  = users Demo.store
  /\ tasks (snd (serve Demo.libs Demo.ctx (guarded PUT_tasks_id)
                   (Demo.request (Some "Bearer token-1") "101" Demo.no_query
                      (JObject [("title", JString "   ")])) Demo.store))
     = tasks Demo.store.
Proof.
  apply (failure_writes_nothing Demo.libs Demo.ctx (guarded PUT_tasks_id)
           (Demo.request (Some "Bearer token-1") "101" Demo.no_query
              (JObject [("title", JString "   ")])) Demo.store);
    vm_compute; discriminate.
Defined.

(** X13. The two reading routes, [GET /api/tasks] and
    [GET /api/auth/profile], never change a collection, whatever the
    request and whatever they answer. *)
Theorem reads_write_nothing (L : Libs) (ctx : Context) (req : Request) (st : Store) :
  (users (snd (route L ctx GET_tasks req st)) = users st
   /\ tasks (snd (route L ctx GET_tasks req st)) = tasks st)
  /\ (users (snd (route L ctx GET_profile req st)) = users st
      /\ tasks (snd (route L ctx GET_profile req st)) = tasks st).
Proof.
  split; unfold_handlers; branches; auto.
Qed.

(** ** Edges of the path and of the query *)

(** X14. An id in the path that Mongoose cannot cast to an ObjectId is not
    answered 404: the cast throws inside the handler's [try], so Delete,
    and Update with a payload that passes validation, answer 500; the
    collections are not changed. *)
Theorem malformed_id_is_500 (L : Libs) (ctx : Context) (req : Request)
  (user : Identity) (who : N) (st : Store) :
  authenticated_as L ctx req user who ->
  cast_ObjectId L (params_id req) = None ->
  route L ctx DELETE_tasks_id req st
  = (respond 500 (error "Internal server error"),
     after_calls [c_Task_findOneAndDelete] st)
  /\ (forall value,
        taskSchema_validation L (req_body req) = Valid value ->
        route L ctx PUT_tasks_id req st
        = (respond 500 (error "Internal server error"),
           after_calls [c_Task_findOneAndUpdate] st)).
Proof.
  intros Hauth Hid.
  rewrite (route_authenticated L ctx DELETE_tasks_id req user who Hauth).
  rewrite (route_authenticated L ctx PUT_tasks_id req user who Hauth).
  cbn [handler_of]. split.
  - unfold delete_task, try_catch, Task_findOneAndDelete; db. now rewrite Hid.
  - intros value Hv. unfold put_task, try_catch. rewrite Hv.
    unfold Task_findOneAndUpdate; db. now rewrite Hid.
Qed.

Lemma malformed_id_is_500_witness :
  route Demo.libs Demo.ctx DELETE_tasks_id
    (Demo.request (Some "Bearer token-1") "not-an-id" Demo.no_query JNull) Demo.store
  = (respond 500 (error "Internal server error"),
     after_calls [c_Task_findOneAndDelete] Demo.store).
Proof.
  apply (malformed_id_is_500 Demo.libs Demo.ctx
           (Demo.request (Some "Bearer token-1") "not-an-id" Demo.no_query JNull)
           {| jwt_userId := "1"; jwt_username := "user1"; jwt_role := role_user |} 1
           Demo.store).
  - exists "token-1". repeat split.
  - reflexivity.
Defined.

(** X15. [limit=0] switches the page size off: whatever the page, the
    answer is 200 with all of the caller's matching tasks, and
    [totalPages], the ceiling of a division by zero, is no number
    (infinite, or NaN when there is no task). *)
Theorem limit_zero_returns_all (L : Libs) (ctx : Context) (req : Request)
  (user : Identity) (who : N) (st : Store) :
  authenticated_as L ctx req user who ->
  limit (query req) = Some 0 ->
  let found := matching req user who st in
  exists st',
    route L ctx GET_tasks req st
    = (respond 200
         (tasks_page (sort_createdAt_desc found)
            (match found with [] => JNaN | _ => JInf false end)
            (or_default 1 (page (query req))) (List.length found)),
       st').
Proof.
  intros Hauth Hl found.
  rewrite (route_authenticated L ctx GET_tasks req user who Hauth). cbn [handler_of].
  destruct Hauth as (token & _ & _ & Hw).
  rewrite (get_tasks_run L ctx req user st who Hw). cbv zeta. fold found.
  rewrite Hl. cbn [or_default]. rewrite !Z.mul_0_r. cbn [Z.ltb Z.compare].
  unfold window, ceil_div. cbn [Z.eqb Z.to_nat skipn].
  eexists. f_equal. f_equal. f_equal.
  destruct found; reflexivity.
Qed.

Lemma limit_zero_returns_all_witness :
  exists st',
    route Demo.libs Demo.ctx GET_tasks
      (Demo.request (Some "Bearer token-1") "" (paged 7 0) JNull) Demo.store
    = (respond 200
         (tasks_page (sort_createdAt_desc (owned 1 Demo.store)) (JInf false) 7 12), st').
Proof.
  destruct (limit_zero_returns_all Demo.libs Demo.ctx
              (Demo.request (Some "Bearer token-1") "" (paged 7 0) JNull)
              {| jwt_userId := "1"; jwt_username := "user1"; jwt_role := role_user |} 1
              Demo.store
              (ex_intro _ "token-1" (conj eq_refl (conj eq_refl eq_refl))) eq_refl)
    as [st' H].
  exists st'. exact H.
Defined.

(** ** The form of the client that creates a task *)

Lemma taskData_fields (iso : string -> string) (f : Client.TaskForm) :
  exists o,
    Client.taskData iso f = JObject o
    /\ lookup "title" o = Some (JString (Client.form_title f))
    /\ lookup "description" o = Some (JString (Client.form_description f))
    /\ lookup "status" o = None
    /\ lookup "priority" o = Some (JString (Client.form_priority f))
    /\ lookup "tags" o
       = Some (JArray (map JString (Client.tags_of (Client.form_tags f)))).
Proof.
  unfold Client.taskData. eexists. split; [reflexivity|].
  destruct (is_empty (Client.form_dueDate f)); repeat split.
Qed.

Lemma items_strings (L : Libs) (k : string) (rs : list rule) (i : nat)
  (l r : list string) :
  items k (string_ L [] rs) i (map JString l) = Valid r -> r = l.
Proof.
  revert i r. induction l as [|s l IH]; cbn [map items]; intros i r.
  - now intros [= <-].
  - destruct (string_ L [] rs (JString s)) as [c|a] eqn:Hs; [discriminate|].
    apply string_inv in Hs. destruct Hs as [[= <-] _].
    destruct (items k (string_ L [] rs) (S i) (map JString l)) as [r'|] eqn:Hr;
      cbn [and_then]; [|discriminate].
    intros [= <-]. f_equal. exact (IH _ _ Hr).
Qed.

Lemma items_blank (L : Libs) (k : string) (rs : list rule) (i : nat) (l : list string) :
  In EmptyString l ->
  exists d, items k (string_ L [] rs) i (map JString l) = Invalid d.
Proof.
  revert i. induction l as [|s l IH]; cbn [map items In]; intros i; [tauto|].
  intros [->|Hin].
  - cbn. eauto.
  - destruct (string_ L [] rs (JString s)); [eauto|].
    destruct (IH (S i) Hin) as [d ->]. cbn [and_then]. eauto.
Qed.

Lemma valid_inv {A : Type} (table : list (string * A)) (v : json) (a : A) :
  valid table v = inr a -> exists s, v = JString s /\ In (s, a) table.
Proof.
  unfold valid. destruct v; try discriminate.
  destruct (find _ table) as [[s' a']|] eqn:Hf; [|discriminate].
  cbn [snd]. intros [= ->]. apply find_some in Hf. destruct Hf as [Hin He].
  cbn [fst] in He. apply String.eqb_eq in He. subst s'. eauto.
Qed.

Lemma taskData_value (L : Libs) (iso : string -> string) (f : Client.TaskForm)
  (value : TaskValue) :
  taskSchema_validation L (Client.taskData iso f) = Valid value ->
  v_title value = Client.form_title f
  /\ v_description value = Some (Client.form_description f)
  /\ v_status value = None
  /\ (exists p, v_priority value = Some p /\ priority_name p = Client.form_priority f)
  /\ v_tags value = Some (Client.tags_of (Client.form_tags f)).
Proof.
  destruct (taskData_fields iso f) as (o & -> & Ht & Hd & Hs & Hp & Hg).
  unfold taskSchema_validation. cbn [Joi.object and_then].
  destruct (required "title" _ o) as [t|] eqn:Et; cbn [and_then]; [|discriminate].
  destruct (optional "description" _ o) as [d|] eqn:Ed; cbn [and_then]; [|discriminate].
  destruct (optional "status" _ o) as [s|] eqn:Es; cbn [and_then]; [|discriminate].
  destruct (optional "priority" _ o) as [p|] eqn:Ep; cbn [and_then]; [|discriminate].
  destruct (optional "dueDate" _ o) as [due|]; cbn [and_then]; [|discriminate].
  destruct (optional_array "tags" _ o) as [tg|] eqn:Eg; cbn [and_then]; [|discriminate].
  destruct (no_unknown _ o); cbn [and_then]; [|discriminate].
  intros [= <-]. cbn [v_title v_description v_status v_priority v_tags].
  apply required_inv in Et. destruct Et as (v & Hl & Hv).
  rewrite Ht in Hl. injection Hl as <-. apply string_inv in Hv.
  destruct Hv as [[= <-] _].
  unfold optional in Ed, Es, Ep. rewrite Hd in Ed. rewrite Hs in Es. rewrite Hp in Ep.
  unfold optional_array in Eg. rewrite Hg in Eg.
  destruct (string_ L [""] [max 500] _) as [|d'] eqn:Hv; [discriminate|].
  apply string_inv in Hv. destruct Hv as [[= <-] _]. injection Ed as <-.
  injection Es as <-.
  destruct (valid _ (JString (Client.form_priority f))) as [|p'] eqn:Hv; [discriminate|].
  injection Ep as <-. apply valid_inv in Hv. destruct Hv as (s' & [= <-] & Hin).
  destruct (items "tags" _ 0%nat _) as [r|] eqn:Hr; cbn [and_then] in Eg; [|discriminate].
  injection Eg as <-. apply items_strings in Hr. subst r.
  repeat split; auto.
  exists p'. split; [reflexivity|].
  cbn [In] in Hin. destruct Hin as [[= <- <-]|[[= <- <-]|[[= <- <-]|[]]]]; reflexivity.
Qed.

Lemma map_trim_tags_of (s : string) :
  map trim (Client.tags_of s) = Client.tags_of s.
Proof.
  unfold Client.tags_of. destruct (is_empty s); [reflexivity|].
  rewrite map_map. apply map_ext. intros a. apply trim_idempotent.
Qed.

(** X16. What the form of the client stores. When [POST /api/tasks]
    answers 201 to the [taskData] that [handleCreateTask] builds from the
    form, the stored task has the trimmed title and description of the
    form, the priority chosen in the form, the status [pending], and as
    tags exactly the pieces of the tags field between its commas, each
    trimmed (no tag when the field is empty). *)
Theorem form_is_stored (L : Libs) (ctx : Context) (iso : string -> string)
  (f : Client.TaskForm) (req : Request) (st st' : Store) (t : Task) :
  req_body req = Client.taskData iso f ->
  route L ctx POST_tasks req st = (respond 201 (task_json t), st') ->
  title t = trim (Client.form_title f)
  /\ description t = Some (trim (Client.form_description f))
  /\ priority_name (priority t) = Client.form_priority f
  /\ status t = pending
  /\ tags t = Client.tags_of (Client.form_tags f)
  /\ In t (tasks st').
Proof.
  intros Hb H.
  destruct (route_entered L ctx POST_tasks req st st' _ H) as (token & user & _ & _ & Hp);
    [discriminate|discriminate|].
  cbn [handler_of] in Hp.
  destruct (post_task_201 L ctx req user st st' _ Hp) as (value & who & Hv & _ & Ht & ->).
  injection Ht as ->. rewrite Hb in Hv.
  destruct (taskData_value L iso f value Hv) as (H1 & H2 & H3 & (p & H4 & H5) & H6).
  unfold created.
  cbn [taskSchema_pre_save new_Task title description priority status tags tasks].
  rewrite H1, H2, H3, H4, H6. cbn [option_map or_default].
  rewrite map_trim_tags_of. repeat split; auto.
  apply in_or_app. right. now left.
Qed.

Lemma form_is_stored_witness :
  let f := {| Client.form_title := " plant "; Client.form_description := "";
              Client.form_priority := "high"; Client.form_dueDate := "";
              Client.form_tags := "home, garden" |} in
  let t := {| task_id := 99; title := "plant"; description := Some "";
              status := pending; priority := high; dueDate := None;
              tags := ["home"; "garden"]; userId := 2;
              createdAt := 5000; updatedAt := 5001 |} in
  tags t = Client.tags_of (Client.form_tags f) /\ title t = trim (Client.form_title f).
Proof.
  cbv zeta.
  destruct (form_is_stored Demo.libs Demo.ctx (fun s => s)
              {| Client.form_title := " plant "; Client.form_description := "";
                 Client.form_priority := "high"; Client.form_dueDate := "";
                 Client.form_tags := "home, garden" |}
              (Demo.request (Some "Bearer token-2") "" Demo.no_query
                 (Client.taskData (fun s => s)
                    {| Client.form_title := " plant "; Client.form_description := "";
                       Client.form_priority := "high"; Client.form_dueDate := "";
                       Client.form_tags := "home, garden" |}))
              Demo.store
              (snd (route Demo.libs Demo.ctx POST_tasks
                      (Demo.request (Some "Bearer token-2") "" Demo.no_query
                         (Client.taskData (fun s => s)
                            {| Client.form_title := " plant "; Client.form_description := "";
                               Client.form_priority := "high"; Client.form_dueDate := "";
                               Client.form_tags := "home, garden" |}))
                      Demo.store))
              {| task_id := 99; title := "plant"; description := Some "";
                 status := pending; priority := high; dueDate := None;
                 tags := ["home"; "garden"]; userId := 2;
                 createdAt := 5000; updatedAt := 5001 |}
              eq_refl eq_refl) as (H1 & _ & _ & _ & H5 & _).
  split; [exact H5|exact H1].
Defined.

(** X17. A blank piece in the tags field makes the creation fail. When the
    tags field of the form has a piece that is empty once trimmed (a
    trailing comma, two commas in a row, a field of spaces), the request
    that [handleCreateTask] sends is answered 400 and nothing is stored:
    the client sends the empty tag and the schema refuses an empty
    string. *)
Theorem form_blank_tag_is_400 (L : Libs) (ctx : Context) (iso : string -> string)
  (f : Client.TaskForm) (req : Request) (user : Identity) (who : N) (st : Store) :
  authenticated_as L ctx req user who ->
  req_body req = Client.taskData iso f ->
  In EmptyString (Client.tags_of (Client.form_tags f)) ->
  exists d, route L ctx POST_tasks req st = (respond 400 (validation_error d), st).
Proof.
  intros Hauth Hb Hin.
  rewrite (route_authenticated L ctx POST_tasks req user who Hauth). cbn [handler_of].
  unfold post_task, try_catch. rewrite Hb.
  destruct (taskData_fields iso f) as (o & -> & _ & _ & _ & _ & Hg).
  assert (exists d, taskSchema_validation L (JObject o) = Invalid d) as [d ->].
  { unfold taskSchema_validation. cbn [Joi.object and_then].
    destruct (required "title" _ o); cbn [and_then]; [|eauto].
    destruct (optional "description" _ o); cbn [and_then]; [|eauto].
    destruct (optional "status" _ o); cbn [and_then]; [|eauto].
    destruct (optional "priority" _ o); cbn [and_then]; [|eauto].
    destruct (optional "dueDate" _ o); cbn [and_then]; [|eauto].
    unfold optional_array. rewrite Hg.
    destruct (items_blank L "tags" [max 20] 0 _ Hin) as [d ->]. cbn [and_then]. eauto. }
  exists d. reflexivity.
Qed.

Lemma form_blank_tag_is_400_witness :
  exists d,
    route Demo.libs Demo.ctx POST_tasks
      (Demo.request (Some "Bearer token-2") "" Demo.no_query
         (Client.taskData (fun s => s)
            {| Client.form_title := "plant"; Client.form_description := "";
               Client.form_priority := "medium"; Client.form_dueDate := "";
               Client.form_tags := "home, " |}))
      Demo.store
    = (respond 400 (validation_error d), Demo.store).
Proof.
  apply (form_blank_tag_is_400 Demo.libs Demo.ctx (fun s => s)
           {| Client.form_title := "plant"; Client.form_description := "";
              Client.form_priority := "medium"; Client.form_dueDate := "";
              Client.form_tags := "home, " |}
           (Demo.request (Some "Bearer token-2") "" Demo.no_query
              (Client.taskData (fun s => s)
                 {| Client.form_title := "plant"; Client.form_description := "";
                    Client.form_priority := "medium"; Client.form_dueDate := "";
                    Client.form_tags := "home, " |}))
           {| jwt_userId := "2"; jwt_username := "user2"; jwt_role := role_user |} 2%N
           Demo.store).
  - exists "token-2". repeat split.
  - reflexivity.
  - cbn. auto.
Defined.

(** ** The pages the client asks for *)

Lemma reachable_page_positive (p : Z) : Client.reachable_page p -> 1 <= p.
Proof. induction 1; lia. Qed.

(** X18. The pagination buttons of the client never lead below page 1, so
    the listing request of [fetchTasks] never reaches the negative skip of
    the handler: for every page the buttons can reach and whatever the
    filters, an authenticated request with [fetchTasks]'s parameters is
    answered 200 with at most 5 tasks, the 5 after the first
    [(page - 1) * 5] of the caller's matching tasks, and [totalPages] is
    the integer ceiling of their number over 5. *)
Theorem client_pages_are_served (L : Libs) (ctx : Context) (req : Request)
  (user : Identity) (who : N) (st : Store) (p : Z) (status priority : string) :
  Client.reachable_page p ->
  authenticated_as L ctx req user who ->
  query req = Client.fetch_query p status priority ->
  let found := matching req user who st in
  exists n,
    fst (route L ctx GET_tasks req st)
    = respond 200
        (tasks_page
           (firstn 5 (skipn (Z.to_nat ((p - 1) * 5)) (sort_createdAt_desc found)))
           (JInt n) p (List.length found))
    /\ (n - 1) * 5 < Z.of_nat (List.length found) <= n * 5
    /\ (List.length (tasks_shown (fst (route L ctx GET_tasks req st))) <= 5)%nat.
Proof.
  intros Hp Hauth Hq found. apply reachable_page_positive in Hp.
  rewrite (route_authenticated L ctx GET_tasks req user who Hauth). cbn [handler_of].
  destruct Hauth as (token & _ & _ & Hw).
  rewrite (get_tasks_in_range L ctx req user st who Hw);
    rewrite Hq; cbn [Client.fetch_query page limit or_default]; try lia.
  fold found.
  destruct (ceil_div_positive (Z.of_nat (List.length found)) 5) as (n & -> & Hn); try lia.
  exists n. cbn [fst]. change (Z.to_nat 5) with 5%nat.
  split; [reflexivity|]. split; [exact Hn|].
  unfold tasks_shown. cbn [res_json respond]. apply firstn_le_length.
Qed.

Lemma client_pages_are_served_witness :
  exists n,
    fst (route Demo.libs Demo.ctx GET_tasks
           (Demo.request (Some "Bearer token-1") "" (Client.fetch_query 2 "" "") JNull)
           Demo.store)
    = respond 200
        (tasks_page
           (firstn 5 (skipn 5 (sort_createdAt_desc (owned 1 Demo.store))))
           (JInt n) 2 12).
Proof.
  destruct (client_pages_are_served Demo.libs Demo.ctx
              (Demo.request (Some "Bearer token-1") "" (Client.fetch_query 2 "" "") JNull)
              {| jwt_userId := "1"; jwt_username := "user1"; jwt_role := role_user |} 1
              Demo.store 2 "" ""
              (Client.next_click 1 3 Client.first_page ltac:(lia) ltac:(lia))
              (ex_intro _ "token-1" (conj eq_refl (conj eq_refl eq_refl))) eq_refl)
    as (n & H & _).
  exists n. exact H.
Defined.

(** ** The list the client keeps after a creation *)

Lemma sort_newest_last (x : Task) (l : list Task) :
  Forall (fun y => createdAt y < createdAt x) l ->
  sort_createdAt_desc (l ++ [x]) = x :: sort_createdAt_desc l.
Proof.
  unfold sort_createdAt_desc. induction 1 as [|y l Hy Hl IH]; [reflexivity|].
  cbn [app fold_right]. rewrite IH. cbn [insert_desc].
  destruct (Z.leb_spec (createdAt x) (createdAt y)); [lia|reflexivity].
Qed.

Lemma Forall_filter_list {A : Type} (P : A -> Prop) (q : A -> bool) (l : list A) :
  Forall P l -> Forall P (filter q l).
Proof.
  induction 1 as [|y l Hy Hl IH]; cbn; [constructor|].
  destruct (q y); [constructor|]; assumption.
Qed.

(** X19. On the first page, the list the client shows after a creation is
    the list the server would send. Let the client show the first page of
    5 under its filters, let [POST /api/tasks] answer 201 at a time later
    than the creation of every stored task, and let the new task pass the
    client's filters: then [response.data] followed by the first 4 tasks
    shown, which is what [handleCreateTask] keeps, is exactly what
    [GET /api/tasks] answers for that page after the creation. *)
Theorem created_task_heads_first_page (L : Libs) (ctx ctx' : Context)
  (post get : Request) (user : Identity) (who : N) (st st' : Store) (t : Task)
  (status priority : string) :
  authenticated_as L ctx' get user who ->
  query get = Client.fetch_query 1 status priority ->
  route L ctx POST_tasks post st = (respond 201 (task_json t), st') ->
  Forall (fun t0 => createdAt t0 < now ctx) (tasks st) ->
  matches who (filter_of get user) t = true ->
  tasks_shown (fst (route L ctx' GET_tasks get st'))
  = Client.after_create t (tasks_shown (fst (route L ctx' GET_tasks get st))).
Proof.
  intros Hauth Hq Hpost Hnew Hm.
  destruct (route_entered L ctx POST_tasks post st st' _ Hpost)
    as (token & poster & _ & _ & Hp); [discriminate|discriminate|].
  cbn [handler_of] in Hp.
  destruct (post_task_201 L ctx post poster st st' _ Hp)
    as (value & owner & _ & _ & Ht & ->).
  injection Ht as Ht.
  assert (createdAt t = now ctx) as Hc by (now rewrite Ht).
  rewrite <- Ht. clear Ht Hp Hpost value owner poster token.
  rewrite !(route_authenticated L ctx' GET_tasks get user who Hauth). cbn [handler_of].
  destruct Hauth as (token & _ & _ & Hw).
  rewrite !(get_tasks_in_range L ctx' get user _ who Hw);
    rewrite ?Hq; cbn [Client.fetch_query page limit or_default]; try lia.
  cbn [fst tasks_shown res_json respond Z.sub Z.mul Z.add Z.opp Z.pos_sub Z.to_nat skipn].
  change (Pos.to_nat 5) with 5%nat.
  unfold matching at 1. cbn [tasks]. rewrite filter_app. cbn [filter]. rewrite Hm.
  fold (matching get user who st).
  rewrite sort_newest_last.
  - unfold Client.after_create. rewrite firstn_firstn. reflexivity.
  - apply Forall_filter_list. rewrite Hc. exact Hnew.
Qed.

Lemma created_task_heads_first_page_witness :
  let get := Demo.request (Some "Bearer token-2") "" (Client.fetch_query 1 "" "") JNull in
  let post := Demo.request (Some "Bearer token-2") "" Demo.no_query
                (JObject [("title", JString "plant")]) in
  let t := {| task_id := 99; title := "plant"; description := None;
              status := pending; priority := medium; dueDate := None;
              tags := []; userId := 2; createdAt := 5000; updatedAt := 5001 |} in
  tasks_shown (fst (route Demo.libs Scenario.later GET_tasks get
                      (snd (route Demo.libs Demo.ctx POST_tasks post Demo.store))))
  = Client.after_create t
      (tasks_shown (fst (route Demo.libs Scenario.later GET_tasks get Demo.store))).
Proof.
  cbv zeta.
  apply (created_task_heads_first_page Demo.libs Demo.ctx Scenario.later
           (Demo.request (Some "Bearer token-2") "" Demo.no_query
              (JObject [("title", JString "plant")]))
           (Demo.request (Some "Bearer token-2") "" (Client.fetch_query 1 "" "") JNull)
           {| jwt_userId := "2"; jwt_username := "user2"; jwt_role := role_user |} 2%N
           Demo.store _ _ "" "").
  - exists "token-2". repeat split.
  - reflexivity.
  - reflexivity.
  - cbn. repeat (constructor; [cbn; lia|]). constructor.
  - reflexivity.
Defined.

(** ** The list the client keeps after a deletion *)

Lemma without_absent_id (i : N) (l : list Task) :
  ~ In i (map task_id l) -> Client.after_delete i l = l.
Proof.
  unfold Client.after_delete.
  induction l as [|x l IH]; cbn [map In filter]; intros H; [reflexivity|].
  destruct (N.eqb_spec (task_id x) i) as [E|E]; cbn [negb].
  - elim H. now left.
  - f_equal. apply IH. tauto.
Qed.

Lemma length_without_id (i : N) (l : list Task) :
  NoDup (map task_id l) -> In i (map task_id l) ->
  S (List.length (Client.after_delete i l)) = List.length l.
Proof.
  induction l as [|x l IH]; cbn [map In]; intros Hnd Hin; [contradiction|].
  inversion Hnd as [|? ? Hx Hl]; subst.
  unfold Client.after_delete. cbn [filter].
  destruct (N.eqb_spec (task_id x) i) as [E|E]; cbn [negb].
  - fold (Client.after_delete i l). rewrite without_absent_id; [reflexivity|].
    now rewrite <- E.
  - cbn [List.length]. f_equal. apply IH; [exact Hl|]. tauto.
Qed.

Lemma NoDup_app_in {A : Type} (l1 l2 : list A) (x : A) :
  NoDup (l1 ++ l2) -> In x l1 -> In x l2 -> False.
Proof.
  induction l1 as [|y l1 IH]; cbn [app In]; intros Hnd H1 H2; [contradiction|].
  inversion Hnd as [|? ? Hy Hl]; subst.
  destruct H1 as [->|H1].
  - apply Hy. apply in_or_app. now right.
  - now apply IH.
Qed.

Lemma page_without_id (i : N) (a b c : list Task) :
  NoDup (map task_id (a ++ b ++ c)) ->
  In i (map task_id b) ->
  (List.length b <= 5)%nat -> (c <> [] -> List.length b = 5%nat) ->
  firstn 5 (skipn (List.length a) (Client.after_delete i (a ++ b ++ c)))
  = (Client.after_delete i b ++ firstn 1 c)%list.
Proof.
  intros Hnd Hin Hb Hc. rewrite !map_app in Hnd.
  assert (Ha : ~ In i (map task_id a)).
  { intros H. apply (NoDup_app_in _ _ i Hnd H). apply in_or_app. now left. }
  assert (Hc' : ~ In i (map task_id c)).
  { intros H. apply NoDup_app_remove_l in Hnd. exact (NoDup_app_in _ _ i Hnd Hin H). }
  assert (Hlen : S (List.length (Client.after_delete i b)) = List.length b).
  { apply length_without_id; [|exact Hin].
    apply NoDup_app_remove_l in Hnd. now apply NoDup_app_remove_r in Hnd. }
  unfold Client.after_delete at 1. rewrite !filter_app.
  fold (Client.after_delete i a) (Client.after_delete i b) (Client.after_delete i c).
  rewrite (without_absent_id i a Ha), (without_absent_id i c Hc').
  rewrite skipn_app, skipn_all, Nat.sub_diag, skipn_0. cbn [app].
  rewrite firstn_app, firstn_all2 by lia. f_equal.
  destruct c as [|z c]; [now rewrite !firstn_nil|].
  rewrite Hc in Hlen by discriminate.
  injection Hlen as ->. reflexivity.
Qed.

Lemma page_after_delete (i : N) (k : nat) (s : list Task) :
  NoDup (map task_id s) ->
  In i (map task_id (firstn 5 (skipn k s))) ->
  firstn 5 (skipn k (Client.after_delete i s))
  = (Client.after_delete i (firstn 5 (skipn k s)) ++ firstn 1 (skipn (5 + k) s))%list.
Proof.
  intros Hnd Hin.
  assert (Hs : s = (firstn k s ++ firstn 5 (skipn k s) ++ skipn 5 (skipn k s))%list)
    by now rewrite !firstn_skipn.
  assert (Hk : List.length (firstn k s) = k).
  { apply firstn_length_le.
    destruct (Nat.le_gt_cases k (List.length s)) as [H|H]; [exact H|].
    rewrite (skipn_all2 s) in Hin by lia. rewrite firstn_nil in Hin. contradiction. }
  rewrite <- skipn_skipn.
  rewrite Hs in Hnd.
  pose proof (page_without_id i _ _ _ Hnd Hin (firstn_le_length 5 _)) as H.
  rewrite Hk, <- Hs in H. apply H.
  intros Hne. rewrite length_firstn. apply Nat.min_l.
  destruct (Nat.le_gt_cases 5 (List.length (skipn k s))) as [H5|H5]; [exact H5|].
  elim Hne. apply skipn_all2. lia.
Qed.

Lemma remove_first_by_id (i w : N) (l : list Task) (d : Task) :
  NoDup (map task_id l) -> find (owned_with_id i w) l = Some d ->
  remove_first (owned_with_id i w) l = Client.after_delete i l.
Proof.
  induction l as [|x l IH]; cbn [map find remove_first]; intros Hnd Hf; [discriminate|].
  inversion Hnd as [|? ? Hx Hl]; subst.
  unfold Client.after_delete. cbn [filter]. fold (Client.after_delete i l).
  destruct (owned_with_id i w x) eqn:Ho.
  - unfold owned_with_id in Ho. apply andb_true_iff in Ho. destruct Ho as [Hi _].
    rewrite Hi. cbn [negb]. apply N.eqb_eq in Hi. subst i.
    now rewrite without_absent_id.
  - destruct (find_some _ _ Hf) as [Hin Hd].
    unfold owned_with_id in Hd. apply andb_true_iff in Hd. destruct Hd as [Hi _].
    apply N.eqb_eq in Hi.
    destruct (N.eqb_spec (task_id x) i) as [E|E]; cbn [negb].
    + elim Hx. rewrite E, <- Hi. now apply in_map.
    + f_equal. now apply IH.
Qed.

Lemma filter_comm {A : Type} (p q : A -> bool) (l : list A) :
  filter p (filter q l) = filter q (filter p l).
Proof.
  induction l as [|x l IH]; [reflexivity|]. cbn [filter].
  destruct (p x) eqn:Hp, (q x) eqn:Hq; cbn [filter]; rewrite ?Hp, ?Hq, IH; reflexivity.
Qed.

Lemma insert_desc_newest (x : Task) (l : list Task) :
  Forall (fun z => createdAt z <= createdAt x) l -> insert_desc x l = x :: l.
Proof.
  destruct 1 as [|z l Hz _]; [reflexivity|]. cbn [insert_desc].
  destruct (Z.leb_spec (createdAt z) (createdAt x)); [reflexivity|lia].
Qed.

Lemma filter_insert_desc_kept (q : Task -> bool) (x : Task) (l : list Task) :
  StronglySorted latest_first l -> q x = true ->
  filter q (insert_desc x l) = insert_desc x (filter q l).
Proof.
  intros Hs Hq. induction Hs as [|y l Hs IH Hy]; cbn [insert_desc filter].
  - now rewrite Hq.
  - destruct (Z.leb_spec (createdAt y) (createdAt x)) as [Hle|Hlt].
    + cbn [filter]. rewrite Hq. destruct (q y).
      * cbn [insert_desc]. destruct (Z.leb_spec (createdAt y) (createdAt x)); [reflexivity|lia].
      * symmetry. apply insert_desc_newest. apply Forall_filter_list.
        apply (Forall_impl _ (P := latest_first y)); [|exact Hy].
        unfold latest_first. intros z Hz. lia.
    + cbn [filter]. destruct (q y).
      * cbn [insert_desc]. destruct (Z.leb_spec (createdAt y) (createdAt x)); [lia|].
        f_equal. exact IH.
      * exact IH.
Qed.

Lemma filter_insert_desc_dropped (q : Task -> bool) (x : Task) (l : list Task) :
  q x = false -> filter q (insert_desc x l) = filter q l.
Proof.
  intros Hq. induction l as [|y l IH]; cbn [insert_desc filter].
  - now rewrite Hq.
  - destruct (createdAt y <=? createdAt x); cbn [filter].
    + now rewrite Hq.
    + now rewrite IH.
Qed.

Lemma sort_filter (q : Task -> bool) (l : list Task) :
  sort_createdAt_desc (filter q l) = filter q (sort_createdAt_desc l).
Proof.
  induction l as [|x l IH]; [reflexivity|].
  cbn [filter]. change (sort_createdAt_desc (x :: l))
    with (insert_desc x (sort_createdAt_desc l)).
  destruct (q x) eqn:Hq.
  - rewrite filter_insert_desc_kept by (apply sort_sorted || exact Hq).
    rewrite <- IH. reflexivity.
  - now rewrite filter_insert_desc_dropped.
Qed.

Lemma NoDup_map_filter {A B : Type} (g : A -> B) (p : A -> bool) (l : list A) :
  NoDup (map g l) -> NoDup (map g (filter p l)).
Proof.
  induction l as [|x l IH]; cbn [map filter]; intros Hnd; [constructor|].
  inversion Hnd as [|? ? Hx Hl]; subst.
  destruct (p x); cbn [map]; [|now apply IH].
  constructor; [|now apply IH].
  intros Hin. apply Hx. apply in_map_iff in Hin. destruct Hin as (y & Hy & Hin).
  apply filter_In in Hin. apply in_map_iff. exists y. tauto.
Qed.

(** X20. The list the client keeps after a deletion agrees with the
    server. Let the client show a page of 5 under its filters and delete
    one of the tasks shown ([DELETE /api/tasks/:id] answers 200; task ids
    are unique). The list [handleDeleteTask] keeps, the tasks shown
    without the deleted one, is then the page the server would now send,
    short only of the task that moves up from the next page: the new page
    is the kept list followed by the first task of the old next page, if
    there is one. *)
Theorem deleted_task_leaves_page (L : Libs) (ctx ctx' : Context) (del get : Request)
  (user : Identity) (who i : N) (st st' : Store) (b : Body) (p : Z)
  (status priority : string) :
  task_ids_unique st ->
  1 <= p ->
  authenticated_as L ctx' get user who ->
  query get = Client.fetch_query p status priority ->
  route L ctx DELETE_tasks_id del st = (respond 200 b, st') ->
  cast_ObjectId L (params_id del) = Some i ->
  In i (map task_id (tasks_shown (fst (route L ctx' GET_tasks get st)))) ->
  tasks_shown (fst (route L ctx' GET_tasks get st'))
  = (Client.after_delete i (tasks_shown (fst (route L ctx' GET_tasks get st)))
     ++ firstn 1 (tasks_shown
                    (fst (route L ctx' GET_tasks (with_page get (p + 1) 5) st))))%list.
Proof.
  intros Huniq Hp Hauth Hq Hdel Hi.
  destruct (route_entered L ctx DELETE_tasks_id del st st' _ Hdel)
    as (token & deleter & _ & _ & Hd); [discriminate|discriminate|].
  cbn [handler_of] in Hd.
  destruct (delete_task_200 L ctx del deleter st st' _ Hd)
    as (i' & w & d & Hi' & _ & Hf & _ & _ & Ht).
  rewrite Hi in Hi'. injection Hi' as <-.
  rewrite (remove_first_by_id i w (tasks st) d Huniq Hf) in Ht.
  pose proof (authenticated_with_page L ctx' get user who (p + 1) 5 Hauth) as Hauth'.
  rewrite !(route_authenticated L ctx' GET_tasks get user who Hauth).
  rewrite (route_authenticated L ctx' GET_tasks _ user who Hauth').
  cbn [handler_of].
  destruct Hauth as (tok & _ & _ & Hw).
  rewrite !(get_tasks_in_range L ctx' get user _ who Hw);
    rewrite ?Hq; cbn [Client.fetch_query page limit or_default]; try lia.
  rewrite (get_tasks_in_range L ctx' (with_page get (p + 1) 5) user st who Hw);
    cbn [with_page query page limit or_default]; try lia.
  cbn [fst tasks_shown res_json respond]. change (Z.to_nat 5) with 5%nat.
  change (matching (with_page get (p + 1) 5) user who st) with (matching get user who st).
  replace (Z.to_nat ((p + 1 - 1) * 5)) with (5 + Z.to_nat ((p - 1) * 5))%nat by lia.
  rewrite firstn_firstn. cbn [Nat.min].
  change (matching get user who st')
    with (filter (matches who (filter_of get user)) (tasks st')).
  rewrite Ht. unfold Client.after_delete at 1.
  rewrite filter_comm. rewrite sort_filter.
  fold (matching get user who st).
  fold (Client.after_delete i (sort_createdAt_desc (matching get user who st))).
  intros Hin. apply page_after_delete; [|exact Hin].
  apply (Permutation_NoDup (Permutation_map task_id (sort_perm _))).
  unfold matching. apply NoDup_map_filter. exact Huniq.
Qed.

(** Alice sees tasks 112 to 108 and deletes 110: the server's first page
    is now 112, 111, 109, 108 and, from the old second page, 107. *)
Lemma deleted_task_leaves_page_witness :
  let get := Demo.request (Some "Bearer token-1") "" (Client.fetch_query 1 "" "") JNull in
  let del := Demo.request (Some "Bearer token-1") "110" Demo.no_query JNull in
  map task_id
    (tasks_shown
       (fst (route Demo.libs Scenario.later GET_tasks get
               (snd (route Demo.libs Demo.ctx DELETE_tasks_id del Demo.store)))))
  = [112; 111; 109; 108; 107]%N.
Proof.
  cbv zeta.
  refine (eq_trans
            (f_equal (map task_id)
               (deleted_task_leaves_page Demo.libs Demo.ctx Scenario.later
                  (Demo.request (Some "Bearer token-1") "110" Demo.no_query JNull)
                  (Demo.request (Some "Bearer token-1") "" (Client.fetch_query 1 "" "") JNull)
                  {| jwt_userId := "1"; jwt_username := "user1"; jwt_role := role_user |}
                  1%N 110%N Demo.store
                  (snd (route Demo.libs Demo.ctx DELETE_tasks_id
                          (Demo.request (Some "Bearer token-1") "110" Demo.no_query JNull)
                          Demo.store))
                  (message "Task deleted successfully") 1 "" ""
                  demo_task_ids_unique _
                  (ex_intro _ "token-1" (conj eq_refl (conj eq_refl eq_refl)))
                  eq_refl eq_refl eq_refl _))
            eq_refl).
  - lia.
  - vm_compute. tauto.
Defined.
